(** * infa_mcc_utils: catalog-source scanner and classification import/export

    A shallow embedding of the three scripts of the repository

      - [catalog_sources/mcc_run_scanner.py]
      - [classifications/mcc_import_classification.py]
      - [classifications/mcc_export_classification.py]

    together with the properties of their core functions.  Python values are
    modelled as they are used by the scripts: strings are sequences of
    Unicode code points, JSON documents are a small inductive type,
    dictionaries are finite maps from strings to JSON values, exceptions are
    an explicit error result, and everything the scripts obtain from outside
    (the REST client, the clock, the file system, the command line as
    [argparse] reads it, and the interpreter's Unicode tables and sleep) is
    an explicit argument. *)

From Stdlib Require Import ZArith NArith Lia.
From stdpp Require Import base option list strings gmap.

(** ** Python strings *)

Module PyStr.

(** A Python [str] is a sequence of Unicode code points. *)
Abbreviation codepoint := N.
Abbreviation pystr := (list N).

(** [str "abc"] is the Python literal ['abc'].  Only used for ASCII
    literals: a Rocq string is a sequence of bytes. *)
Definition str (s : String.string) : pystr :=
  Ascii.N_of_ascii <$> String.list_ascii_of_string s.
Arguments str s%_string.

Definition in_range (lo hi c : N) : bool := (lo <=? c)%N && (c <=? hi)%N.

(** An ASCII letter in the other case; any other code point as it is. *)
Definition ascii_upper (c : codepoint) : codepoint :=
  if in_range 97 122 c then (c - 32)%N else c.
Definition ascii_lower (c : codepoint) : codepoint :=
  if in_range 65 90 c then (c + 32)%N else c.

(** The alphanumeric characters, in the sense of [str.isalnum], among the
    code points U+0000..U+00FF (Basic Latin and Latin-1 Supplement). *)
Definition latin1_isalnum (c : codepoint) : bool :=
  existsb (fun r => in_range r.1 r.2 c)
    [(48, 57); (65, 90); (97, 122); (170, 170); (178, 179); (181, 181);
     (185, 186); (188, 190); (192, 214); (216, 246); (248, 255)]%N.

(** [s.endswith(suffix)]. *)
Definition endswith (s suffix : pystr) : bool :=
  bool_decide (drop (length s - length suffix) s = suffix).

(** [sub in s]: [sub] occurs in [s] as a substring. *)
Fixpoint contains (s sub : pystr) : bool :=
  bool_decide (take (length sub) s = sub)
  || match s with
     | [] => false
     | _ :: rest => contains rest sub
     end.

End PyStr.
Export PyStr.

(** ** JSON values, dictionaries, exceptions *)

Module Py.

(** The values [json.load] produces; Python's [None] is [JNull]. *)
#[warnings="-register-all"]
Inductive json :=
| JNull
| JBool (b : bool)
| JNum (n : Z)
| JStr (s : pystr)
| JArr (l : list json)
| JObj (l : list (pystr * json)).

(** A Python [dict] with string keys. *)
Abbreviation dict := (gmap pystr json).

(** Truth value of an object, as tested by [if x:]. *)
Definition truthy (v : json) : bool :=
  match v with
  | JNull => false
  | JBool b => b
  | JNum n => negb (n =? 0)%Z
  | JStr s => negb (bool_decide (s = []))
  | JArr l => match l with [] => false | _ => true end
  | JObj l => match l with [] => false | _ => true end
  end.

(** Truth value of a [dict]: false exactly for the empty one. *)
Definition dict_truthy (d : dict) : bool := negb (bool_decide (d = ∅)).

(** [d.get(k)], with a missing key giving [None]. *)
Definition get (d : dict) (k : pystr) : json :=
  match d !! k with Some v => v | None => JNull end.

(** [d.get(k, dflt)]. *)
Definition get_default (d : dict) (k : pystr) (dflt : json) : json :=
  match d !! k with Some v => v | None => dflt end.

(** [a or b]. *)
Definition py_or (a b : json) : json := if truthy a then a else b.

(** The exception classes the scripts raise or catch.  All of them derive
    from [Exception]; messages are not modelled. *)
Inductive exn :=
| TimeoutError
| CDGCAPIError
| KeyError
| IndexError
| AttributeError
| ValueError
| TypeError
| OverflowError
| FileNotFoundError
| NotADirectoryError
| JSONDecodeError
| OSError.

(** The outcome of evaluating an expression: a value or a raised
    exception. *)
Inductive result (A : Type) :=
| Ok (a : A)
| Raise (e : exn).
Arguments Ok {A} a.
Arguments Raise {A} e.

(** What the scripts take from the interpreter they run on.  The results of
    [str.upper], [str.lower] and [str.isalnum] are given by the Unicode
    character database of the interpreter, over all of Unicode, and
    [time.sleep] accepts the durations the time type of the platform can
    hold.  None of this is fixed by the scripts, so the interpreter is an
    argument of everything that uses these functions, and what is proved
    holds on every interpreter. *)
Class Runtime := {
  (** [s.upper()] and [s.lower()] *)
  upper : pystr -> pystr;
  lower : pystr -> pystr;
  (** [c.isalnum()], for a string [c] of one character *)
  isalnum : codepoint -> bool;
  (** [time.sleep(d)] for [d >= 0]: the exception raised for a duration
      that is too large ([OverflowError], [OSError]), if it is *)
  sleep_error : Z -> option exn
}.

(** What is known of these functions on every interpreter: on ASCII text
    [upper] and [lower] change the 26 letters and nothing else; on
    U+0000..U+00FF [isalnum] is as tabulated; and a sleep of no duration
    is accepted. *)
Record conforms (py : Runtime) : Prop := {
  upper_ascii : ∀ s, Forall (fun c => (c < 128)%N) s → upper s = ascii_upper <$> s;
  lower_ascii : ∀ s, Forall (fun c => (c < 128)%N) s → lower s = ascii_lower <$> s;
  isalnum_latin1 : ∀ c, (c < 256)%N → isalnum c = latin1_isalnum c;
  sleep_zero : sleep_error 0 = None
}.

(** [v.lower()] and [v.upper()] on an arbitrary value: only [str] has these
    methods, everything else raises [AttributeError]. *)
Definition method_lower {py : Runtime} (v : json) : result pystr :=
  match v with JStr s => Ok (lower s) | _ => Raise AttributeError end.
Definition method_upper {py : Runtime} (v : json) : result pystr :=
  match v with JStr s => Ok (upper s) | _ => Raise AttributeError end.

(** Computations over a world [W] that may raise: the world is kept when an
    exception is raised, since effects already performed stay performed. *)
Definition M (W A : Type) : Type := W -> result A * W.

Definition ret {W A} (a : A) : M W A := fun w => (Ok a, w).
Definition raise {W A} (e : exn) : M W A := fun w => (Raise e, w).
Definition bind {W A B} (m : M W A) (k : A -> M W B) : M W B :=
  fun w => match m w with
           | (Ok a, w') => k a w'
           | (Raise e, w') => (Raise e, w')
           end.
(** [try: m  except Exception: h]. *)
Definition try_except {W A} (m : M W A) (h : exn -> M W A) : M W A :=
  fun w => match m w with
           | (Ok a, w') => (Ok a, w')
           | (Raise e, w') => h e w'
           end.
(** Lifting of a pure, possibly raising, expression. *)
Definition lift {W A} (r : result A) : M W A := fun w => (r, w).

End Py.
Export Py.

Declare Scope py_scope.
Delimit Scope py_scope with py.
Notation "'let*' x ':=' m 'in' k" := (bind m (fun x => k))
  (at level 10, x pattern, m at level 100, k at level 200) : py_scope.
Notation "m ';;' k" := (bind m (fun _ => k))
  (at level 100, k at level 200, right associativity) : py_scope.
Notation "'let?' x ':=' r 'in' k" :=
  (match r with Ok x => k | Raise e => Raise e end)
  (at level 10, x pattern, r at level 100, k at level 200) : py_scope.
Open Scope py_scope.

(** [while True: body], where [body] yields [Some a] for [return a] and
    [None] when it falls through to the next iteration.  The loop need not
    terminate, so it is run for at most [fuel] iterations; [None] means the
    loop is still running after that many. *)
Fixpoint while_true {W A} (fuel : nat) (body : M W (option A)) (w : W)
  : option (result A * W) :=
  match fuel with
  | O => None
  | S fuel' =>
      match body w with
      | (Ok (Some a), w') => Some (Ok a, w')
      | (Ok None, w') => while_true fuel' body w'
      | (Raise e, w') => Some (Raise e, w')
      end
  end.

(** [d[k]]: a missing key raises [KeyError]. *)
Definition subscript (d : dict) (k : pystr) : result json :=
  match d !! k with Some v => Ok v | None => Raise KeyError end.

(** [x in [a, b, ...]] for strings. *)
Definition str_in (x : pystr) (l : list pystr) : bool := bool_decide (x ∈ l).

(** ** catalog_sources/mcc_run_scanner.py *)

Module Scanner.

(** One search hit: the two sub-dictionaries the script reads. *)
Record Asset := { summary : dict; systemAttributes : dict }.

(** The response of [search_assets]: [total_hits] is the outcome of
    evaluating [int(searchResults['summary']['total_hits'])] (which raises
    when the field is missing or not a number), [hits] is
    [searchResults['hits']]. *)
Record SearchResults := { total_hits : result Z; hits : list Asset }.

(** One entry of [filterSpec] and the request body of a search. *)
Record FilterSpec := { type_ : pystr; expr : pystr }.
Record SearchBody := { from_ : Z; size : Z; filterSpec : list FilterSpec }.

(** The client [cdgc], as far as the script uses it (the wrapper itself is
    not part of the repository).  A call either returns or raises.
    [search_assets] may return a falsy response ([None]);
    [get_job_status job_id n] is the outcome of the [n]-th status request
    (counted from 0) for the job. *)
Record CDGC := {
  search_assets : pystr -> pystr -> SearchBody -> result (option SearchResults);
  run_catalog_source_job : json -> option (list pystr) -> result dict;
  get_job_status : json -> nat -> result dict
}.

(** The [for asset in searchResults['hits']] loop of
    [search_catalog_source]: [Ok (Some asset)] when the loop returns
    [asset], [Ok None] when it runs to its end. *)
Fixpoint exact_match_loop {py : Runtime} (hits : list Asset) (sourceName : pystr)
  : result (option Asset) :=
  match hits with
  | [] => Ok None
  | asset :: rest =>
      let? name := subscript (summary asset) (str "core.name") in
      let? lowered := method_lower name in
      if bool_decide (lowered = lower sourceName) then Ok (Some asset)
      else exact_match_loop rest sourceName
  end.

Definition search_body (sourceName : pystr) : SearchBody :=
  {| from_ := 0; size := 100;
     filterSpec :=
       [ {| type_ := str "dsl";
            expr := str "core.classType core.Resource and core.reference False and core.name '"
                      ++ sourceName ++ str "'" |} ] |}.

(** The body of the [try] block of [search_catalog_source]. *)
Definition search_catalog_source_try {py : Runtime} (cdgc : CDGC) (sourceName : pystr)
  : result (bool * option Asset) :=
  let? searchResults :=
    search_assets cdgc (str "*") (str "all") (search_body sourceName) in
  match searchResults with
  | None => Ok (false, None)
  | Some searchResults =>
      let? total := total_hits searchResults in
      if (0 <? total)%Z then
        let? found := exact_match_loop (hits searchResults) sourceName in
        match found with
        | Some asset => Ok (true, Some asset)
        | None =>
            (* the warning formats hits[0]['summary']['core.name'] *)
            match hits searchResults with
            | [] => Raise IndexError
            | first :: _ =>
                let? _ := subscript (summary first) (str "core.name") in
                Ok (true, Some first)
            end
        end
      else Ok (false, None)
  end.

Definition search_catalog_source {py : Runtime} (cdgc : CDGC) (sourceName : pystr)
  : bool * option Asset :=
  match search_catalog_source_try cdgc sourceName with
  | Ok r => r
  | Raise _ => (false, None)
  end.

(** The job handle built by a successful launch. *)
Definition job_handle (job_id job_uri name id : json) : dict :=
  <[str "jobId" := job_id]>
    (<[str "jobUri" := job_uri]>
       (<[str "catalogSourceName" := name]>
          (<[str "catalogSourceId" := id]> ∅))).

Definition execute_catalog_source (cdgc : CDGC) (catalogSource : Asset)
    (capabilities : option (list pystr)) : bool * option dict :=
  let catalog_source_id := get (systemAttributes catalogSource) (str "core.origin") in
  let catalog_source_name := get (summary catalogSource) (str "core.name") in
  match run_catalog_source_job cdgc catalog_source_id capabilities with
  | Ok result =>
      let job_id := get result (str "jobId") in
      let job_uri := py_or (get result (str "jobUri")) (get result (str "trackingURI")) in
      if truthy job_id then
        (true, Some (job_handle job_id job_uri catalog_source_name catalog_source_id))
      else (false, None)
  | Raise CDGCAPIError => (false, None)
  | Raise _ => (false, None)
  end.

(** What the monitor does to the outside, in the order it does it. *)
Inductive event :=
| EvTime                 (* a call of time.time() *)
| EvPoll (job_id : json) (* a call of cdgc.jobs.get_job_status(job_id) *)
| EvSleep (d : Z).       (* a call of time.sleep(d) *)

(** The world of the monitor: how many clock readings and status requests
    were made so far, and the log of all calls. *)
Record World := { ticks : nat; polls : nat; log : list event }.

(** [time.time()]: the clock is an oracle giving the reading of each
    successive call, in some fixed unit of time. *)
Definition time_time (clock : nat -> Z) : M World Z :=
  fun w => (Ok (clock (ticks w)),
            {| ticks := S (ticks w); polls := polls w; log := log w ++ [EvTime] |}).

(** [time.sleep(d)]: raises [ValueError] for a negative duration, and the
    error of the platform for a duration it cannot hold. *)
Definition time_sleep {py : Runtime} (d : Z) : M World unit :=
  fun w => if (d <? 0)%Z then (Raise ValueError, w)
           else match sleep_error d with
                | Some e => (Raise e, w)
                | None => (Ok tt, {| ticks := ticks w; polls := polls w;
                                     log := log w ++ [EvSleep d] |})
                end.

(** [cdgc.jobs.get_job_status(job_id)]. *)
Definition jobs_get_job_status (cdgc : CDGC) (job_id : json) : M World dict :=
  fun w => (get_job_status cdgc job_id (polls w),
            {| ticks := ticks w; polls := S (polls w);
               log := log w ++ [EvPoll job_id] |}).

(** One pass through the body of the [while True] loop of [monitor_job]. *)
Definition monitor_iteration {py : Runtime} (cdgc : CDGC) (clock : nat -> Z) (job_id : json)
    (poll_interval timeout start_time : Z) : M World (option (bool * option dict)) :=
  let* now := time_time clock in
  if (now - start_time >? timeout)%Z then raise TimeoutError
  else
    let* status := jobs_get_job_status cdgc job_id in
    let* job_state := lift (method_upper (get_default status (str "status") (JStr (str "")))) in
    if str_in job_state [str "COMPLETED"; str "SUCCESS"; str "SUCCESSFUL"] then
      ret (Some (true, Some status))
    else if str_in job_state [str "PARTIAL_COMPLETED"] then
      ret (Some (true, Some status))
    else if str_in job_state [str "FAILED"; str "ERROR"; str "CANCELLED"] then
      raise CDGCAPIError
    else
      time_sleep poll_interval ;;
      ret None.

(** [monitor_job(cdgc, job_info, poll_interval, timeout)].  [None] when the
    loop is still running after [fuel] iterations; otherwise the outcome
    of the call (a returned pair or an exception that leaves the function)
    and the world it leaves behind. *)
Definition monitor_job {py : Runtime} (fuel : nat) (cdgc : CDGC) (clock : nat -> Z)
    (job_info : dict) (poll_interval timeout : Z) (w : World)
  : option (result (bool * option dict) * World) :=
  match subscript job_info (str "jobId") with
  | Raise e => Some (Raise e, w)
  | Ok job_id =>
      match time_time clock w with
      | (Raise e, w1) => Some (Ok (false, None), w1)
      | (Ok start_time, w1) =>
          match while_true fuel
                  (monitor_iteration cdgc clock job_id poll_interval timeout start_time) w1 with
          | None => None
          | Some (Ok r, w') => Some (Ok r, w')
          | Some (Raise TimeoutError, w') => Some (Ok (false, None), w')
          | Some (Raise CDGCAPIError, w') => Some (Ok (false, None), w')
          | Some (Raise _, w') => Some (Ok (false, None), w')
          end
      end
  end.

End Scanner.

(** ** The classification scripts: objects, client, file system *)

Module Classifications.

(** Dictionaries are objects: a variable holds a reference to one, and two
    variables may hold the same reference. *)
Definition loc := nat.

(** [client.classifications], as far as the scripts use it (the wrapper is
    not part of the repository).  The remote store has a state of some type
    [Σ]; every call returns or raises and may change that state. *)
Record ClassificationsApi (Σ : Type) := {
  get_all_classifications : Σ -> result (list dict) * Σ;
  update_classification : json -> dict -> Σ -> result json * Σ;
  import_classification : dict -> Σ -> result json * Σ
}.
Arguments get_all_classifications {Σ}.
Arguments update_classification {Σ}.
Arguments import_classification {Σ}.

(** What a path holds, as seen by [read_classification_file]: no file
    ([os.path.exists] is false); a file on which [open] or [json.load]
    raises [e]; or a JSON document, which is an object, a string, an array,
    or a number, [true], [false] or [null]. *)
Inductive file :=
| Missing
| Broken (e : exn)
| Object (d : dict)
| Text (s : pystr)
| Array (l : list json)
| Scalar.

(** The file system and [os] functions the scripts call; [os.listdir]
    returns the names in a directory or raises. *)
Record FileSystem := {
  isdir : pystr -> bool;
  listdir : pystr -> result (list pystr);
  read_file : pystr -> file;
  makedirs : pystr -> result unit;
  write_file : pystr -> dict -> result unit
}.

(** What the variable [data] of [read_classification_file] holds: a
    reference to a dictionary object, or a value that is not a
    dictionary. *)
Inductive value :=
| Ref (l : loc)
| Plain (v : json).

(** Calls to the outside and log lines, in the order they happen. *)
Inductive event :=
| CallGetAll
| CallUpdate (id : json) (payload : dict)
| CallCreate (payload : dict)
| CallMakedirs (dir : pystr)
| CallWrite (path : pystr) (content : dict)
| LogProcessing (name : json)
| LogUpdated (name : json)
| LogSkipped (name : json)
| LogCreated (name : json)
| LogFailed (name : json)
| LogNoFiles
| LogFile (idx total : nat) (filename : pystr)
| LogFileFailed (filename : pystr)
| LogRead (filepath : pystr)
| LogInvalidJson (filepath : pystr)
| LogLoadFailed (filepath : pystr).

(** The world of the classification scripts: the dictionary objects, the
    state of the remote store, and the trace of events. *)
Record World (Σ : Type) := {
  heap : gmap loc dict;
  remote : Σ;
  trace : list event
}.
Arguments heap {Σ}.
Arguments remote {Σ}.
Arguments trace {Σ}.

Section Objects.
Context {Σ : Type}.

(** A new dictionary object holding [d]. *)
Definition alloc (d : dict) : M (World Σ) loc :=
  fun w => let l := fresh (dom (heap w)) in
           (Ok l, {| heap := <[l := d]> (heap w); remote := remote w; trace := trace w |}).

(** The current contents of an object.  Every reference a program holds is
    to an allocated object. *)
Definition load (l : loc) : M (World Σ) dict :=
  fun w => (Ok (match heap w !! l with Some d => d | None => ∅ end), w).

(** In-place update of an object. *)
Definition store (l : loc) (d : dict) : M (World Σ) unit :=
  fun w => (Ok tt, {| heap := <[l := d]> (heap w); remote := remote w; trace := trace w |}).

Definition emit (ev : event) : M (World Σ) unit :=
  fun w => (Ok tt, {| heap := heap w; remote := remote w; trace := trace w ++ [ev] |}).

(** A call of a client method: the call is recorded, then acts on the
    remote store. *)
Definition remote_call {A} (ev : event) (f : Σ -> result A * Σ) : M (World Σ) A :=
  fun w => let '(r, σ) := f (remote w) in
           (r, {| heap := heap w; remote := σ; trace := trace w ++ [ev] |}).

(** A call of an [os] or file function: the call is recorded and returns or
    raises as the file system decides. *)
Definition os_call {A} (ev : event) (r : result A) : M (World Σ) A :=
  fun w => (r, {| heap := heap w; remote := remote w; trace := trace w ++ [ev] |}).

(** [for x in l: body(x)]. *)
Fixpoint for_each {A} (l : list A) (body : A -> M (World Σ) unit) : M (World Σ) unit :=
  match l with
  | [] => ret tt
  | x :: rest => body x ;; for_each rest body
  end.

(** [for idx, x in enumerate(l, start): body(idx, x)]. *)
Fixpoint for_enumerate {A} (start : nat) (l : list A)
    (body : nat -> A -> M (World Σ) unit) : M (World Σ) unit :=
  match l with
  | [] => ret tt
  | x :: rest => body start x ;; for_enumerate (S start) rest body
  end.

End Objects.

(** [os.path.join(a, p)] on a POSIX system. *)
Definition path_join (a p : pystr) : pystr :=
  if bool_decide (take 1 p = str "/") then p
  else if bool_decide (a = []) || endswith a (str "/") then a ++ p
  else a ++ str "/" ++ p.

End Classifications.
Export Classifications.

(** ** classifications/mcc_import_classification.py *)

Module Importer.
Section Importer.
Context {py : Runtime} {Σ : Type}.
Variable client : ClassificationsApi Σ.
Variable fs : FileSystem.

(** [read_classification_file(filepath)].  Inside the [try], [json.load]
    gives the document, the reading is logged, and ['name' not in data] is
    evaluated on whatever the document is: key membership for an object,
    a substring test for a string, membership for an array; a number,
    [true], [false] or [null] is not iterable.  Every exception raised in
    the [try] is logged and raised again. *)
Definition read_classification_file (filepath : pystr) : M (World Σ) value :=
  match read_file fs filepath with
  | Missing => raise FileNotFoundError
  | content =>
      try_except
        (match content with
         | Missing => raise FileNotFoundError
         | Broken e => raise e
         | Object data =>
             let* l := alloc data in
             emit (LogRead filepath) ;;
             if negb (bool_decide (is_Some (data !! str "name"))) then raise ValueError
             else ret (Ref l)
         | Text s =>
             emit (LogRead filepath) ;;
             if negb (contains s (str "name")) then raise ValueError
             else ret (Plain (JStr s))
         | Array l =>
             emit (LogRead filepath) ;;
             if negb (existsb (fun x => match x with
                                        | JStr s => bool_decide (s = str "name")
                                        | _ => false
                                        end) l)
             then raise ValueError
             else ret (Plain (JArr l))
         | Scalar =>
             emit (LogRead filepath) ;;
             raise TypeError
         end)
        (fun e =>
           match e with
           | JSONDecodeError => emit (LogInvalidJson filepath) ;; raise e
           | _ => emit (LogLoadFailed filepath) ;; raise e
           end)
  end.

Definition metadata_fields : list pystr :=
  [str "export_date"; str "export_org"; str "export_user"; str "id"].

Definition prepare_classification_for_import (classification : loc) : M (World Σ) loc :=
  let* original := load classification in
  let* prepared := alloc original in          (* classification.copy() *)
  for_each metadata_fields (fun field =>
    let* p := load prepared in
    if bool_decide (is_Some (p !! field)) then store prepared (delete field p)
    else ret tt) ;;
  ret prepared.

(** The [for c in classifications] loop of [classification_exists]:
    [Ok (Some c)] when the loop returns [c], [Ok None] when it runs to its
    end. *)
Fixpoint exists_loop (classifications : list dict) (classification_name : json)
  : result (option dict) :=
  match classifications with
  | [] => Ok None
  | c :: rest =>
      let? cname := method_lower (get_default c (str "name") (JStr (str ""))) in
      let? wanted := method_lower classification_name in
      if bool_decide (cname = wanted) then Ok (Some c)
      else exists_loop rest classification_name
  end.

Definition classification_exists (classification_name : json) : M (World Σ) (option dict) :=
  try_except
    (let* classifications := remote_call CallGetAll (get_all_classifications client) in
     lift (exists_loop classifications classification_name))
    (fun e => raise e).

(** The truth value of [existing], which is [None] or a dictionary. *)
Definition existing_truthy (existing : option dict) : bool :=
  match existing with
  | Some c => dict_truthy c
  | None => false
  end.

(** [existing.get('id')], evaluated only where [existing] is a
    dictionary. *)
Definition existing_id (existing : option dict) : json :=
  match existing with
  | Some c => get c (str "id")
  | None => JNull
  end.

(** [import_classification(client, classification, update_if_exists)];
    the function has no [return] statement, so it returns [None]. *)
Definition import_classification (classification : loc) (update_if_exists : bool)
  : M (World Σ) unit :=
  let* record := load classification in
  let classification_name := get_default record (str "name") (JStr (str "Unknown")) in
  emit (LogProcessing classification_name) ;;
  try_except
    (let* prepared := prepare_classification_for_import classification in
     let* existing := classification_exists classification_name in
     if existing_truthy existing then
       if update_if_exists then
         let* payload := load prepared in
         let* response :=
           remote_call (CallUpdate (existing_id existing) payload)
             (update_classification client (existing_id existing) payload) in
         emit (LogUpdated classification_name)
       else
         emit (LogSkipped classification_name)
     else
       let* payload := load prepared in
       let* response :=
         remote_call (CallCreate payload)
           (Classifications.import_classification client payload) in
       emit (LogCreated classification_name))
    (fun e => emit (LogFailed classification_name)).

(** [import_classification_from_file(client, filepath, update_if_exists)].
    A document that is not an object has no [get]: the first statement of
    [import_classification], which is outside its [try], raises
    [AttributeError]. *)
Definition import_classification_from_file (filepath : pystr) (update_if_exists : bool)
  : M (World Σ) unit :=
  let* classification := read_classification_file filepath in
  match classification with
  | Ref classification => import_classification classification update_if_exists
  | Plain _ => raise AttributeError
  end.

(** [import_all_from_directory(client, directory, update_if_exists)]: the
    value returned is [[]] when the directory has no JSON file and [None]
    otherwise. *)
Definition import_all_from_directory (directory : pystr) (update_if_exists : bool)
  : M (World Σ) json :=
  if negb (isdir fs directory) then raise NotADirectoryError
  else
    let* names := lift (listdir fs directory) in
    let json_files := filter (fun f => endswith f (str ".json") = true) names in
    if bool_decide (json_files = []) then
      emit LogNoFiles ;;
      ret (JArr [])
    else
      let total := length json_files in
      for_enumerate 1 json_files (fun idx filename =>
        let filepath := path_join directory filename in
        emit (LogFile idx total filename) ;;
        try_except
          (import_classification_from_file filepath update_if_exists)
          (fun e => emit (LogFileFailed filename))) ;;
      ret JNull.

End Importer.
End Importer.

(** ** classifications/mcc_export_classification.py *)

Module Exporter.

Definition create_json_filename {py : Runtime} (timestamp : pystr) (base_name : pystr)
  : pystr :=
  let safe_name :=
    (fun c => if isalnum c || bool_decide (c ∈ str "-" ++ str "_") then c
              else 95%N (* '_' *))
      <$> base_name in
  safe_name ++ str "_" ++ timestamp ++ str ".json".

(** The attributes of [self.auth] the exporter reads. *)
Record IDMCAuth := { org_name : json; user_id : json }.
Record ClassificationExporter := { auth : IDMCAuth; cdgc_api_url : pystr }.

Section Exporter.
Context {Σ : Type}.
Variable fs : FileSystem.

(** [self.save_classification_to_file(classification, filename, output_dir)];
    [utcnow] is the text [datetime.utcnow().strftime(...)] evaluates to. *)
Definition save_classification_to_file (self : ClassificationExporter) (utcnow : pystr)
    (classification : loc) (filename output_dir : pystr) : M (World Σ) unit :=
  os_call (CallMakedirs output_dir) (makedirs fs output_dir) ;;
  (let* d := load classification in
   store classification (<[str "export_date" := JStr utcnow]> d)) ;;
  (let* d := load classification in
   store classification (<[str "export_org" := org_name (auth self)]> d)) ;;
  (let* d := load classification in
   store classification (<[str "export_user" := user_id (auth self)]> d)) ;;
  let output_path := path_join output_dir filename in
  try_except
    (let* d := load classification in
     os_call (CallWrite output_path d) (write_file fs output_path d))
    (fun e => raise e).

End Exporter.
End Exporter.

(** ** The vocabulary of the specification *)

Module Spec.
Import Scanner.

(** The states of the job monitor. *)
Inductive job_state := RUNNING | SUCCEEDED | PARTIALLY_SUCCEEDED | FAILED.

(** The state a remote status string stands for: the string is normalised
    case-insensitively and compared with the three groups of terminal
    states; any other value is [RUNNING]. *)
Definition classify {py : Runtime} (s : pystr) : job_state :=
  if bool_decide (upper s ∈ [str "COMPLETED"; str "SUCCESS"; str "SUCCESSFUL"]) then SUCCEEDED
  else if bool_decide (upper s = str "PARTIAL_COMPLETED") then PARTIALLY_SUCCEEDED
  else if bool_decide (upper s ∈ [str "FAILED"; str "ERROR"; str "CANCELLED"]) then FAILED
  else RUNNING.

(** The status string of a polled response: the empty string when the
    response has no status field, nothing when the field is not a string. *)
Definition status_string (status : dict) : option pystr :=
  match status !! str "status" with
  | None => Some []
  | Some (JStr s) => Some s
  | Some _ => None
  end.

(** The [k]-th status request for the job is answered by [status], whose
    status string stands for [st]. *)
Definition observes {py : Runtime} (cdgc : CDGC) (job_id : json) (k : nat)
    (status : dict) (st : job_state) : Prop :=
  get_job_status cdgc job_id k = Ok status ∧
  ∃ s, status_string status = Some s ∧ classify s = st.

(** One more clock reading, and one more status request. *)
Definition after_check (w : World) : World :=
  {| ticks := S (ticks w); polls := polls w; log := log w ++ [EvTime] |}.
Definition after_fetch (job_id : json) (w : World) : World :=
  {| ticks := ticks w; polls := S (polls w); log := log w ++ [EvPoll job_id] |}.

(** The world after [n] more passes through the loop body, each of which
    checked the clock, fetched the status and slept. *)
Definition after_iterations (job_id : json) (poll_interval : Z) (w : World) (n : nat)
  : World :=
  {| ticks := ticks w + n;
     polls := polls w + n;
     log := log w ++ mjoin (replicate n [EvTime; EvPoll job_id; EvSleep poll_interval]) |}.

(** With the loop entered in world [w0] and the start time [start_time],
    the next [n] passes find the clock within the timeout and observe a
    job that is still running. *)
Definition running_from {py : Runtime} (cdgc : CDGC) (clock : nat -> Z) (job_id : json)
    (timeout start_time : Z) (w0 : World) (n : nat) : Prop :=
  ∀ i, i < n →
    (clock (ticks w0 + i)%nat - start_time ≤ timeout)%Z ∧
    ∃ status, observes cdgc job_id (polls w0 + i) status RUNNING.

(** [monitor_job] called in world [w]: its first [n] polls are made in
    time and each observes a job that is still running.  The start time is
    the clock reading the call begins with. *)
Definition still_running {py : Runtime} (cdgc : CDGC) (clock : nat -> Z) (job_id : json)
    (timeout : Z) (w : World) (n : nat) : Prop :=
  running_from cdgc clock job_id timeout (clock (ticks w)) (after_check w) n.

(** [time.sleep(d)] returns: the duration is not negative and the platform
    can hold it. *)
Definition sleeps {py : Runtime} (d : Z) : Prop :=
  (0 ≤ d)%Z ∧ sleep_error d = None.

(** The world after [monitor_job], called in [w], has read its start time
    and gone [n] times through the loop without leaving it. *)
Definition after_polls (job_id : json) (poll_interval : Z) (w : World) (n : nat) : World :=
  after_iterations job_id poll_interval (after_check w) n.

(** The check at the top of pass number [n] (counted from 0) of a call
    started in [w] finds the elapsed time within the timeout, respectively
    finds the timeout exceeded. *)
Definition in_time_at (clock : nat -> Z) (timeout : Z) (w : World) (n : nat) : Prop :=
  (clock (S (ticks w + n)%nat) - clock (ticks w) ≤ timeout)%Z.
Definition timed_out_at (clock : nat -> Z) (timeout : Z) (w : World) (n : nat) : Prop :=
  (clock (S (ticks w + n)%nat) - clock (ticks w) > timeout)%Z.

(** The name of a search hit, when it has one and it is a string. *)
Definition asset_name (a : Asset) : option pystr :=
  match summary a !! str "core.name" with
  | Some (JStr s) => Some s
  | _ => None
  end.

(** The hit's name equals the requested one up to letter case. *)
Definition is_exact_match {py : Runtime} (sourceName : pystr) (a : Asset) : bool :=
  match asset_name a with
  | Some s => bool_decide (lower s = lower sourceName)
  | None => false
  end.

(** A search response as the search service gives it: the total number of
    hits is a number that counts at least the hits returned, and every hit
    has a name. *)
Definition well_formed (sr : SearchResults) : Prop :=
  (∃ n, total_hits sr = Ok n ∧ (Z.of_nat (length (hits sr)) ≤ n)%Z) ∧
  Forall (fun a => is_Some (asset_name a)) (hits sr).

(** The character class [[A-Za-z0-9_-]]. *)
Definition in_ascii_class (c : codepoint) : bool :=
  in_range 65 90 c || in_range 97 122 c || in_range 48 57 c
  || (c =? 95)%N || (c =? 45)%N.

(** Sanitization as the specification words it: every character outside
    [[A-Za-z0-9_-]] becomes ['_'], the others stay. *)
Definition sanitized (base_name : pystr) : pystr :=
  (fun c => if in_ascii_class c then c else 95%N) <$> base_name.

(** The characters the export script keeps: the alphanumeric ones, in
    Python's sense, and ['-'] and ['_']. *)
Definition kept {py : Runtime} (c : codepoint) : bool :=
  isalnum c || (c =? 45)%N || (c =? 95)%N.

(** An exported record: the record with the three export fields set. *)
Definition exported (self : Exporter.ClassificationExporter) (utcnow : pystr) (d : dict)
  : dict :=
  <[str "export_user" := Exporter.user_id (Exporter.auth self)]>
    (<[str "export_org" := Exporter.org_name (Exporter.auth self)]>
       (<[str "export_date" := JStr utcnow]> d)).

(** A record without the export-only fields. *)
Definition stripped (d : dict) : dict :=
  delete (str "id")
    (delete (str "export_user") (delete (str "export_org") (delete (str "export_date") d))).

(** A payload as the remote store holds it: with an identifier, once it has
    one. *)
Definition with_id (id : option json) (payload : dict) : dict :=
  match id with
  | Some v => <[str "id" := v]> payload
  | None => payload
  end.

(** The name of a classification record, when it has one and it is a
    string. *)
Definition record_name (c : dict) : option pystr :=
  match c !! str "name" with
  | Some (JStr s) => Some s
  | _ => None
  end.

(** The record's name equals [name] up to letter case. *)
Definition same_name {py : Runtime} (name : pystr) (c : dict) : bool :=
  match record_name c with
  | Some s => bool_decide (lower s = lower name)
  | None => false
  end.

(** The four counts a batch is said to return. *)
Definition counts (created updated skipped failed : Z) : json :=
  JObj [(str "created", JNum created); (str "updated", JNum updated);
        (str "skipped", JNum skipped); (str "failed", JNum failed)].

(** The lines that announce the files of a batch, among the events of a
    trace. *)
Definition is_file_line (ev : Classifications.event) : bool :=
  match ev with
  | LogFile _ _ _ => true
  | _ => false
  end.
Definition file_lines (t : list Classifications.event) : list Classifications.event :=
  List.filter is_file_line t.

(** A computation that writes no such line. *)
Definition quiet {Σ A} (m : M (Classifications.World Σ) A) : Prop :=
  ∀ w r w', m w = (r, w') → file_lines (trace w') = file_lines (trace w).

(** A file that holds a record: a JSON object with a [name] field. *)
Definition is_record (content : file) : bool :=
  match content with
  | Object data => bool_decide (is_Some (data !! str "name"))
  | _ => false
  end.

(** The calls of client methods, among the events of a trace. *)
Definition is_client_call (ev : Classifications.event) : bool :=
  match ev with
  | CallGetAll | CallUpdate _ _ | CallCreate _ => true
  | _ => false
  end.

(** The files a batch import processes, among the names [os.listdir]
    returned. *)
Definition json_files_of (names : list pystr) : list pystr :=
  filter (fun f => endswith f (str ".json") = true) names.

End Spec.

(** ** Test doubles

    Concrete clients, clocks and file systems on which the functions can be
    run. *)

Module Test.
Import Scanner.

(** An interpreter to run the examples on.  The examples use text in
    U+0000..U+00FF only, with ASCII letters wherever letter case matters:
    [upper] and [lower] change the ASCII letters, [isalnum] is the table of
    U+0000..U+00FF, and [time.sleep] takes what fits the 64-bit nanosecond
    count of CPython. *)
Definition python : Runtime :=
  {| upper := fmap ascii_upper;
     lower := fmap ascii_lower;
     isalnum := latin1_isalnum;
     sleep_error := fun d => if (9223372036 <? d)%Z then Some OverflowError else None |}.

(** A status response carrying just a status string. *)
Definition status_of (s : pystr) : dict := {[ str "status" := JStr s ]}.

(** A client whose job reports the given statuses, one per request, and
    [RUNNING] once they are used up. *)
Definition scripted_cdgc (statuses : list pystr) : CDGC :=
  {| search_assets := fun _ _ _ => Ok None;
     run_catalog_source_job := fun _ _ => Raise CDGCAPIError;
     get_job_status := fun _ k => Ok (status_of (nth k statuses (str "RUNNING"))) |}.

(** A clock that advances by [step] between two readings; with [step = 0]
    it is the test clock on which no time passes. *)
Definition stepping_clock (step : Z) : nat -> Z := fun k => (step * Z.of_nat k)%Z.

(** A client that answers every search with [response] and every launch
    with [launched]. *)
Definition answering_cdgc (response : result (option SearchResults))
    (launched : result dict) : CDGC :=
  {| search_assets := fun _ _ _ => response;
     run_catalog_source_job := fun _ _ => launched;
     get_job_status := fun _ _ => Raise CDGCAPIError |}.

(** A catalog source with the given name and origin. *)
Definition source (name origin : pystr) : Asset :=
  {| summary := {[ str "core.name" := JStr name ]};
     systemAttributes := {[ str "core.origin" := JStr origin ]} |}.

Definition job_1 : dict :=
  job_handle (JStr (str "job-1")) JNull (JStr (str "My Source")) (JStr (str "src-1")).

(** The handle of a job launched on the source "Sales DB". *)
Definition job_2 : dict :=
  job_handle (JStr (str "job-1")) (JStr (str "/jobs/job-1")) (JStr (str "Sales DB"))
    (JStr (str "o-3")).

Definition start : World := {| ticks := 0; polls := 0; log := [] |}.

(** A file system on which every call succeeds, with nothing in it, and
    one on which nothing can be created or written. *)
Definition plain_fs : FileSystem :=
  {| isdir := fun _ => true; listdir := fun _ => Ok []; read_file := fun _ => Missing;
     makedirs := fun _ => Ok tt; write_file := fun _ _ => Ok tt |}.
Definition readonly_fs : FileSystem :=
  {| isdir := fun _ => true; listdir := fun _ => Ok []; read_file := fun _ => Missing;
     makedirs := fun _ => Raise OSError; write_file := fun _ _ => Raise OSError |}.

Definition exporter : Exporter.ClassificationExporter :=
  {| Exporter.auth := {| Exporter.org_name := JStr (str "acme");
                         Exporter.user_id := JStr (str "u-7") |};
     Exporter.cdgc_api_url := str "https://cdgc-api.example" |}.

(** A classification payload, and the world in which it is the only
    object, at location 0. *)
Definition pii : dict :=
  <[str "name" := JStr (str "PII")]>
    {[ str "description" := JStr (str "Personal data") ]}.
Definition holding (d : dict) : Classifications.World unit :=
  {| heap := {[ 0 := d ]}; remote := tt; trace := [] |}.

(** A remote store kept in memory: the list of its records.  A created
    record gets its position as identifier; an update replaces the record
    with that identifier. *)
Definition memory_client : ClassificationsApi (list dict) :=
  {| get_all_classifications := fun σ => (Ok σ, σ);
     update_classification := fun id payload σ =>
       match id with
       | JNum n => (Ok id, <[Z.to_nat n := <[str "id" := id]> payload]> σ)
       | _ => (Raise CDGCAPIError, σ)
       end;
     Classifications.import_classification := fun payload σ =>
       (Ok (JNum (Z.of_nat (length σ))),
        σ ++ [<[str "id" := JNum (Z.of_nat (length σ))]> payload]) |}.

(** A file system with one directory holding the given files. *)
Definition directory_fs (dir : pystr) (files : list (pystr * file)) : FileSystem :=
  {| isdir := fun p => bool_decide (p = dir);
     listdir := fun p => if bool_decide (p = dir) then Ok files.*1 else Raise OSError;
     read_file := fun p =>
       match find (fun nf => bool_decide (path_join dir nf.1 = p)) files with
       | Some nf => nf.2
       | None => Missing
       end;
     makedirs := fun _ => Ok tt;
     write_file := fun _ _ => Ok tt |}.

(** A directory with a record to create, a file that is not JSON, a
    record that exists by then, and a file that is not a JSON file. *)
Definition inbox : FileSystem :=
  directory_fs (str "in")
    [(str "a.json", Object pii);
     (str "b.json", Broken JSONDecodeError);
     (str "c.json", Object (<[str "id" := JNum 7]> {[ str "name" := JStr (str "pii") ]}));
     (str "notes.txt", Broken JSONDecodeError)].

(** A directory whose files are JSON documents, none of them a record: a
    string that contains "name", an array that holds "name", a number, and
    an object without a name. *)
Definition odd_inbox : FileSystem :=
  directory_fs (str "in")
    [(str "s.json", Text (str "no name given"));
     (str "l.json", Array [JStr (str "name"); JNum 1]);
     (str "n.json", Scalar);
     (str "o.json", Object {[ str "description" := JStr (str "Personal data") ]})].

(** The world before anything has happened, with a given remote store. *)
Definition fresh_world (σ : list dict) : Classifications.World (list dict) :=
  {| heap := ∅; remote := σ; trace := [] |}.

(** A world with one record object, at location 0, and a remote store. *)
Definition importing (d : dict) (σ : list dict) : Classifications.World (list dict) :=
  {| heap := {[ 0 := d ]}; remote := σ; trace := [] |}.

End Test.

(** ** The command-line programs *)

(** What [parser.parse_args()] does with the command line: for [-h] it
    prints the help and ends the program with status 0; for a command line
    it cannot read it ends the program with status 2; otherwise it returns
    the arguments. *)
Inductive parsed (A : Type) :=
| Help
| UsageError
| Parsed (args : A).
Arguments Help {A}.
Arguments UsageError {A}.
Arguments Parsed {A} args.

(** [main] of mcc_run_scanner.py. *)
Module ScannerMain.
Import Scanner.

Record CapabilityFlags := {
  metadata_extraction : bool;
  data_profiling : bool;
  data_classification : bool;
  data_quality : bool;
  relationship_discovery : bool;
  glossary_association : bool;
  lineage_discovery : bool
}.

(** [args]: [name] is [None] when [--name] is not given. *)
Record Args := {
  name : option pystr;
  flags : CapabilityFlags;
  poll_interval : Z;
  timeout : Z;
  no_wait : bool;
  verbose : bool;
  output_json : bool
}.

(** The capabilities list built from the individual flags. *)
Definition build_capabilities (f : CapabilityFlags) : list pystr :=
  let capabilities := [] in
  let capabilities :=
    if metadata_extraction f then capabilities ++ [str "Metadata Extraction"]
    else capabilities in
  let capabilities :=
    if data_profiling f then capabilities ++ [str "Data Profiling"] else capabilities in
  let capabilities :=
    if data_classification f then capabilities ++ [str "Data Classification"]
    else capabilities in
  let capabilities :=
    if data_quality f then capabilities ++ [str "Data Quality"] else capabilities in
  let capabilities :=
    if relationship_discovery f then capabilities ++ [str "Relationship Discovery"]
    else capabilities in
  let capabilities :=
    if glossary_association f then capabilities ++ [str "Glossary Association"]
    else capabilities in
  let capabilities :=
    if lineage_discovery f then capabilities ++ [str "Lineage Discovery"]
    else capabilities in
  capabilities.

(** The name argument as a value, and as an f-string formats it. *)
Definition name_value (sourceName : option pystr) : json :=
  match sourceName with Some s => JStr s | None => JNull end.
Definition name_text (sourceName : option pystr) : pystr :=
  match sourceName with Some s => s | None => str "None" end.

(** [search_catalog_source] for a name that may be [None]: the same
    function, at the type of [args.name]. *)
Fixpoint exact_match_loop_arg {py : Runtime} (hits : list Asset)
    (sourceName : option pystr) : result (option Asset) :=
  match hits with
  | [] => Ok None
  | asset :: rest =>
      let? name := subscript (summary asset) (str "core.name") in
      let? lowered := method_lower name in
      let? wanted := method_lower (name_value sourceName) in
      if bool_decide (lowered = wanted) then Ok (Some asset)
      else exact_match_loop_arg rest sourceName
  end.

Definition search_catalog_source_arg {py : Runtime} (cdgc : CDGC)
    (sourceName : option pystr) : bool * option Asset :=
  match
    (let? searchResults :=
       search_assets cdgc (str "*") (str "all") (search_body (name_text sourceName)) in
     match searchResults with
     | None => Ok (false, None)
     | Some searchResults =>
         let? total := total_hits searchResults in
         if (0 <? total)%Z then
           let? found := exact_match_loop_arg (hits searchResults) sourceName in
           match found with
           | Some asset => Ok (true, Some asset)
           | None =>
               match hits searchResults with
               | [] => Raise IndexError
               | first :: _ =>
                   let? _ := subscript (summary first) (str "core.name") in
                   Ok (true, Some first)
               end
           end
         else Ok (false, None)
     end)
  with
  | Ok r => r
  | Raise _ => (false, None)
  end.

(** What [main] finds around it: the length of [sys.argv]; the outcome of
    creating the authentication object and the client; the clock; the
    outcome of [log_usage]. *)
Record Env := {
  argc : nat;
  connect : result CDGC;
  clock : nat -> Z;
  log_usage : result unit
}.

(** The end of [main] after the job was started and, if asked for,
    monitored: usage is logged, inside the [try]. *)
Definition finish (env : Env) (w : World) : option (nat * World) :=
  match log_usage env with
  | Ok _ => Some (0, w)
  | Raise _ => Some (1, w)
  end.

(** The program after [args = parser.parse_args()]. *)
Definition run {py : Runtime} (fuel : nat) (args : Args) (env : Env) (w : World)
  : option (nat * World) :=
  if argc env =? 1 then Some (0, w)
  else
    let sourceName := name args in
    let capabilities := build_capabilities (flags args) in
    if bool_decide (capabilities = []) then Some (1, w)
    else
      match connect env with
      | Raise _ => Some (1, w)
      | Ok cdgc =>
          let '(found, catalogSource) := search_catalog_source_arg cdgc sourceName in
          if negb found then Some (1, w)
          else
            match catalogSource with
            | None => Some (1, w)
            | Some catalogSource =>
                match subscript (summary catalogSource) (str "core.name") with
                | Raise _ => Some (1, w)
                | Ok _ =>
                    let '(success, job_info) :=
                      execute_catalog_source cdgc catalogSource (Some capabilities) in
                    if negb success then Some (1, w)
                    else if negb (no_wait args) then
                      match job_info with
                      | None => Some (1, w)
                      | Some job_info =>
                          match monitor_job fuel cdgc (clock env) job_info
                                  (poll_interval args) (timeout args) w with
                          | None => None
                          | Some (Raise _, w') => Some (1, w')
                          | Some (Ok (success, final_status), w') =>
                              if success then finish env w' else Some (1, w')
                          end
                      end
                    else finish env w
                end
            end
      end.

(** [main(argv)]: the exit status of the program and the world it leaves,
    or [None] while the monitor is still running after [fuel] passes;
    [command_line] is what [parser.parse_args()] makes of the command
    line.  Every [sys.exit(1)] and every exception caught by [main] gives
    the status 1; a return from [main] gives the status 0. *)
Definition main {py : Runtime} (fuel : nat) (command_line : parsed Args) (env : Env)
    (w : World) : option (nat * World) :=
  match command_line with
  | Help => Some (0, w)
  | UsageError => Some (2, w)
  | Parsed args => run fuel args env w
  end.

End ScannerMain.

(** [main] of mcc_import_classification.py. *)
Module ImporterMain.
Import Importer.

Record Args := {
  file : option pystr;
  directory : option pystr;
  update : bool
}.

(** The truth value of an optional string argument: [None] and the empty
    string are false. *)
Definition given (arg : option pystr) : bool :=
  match arg with
  | Some s => negb (bool_decide (s = []))
  | None => false
  end.

Definition text (arg : option pystr) : pystr :=
  match arg with Some s => s | None => [] end.

(** What [main] finds around it: the outcome of logging in and creating
    the client, and the outcome of [log_usage]. *)
Record Env (Σ : Type) := {
  connect : result (ClassificationsApi Σ);
  log_usage : result unit
}.
Arguments connect {Σ}.
Arguments log_usage {Σ}.

(** The program after [args = parser.parse_args()]. *)
Definition run {py : Runtime} {Σ} (fs : FileSystem) (args : Args) (env : Env Σ)
  : M (World Σ) nat :=
  if negb (given (file args)) && negb (given (directory args)) then ret 1
  else if given (file args) && given (directory args) then ret 1
  else
    try_except
      (let* client := lift (connect env) in
       (if given (file args) then
          import_classification_from_file client fs (text (file args)) (update args)
        else if given (directory args) then
          let* _ := import_all_from_directory client fs (text (directory args))
                      (update args) in
          ret tt
        else ret tt) ;;
       lift (log_usage env) ;;
       ret 0)
      (fun e => ret 1).

(** [main()]: the exit status of the program; [command_line] is what
    [parser.parse_args()] makes of the command line; a return from [main]
    gives the status 0. *)
Definition main {py : Runtime} {Σ} (fs : FileSystem) (command_line : parsed Args)
    (env : Env Σ) : M (World Σ) nat :=
  match command_line with
  | Help => ret 0
  | UsageError => ret 2
  | Parsed args => run fs args env
  end.

End ImporterMain.

(** The other methods of [ClassificationExporter], and [main] of
    mcc_export_classification.py. *)
Module ExporterMore.
Import Exporter.

Section ExporterMore.
Context {py : Runtime} {Σ : Type}.
Variable client : ClassificationsApi Σ.
(** [client.classifications.get_classification_details]. *)
Variable get_classification_details : json -> Σ -> result dict * Σ.
Variable fs : FileSystem.
(** What an f-string makes of a value that is not a string. *)
Variable repr : json -> pystr.

(** [f"{v}"]. *)
Definition format_value (v : json) : pystr :=
  match v with
  | JStr s => s
  | _ => repr v
  end.

(** A call of [get_classification_details]; it acts on the remote store
    and is not recorded in the trace. *)
Definition details_call (classification_id : json) : M (World Σ) dict :=
  fun w => let '(r, σ) := get_classification_details classification_id (remote w) in
           (r, {| heap := heap w; remote := σ; trace := trace w |}).

(** [self.export_classification(classification_id, output_dir, filename)];
    [timestamp] and [utcnow] are the texts the two clock readings are
    formatted to. *)
Definition export_classification (self : ClassificationExporter)
    (timestamp utcnow : pystr) (classification_id : json) (output_dir : pystr)
    (filename : option pystr) : M (World Σ) unit :=
  let* details := details_call classification_id in
  let* classification := alloc details in
  let filename :=
    if negb (ImporterMain.given filename) then
      let base_name := get_default details (str "name") (JStr (str "classification")) in
      create_json_filename timestamp (format_value base_name ++ str "_classification")
    else ImporterMain.text filename in
  save_classification_to_file fs self utcnow classification filename output_dir.

(** The [for c in classifications] loop of [export_classification_by_name],
    which leaves at the first match: [Ok matching]. *)
Fixpoint matching_loop (classifications : list dict) (classification_name : pystr)
  : result (option dict) :=
  match classifications with
  | [] => Ok None
  | c :: rest =>
      let? cname := method_lower (get_default c (str "name") (JStr (str ""))) in
      if bool_decide (cname = lower classification_name) then Ok (Some c)
      else matching_loop rest classification_name
  end.

Definition export_classification_by_name (self : ClassificationExporter)
    (timestamp utcnow : pystr) (classification_name : pystr) (output_dir : pystr)
    (filename : option pystr) : M (World Σ) unit :=
  let* classifications := remote_call CallGetAll (get_all_classifications client) in
  let* matching := lift (matching_loop classifications classification_name) in
  match matching with
  | None => raise ValueError
  | Some matching =>
      if negb (dict_truthy matching) then raise ValueError
      else
        let* _ := lift (subscript matching (str "name")) in
        let* _ := lift (subscript matching (str "id")) in
        let* classification_id := lift (subscript matching (str "id")) in
        export_classification self timestamp utcnow classification_id output_dir filename
  end.

(** The loop of [export_all_classifications], from the record number [idx]
    on, with the two counters as its state; [timestamp_at idx] and
    [utcnow_at idx] are the formatted clock readings of pass [idx]. *)
Fixpoint export_all_loop (self : ClassificationExporter)
    (timestamp_at utcnow_at : nat -> pystr) (output_dir : pystr) (idx : nat)
    (classifications : list dict) (success_count failed_count : nat)
  : M (World Σ) (nat * nat) :=
  match classifications with
  | [] => ret (success_count, failed_count)
  | classification_summary :: rest =>
      let classification_id := get classification_summary (str "id") in
      let classification_name :=
        get_default classification_summary (str "name") (JStr (str "unknown")) in
      let* counts :=
        try_except
          (let* details := details_call classification_id in
           let* classification := alloc details in
           let filename :=
             create_json_filename (timestamp_at idx)
               (format_value classification_name ++ str "_classification") in
           save_classification_to_file fs self (utcnow_at idx) classification filename
             output_dir ;;
           ret (S success_count, failed_count))
          (fun e => ret (success_count, S failed_count)) in
      export_all_loop self timestamp_at utcnow_at output_dir (S idx) rest counts.1 counts.2
  end.

(** [self.export_all_classifications(output_dir)]; the counters are logged
    in the summary, the method returns [None]. *)
Definition export_all_classifications (self : ClassificationExporter)
    (timestamp_at utcnow_at : nat -> pystr) (output_dir : pystr) : M (World Σ) unit :=
  os_call (CallMakedirs output_dir) (makedirs fs output_dir) ;;
  let* classifications := remote_call CallGetAll (get_all_classifications client) in
  if bool_decide (classifications = []) then ret tt
  else
    let* counts := export_all_loop self timestamp_at utcnow_at output_dir 1
                     classifications 0 0 in
    ret tt.

(** [self.list_classifications()]: the list is fetched and logged. *)
Definition list_classifications : M (World Σ) unit :=
  let* classifications := remote_call CallGetAll (get_all_classifications client) in
  ret tt.

End ExporterMore.

(** The arguments of the export program; [export_id], [name] and [output]
    are [None] when not given. *)
Record Args := {
  list_ : bool;
  export_id : option pystr;
  name : option pystr;
  all : bool;
  output : option pystr;
  output_dir : pystr;
  verbose : bool
}.

(** [bool(x)] as a number, as [sum] counts it. *)
Definition as_number (b : bool) : nat := if b then 1 else 0.

(** What [main] finds around it: the outcome of logging in, which gives
    the exporter, its client and its way to fetch details; the outcome of
    [log_usage]; the formatted clock readings. *)
Record Env (Σ : Type) := {
  connect : result (ClassificationExporter * ClassificationsApi Σ
                    * (json -> Σ -> result dict * Σ));
  log_usage : result unit;
  timestamp_at : nat -> pystr;
  utcnow_at : nat -> pystr
}.
Arguments connect {Σ}.
Arguments log_usage {Σ}.
Arguments timestamp_at {Σ}.
Arguments utcnow_at {Σ}.

(** The program after [args = parser.parse_args()]. *)
Definition run {py : Runtime} {Σ} (fs : FileSystem) (repr : json -> pystr) (args : Args)
    (env : Env Σ) : M (World Σ) nat :=
  let selected := [list_ args; ImporterMain.given (export_id args);
                   ImporterMain.given (name args); all args] in
  if negb (existsb id selected) then ret 1
  else if 1 <? as_number (ImporterMain.given (export_id args))
               + as_number (ImporterMain.given (name args))
               + as_number (all args) + as_number (list_ args) then ret 1
  else
    try_except
      (let* connected := lift (connect env) in
       let '(exporter, client, details) := connected in
       (if list_ args then list_classifications client
        else if all args then
          export_all_classifications client details fs repr exporter
            (timestamp_at env) (utcnow_at env) (output_dir args)
        else if ImporterMain.given (export_id args) then
          export_classification details fs repr exporter (timestamp_at env 0)
            (utcnow_at env 0) (JStr (ImporterMain.text (export_id args)))
            (output_dir args) (output args)
        else if ImporterMain.given (name args) then
          export_classification_by_name client details fs repr exporter
            (timestamp_at env 0) (utcnow_at env 0) (ImporterMain.text (name args))
            (output_dir args) (output args)
        else ret tt) ;;
       lift (log_usage env) ;;
       ret 0)
      (fun e => ret 1).

(** [main()]: the exit status of the program; [command_line] is what
    [parser.parse_args()] makes of the command line; a return from [main]
    gives the status 0. *)
Definition main {py : Runtime} {Σ} (fs : FileSystem) (repr : json -> pystr)
    (command_line : parsed Args) (env : Env Σ) : M (World Σ) nat :=
  match command_line with
  | Help => ret 0
  | UsageError => ret 2
  | Parsed args => run fs repr args env
  end.

End ExporterMore.

(** More test doubles. *)
Module TestMore.

(** The details of a record of the store kept in memory: the record with
    the given identifier. *)
Definition memory_details (id : json) (σ : list dict) : result dict * list dict :=
  match id with
  | JNum n =>
      match σ !! Z.to_nat n with
      | Some d => (Ok d, σ)
      | None => (Raise CDGCAPIError, σ)
      end
  | _ => (Raise CDGCAPIError, σ)
  end.

(** A stand-in for the formatting of values that are not strings. *)
Definition plain_repr (v : json) : pystr := str "value".

(** A store that holds the record "PII" with the identifier 0. *)
Definition store_with_pii : list dict := [<[str "id" := JNum 0]> Test.pii].

End TestMore.

(** * Properties *)

(** ** The interpreter of the examples *)

(** A literal is ASCII text. *)
Ltac ascii_text :=
  repeat (apply List.Forall_cons; [reflexivity|]); apply List.Forall_nil.

(** The interpreter of the examples is as every interpreter is, where that
    is known. *)
Lemma python_conforms : conforms Test.python.
Proof.
  split; try reflexivity.
Qed.

(** ** The job monitor *)

Section Monitor.
Import Scanner Spec.
Context {py : Runtime}.
Variable cdgc : CDGC.
Variable clock : nat -> Z.
Variable job_id : json.
Variables poll_interval timeout start_time : Z.

Local Abbreviation iteration :=
  (monitor_iteration cdgc clock job_id poll_interval timeout start_time).

(** What one pass through the loop body does, case by case. *)
Lemma monitor_iteration_cases (w : World) :
  iteration w =
    if (clock (ticks w) - start_time >? timeout)%Z
    then (Raise TimeoutError, after_check w)
    else match get_job_status cdgc job_id (polls w) with
         | Raise e => (Raise e, after_fetch job_id (after_check w))
         | Ok status =>
             match status_string status with
             | None => (Raise AttributeError, after_fetch job_id (after_check w))
             | Some s =>
                 match classify s with
                 | SUCCEEDED | PARTIALLY_SUCCEEDED =>
                     (Ok (Some (true, Some status)), after_fetch job_id (after_check w))
                 | FAILED => (Raise CDGCAPIError, after_fetch job_id (after_check w))
                 | RUNNING =>
                     if (poll_interval <? 0)%Z
                     then (Raise ValueError, after_fetch job_id (after_check w))
                     else match sleep_error poll_interval with
                          | Some e => (Raise e, after_fetch job_id (after_check w))
                          | None =>
                              (Ok None,
                               {| ticks := S (ticks w); polls := S (polls w);
                                  log := log w ++ [EvTime; EvPoll job_id;
                                                   EvSleep poll_interval] |})
                          end
                 end
             end
         end.
Proof.
  unfold monitor_iteration, bind, time_time, jobs_get_job_status, lift, raise, ret.
  cbn [ticks polls log].
  destruct (clock (ticks w) - start_time >? timeout)%Z; [reflexivity|].
  cbn [ticks polls log].
  destruct (get_job_status cdgc job_id (polls w)) as [status|e]; [|reflexivity].
  unfold status_string, get_default, after_fetch, after_check.
  change (str "") with (@nil N).
  destruct (status !! str "status") as [[| | |s| |]|];
    cbn [method_upper ticks polls log]; try reflexivity.
  all: unfold classify, str_in.
  all: repeat case_bool_decide; try reflexivity;
    try (exfalso; match goal with
                  | H : _ ∈ [_] |- _ => apply list_elem_of_singleton in H; contradiction
                  | H : ¬ _ ∈ [_] |- _ => apply H, list_elem_of_singleton; assumption
                  end).
  all: unfold time_sleep; destruct (poll_interval <? 0)%Z; cbn [ticks polls log];
    [reflexivity|].
  all: destruct (sleep_error poll_interval); cbn [ticks polls log];
    rewrite <- ?app_assoc; reflexivity.
Qed.

(** With less fuel a loop that is still running is still running. *)
Lemma while_true_none_le {W A} (body : M W (option A)) (fuel fuel' : nat) (w : W) :
  while_true fuel body w = None → fuel' ≤ fuel → while_true fuel' body w = None.
Proof.
  revert fuel w. induction fuel' as [|fuel' IH]; intros fuel w Hnone Hle; [reflexivity|].
  destruct fuel as [|fuel]; [lia|].
  cbn in *. destruct (body w) as [[[a|]|e] w1]; try discriminate.
  apply (IH fuel); [assumption | lia].
Qed.

Lemma after_iterations_0 (w0 : World) :
  after_iterations job_id poll_interval w0 0 = w0.
Proof.
  destruct w0 as [t p l]. unfold after_iterations. cbn.
  rewrite !Nat.add_0_r, app_nil_r. reflexivity.
Qed.

Lemma after_iterations_S (w0 : World) (n : nat) :
  after_iterations job_id poll_interval w0 (S n) =
  after_iterations job_id poll_interval
    {| ticks := S (ticks w0); polls := S (polls w0);
       log := log w0 ++ [EvTime; EvPoll job_id; EvSleep poll_interval] |} n.
Proof.
  unfold after_iterations. cbn [ticks polls log replicate mjoin list_join].
  rewrite <- app_assoc. f_equal; lia.
Qed.

Lemma running_from_S (w0 : World) (n : nat) :
  running_from cdgc clock job_id timeout start_time w0 (S n) →
  running_from cdgc clock job_id timeout start_time
    {| ticks := S (ticks w0); polls := S (polls w0);
       log := log w0 ++ [EvTime; EvPoll job_id; EvSleep poll_interval] |} n.
Proof.
  intros H i Hi. specialize (H (S i) ltac:(lia)). cbn [ticks polls].
  replace (S (ticks w0) + i) with (ticks w0 + S i) by lia.
  replace (S (polls w0) + i) with (polls w0 + S i) by lia.
  exact H.
Qed.

(** A pass that is in time and observes a running job goes on to the next
    pass. *)
Lemma iteration_running (w0 : World) (status : dict) :
  sleeps poll_interval →
  (clock (ticks w0) - start_time ≤ timeout)%Z →
  observes cdgc job_id (polls w0) status RUNNING →
  iteration w0 =
    (Ok None, {| ticks := S (ticks w0); polls := S (polls w0);
                 log := log w0 ++ [EvTime; EvPoll job_id; EvSleep poll_interval] |}).
Proof.
  intros [Hpos Hsleep] Htime [Hget (s & Hs & Hcl)].
  rewrite monitor_iteration_cases, Hget, Hs, Hcl, Hsleep.
  destruct (Z.gtb_spec (clock (ticks w0) - start_time) timeout); [lia|].
  destruct (Z.ltb_spec poll_interval 0); [lia|]. reflexivity.
Qed.

(** As long as the job is seen running in time, the loop goes on. *)
Lemma while_true_running (n fuel : nat) (w0 : World) :
  sleeps poll_interval →
  running_from cdgc clock job_id timeout start_time w0 n →
  while_true (n + fuel) iteration w0 =
  while_true fuel iteration (after_iterations job_id poll_interval w0 n).
Proof.
  intros Hpos. revert w0. induction n as [|n IH]; intros w0 Hrun.
  - rewrite after_iterations_0. reflexivity.
  - destruct (Hrun 0 ltac:(lia)) as [Htime [status Hobs]].
    rewrite !Nat.add_0_r in *.
    cbn [Nat.add while_true].
    rewrite (iteration_running w0 status Hpos Htime Hobs).
    rewrite after_iterations_S. apply IH, running_from_S, Hrun.
Qed.

(** A loop that returns success has seen the job running in time until a
    pass, in time as well, observed a successful terminal state. *)
Lemma while_true_success_inv (fuel : nat) (w0 w' : World) (fs : option dict) :
  while_true fuel iteration w0 = Some (Ok (true, fs), w') →
  ∃ n status,
    n < fuel ∧
    running_from cdgc clock job_id timeout start_time w0 n ∧
    (clock (ticks w0 + n)%nat - start_time ≤ timeout)%Z ∧
    (observes cdgc job_id (polls w0 + n) status SUCCEEDED ∨
     observes cdgc job_id (polls w0 + n) status PARTIALLY_SUCCEEDED) ∧
    fs = Some status.
Proof.
  revert w0. induction fuel as [|fuel IH]; intros w0 H; [discriminate|].
  cbn [while_true] in H. rewrite monitor_iteration_cases in H.
  destruct (Z.gtb_spec (clock (ticks w0) - start_time) timeout) as [|Htime];
    [discriminate|].
  destruct (get_job_status cdgc job_id (polls w0)) as [status|e] eqn:Hget;
    [|discriminate].
  destruct (status_string status) as [s|] eqn:Hs; [|discriminate].
  destruct (classify s) eqn:Hcl; try discriminate.
  - destruct (poll_interval <? 0)%Z; [discriminate|].
    destruct (sleep_error poll_interval); [discriminate|].
    apply IH in H as (n & status' & Hn & Hrun & Ht & Hobs & Hfs).
    cbn [ticks polls] in *.
    exists (S n), status'. split; [lia|]. split; [|split; [|split]].
    + intros [|i] Hi.
      * rewrite !Nat.add_0_r. split; [lia|]. exists status. split; [assumption|eauto].
      * replace (ticks w0 + S i) with (S (ticks w0) + i) by lia.
        replace (polls w0 + S i) with (S (polls w0) + i) by lia.
        apply Hrun. lia.
    + replace (ticks w0 + S n) with (S (ticks w0) + n) by lia. exact Ht.
    + replace (polls w0 + S n) with (S (polls w0) + n) by lia. exact Hobs.
    + exact Hfs.
  - injection H as <- <-. exists 0, status. rewrite !Nat.add_0_r.
    split; [lia|]. split; [intros i Hi; lia|]. split; [lia|].
    split; [|reflexivity]. left. split; [assumption|eauto].
  - injection H as <- <-. exists 0, status. rewrite !Nat.add_0_r.
    split; [lia|]. split; [intros i Hi; lia|]. split; [lia|].
    split; [|reflexivity]. right. split; [assumption|eauto].
Qed.

End Monitor.

Section MonitorJob.
Import Scanner Spec.
Context {py : Runtime}.
Variable cdgc : CDGC.
Variable clock : nat -> Z.
Variable job_info : dict.
Variable job_id : json.
Variables poll_interval timeout : Z.
Hypothesis Hjob : job_info !! str "jobId" = Some job_id.

Local Abbreviation iteration w :=
  (monitor_iteration cdgc clock job_id poll_interval timeout (clock (ticks w))).

(** [monitor_job] is its loop, with every exception that leaves the loop
    turned into the pair [(False, None)]. *)
Lemma monitor_job_loop (fuel : nat) (w : World) :
  monitor_job fuel cdgc clock job_info poll_interval timeout w =
    match while_true fuel (iteration w) (after_check w) with
    | None => None
    | Some (Ok r, w') => Some (Ok r, w')
    | Some (Raise _, w') => Some (Ok (false, None), w')
    end.
Proof.
  unfold monitor_job, subscript. rewrite Hjob. unfold time_time.
  fold (after_check w).
  destruct (while_true fuel _ (after_check w)) as [[[r|[]] w']|]; reflexivity.
Qed.

Lemma monitor_job_keeps_polling (n fuel : nat) (w : World) :
  sleeps poll_interval →
  still_running cdgc clock job_id timeout w n →
  fuel ≤ n →
  monitor_job fuel cdgc clock job_info poll_interval timeout w = None.
Proof.
  intros Hpos Hrun Hle. rewrite monitor_job_loop.
  rewrite (while_true_none_le _ n fuel); [reflexivity| |assumption].
  rewrite <- (Nat.add_0_r n) at 1.
  rewrite (while_true_running _ _ _ _ _ _ n 0 _ Hpos Hrun). reflexivity.
Qed.

(** After [n] polls that saw the job running in time, the call is decided
    by pass number [n]. *)
Lemma monitor_job_exit (n fuel : nat) (w : World) :
  sleeps poll_interval →
  still_running cdgc clock job_id timeout w n →
  n < fuel →
  monitor_job fuel cdgc clock job_info poll_interval timeout w =
    match while_true (fuel - n) (iteration w) (after_polls job_id poll_interval w n) with
    | None => None
    | Some (Ok r, w') => Some (Ok r, w')
    | Some (Raise _, w') => Some (Ok (false, None), w')
    end.
Proof.
  intros Hpos Hrun Hlt. rewrite monitor_job_loop.
  replace fuel with (n + (fuel - n)) at 1 by lia.
  rewrite (while_true_running _ _ _ _ _ _ n _ _ Hpos Hrun). reflexivity.
Qed.

Lemma monitor_job_times_out (n fuel : nat) (w : World) :
  sleeps poll_interval →
  still_running cdgc clock job_id timeout w n →
  timed_out_at clock timeout w n →
  n < fuel →
  monitor_job fuel cdgc clock job_info poll_interval timeout w =
    Some (Ok (false, None), after_check (after_polls job_id poll_interval w n)).
Proof.
  intros Hpos Hrun Hout Hlt. rewrite (monitor_job_exit n) by assumption.
  destruct (fuel - n) as [|f] eqn:Hf; [lia|].
  cbn [while_true]. rewrite monitor_iteration_cases.
  unfold timed_out_at in Hout. cbn [after_polls after_iterations after_check ticks].
  destruct (Z.gtb_spec (clock (S (ticks w) + n)%nat - clock (ticks w)) timeout) as [|Hle];
    [reflexivity|].
  cbn [Nat.add] in Hle. lia.
Qed.

Lemma monitor_job_terminal (n fuel : nat) (w : World) (status : dict) (st : job_state) :
  sleeps poll_interval →
  still_running cdgc clock job_id timeout w n →
  in_time_at clock timeout w n →
  observes cdgc job_id (polls w + n) status st →
  st ≠ RUNNING →
  n < fuel →
  monitor_job fuel cdgc clock job_info poll_interval timeout w =
    Some (Ok (match st with
              | FAILED => (false, None)
              | _ => (true, Some status)
              end),
          after_fetch job_id (after_check (after_polls job_id poll_interval w n))).
Proof.
  intros Hpos Hrun Hin [Hget (s & Hs & Hcl)] Hst Hlt.
  rewrite (monitor_job_exit n) by assumption.
  destruct (fuel - n) as [|f] eqn:Hf; [lia|].
  cbn [while_true]. rewrite monitor_iteration_cases.
  unfold in_time_at in Hin. cbn [after_polls after_iterations after_check ticks polls].
  destruct (Z.gtb_spec (clock (S (ticks w) + n)%nat - clock (ticks w)) timeout) as [Hgt|_].
  { cbn [Nat.add] in Hgt. lia. }
  rewrite Hget, Hs, Hcl. destruct st; try reflexivity. contradiction.
Qed.

Lemma monitor_job_success_inv (fuel : nat) (w w' : World) (fs : option dict) :
  monitor_job fuel cdgc clock job_info poll_interval timeout w = Some (Ok (true, fs), w') →
  ∃ n status,
    n < fuel ∧
    still_running cdgc clock job_id timeout w n ∧
    in_time_at clock timeout w n ∧
    (observes cdgc job_id (polls w + n) status SUCCEEDED ∨
     observes cdgc job_id (polls w + n) status PARTIALLY_SUCCEEDED) ∧
    fs = Some status.
Proof.
  rewrite monitor_job_loop.
  destruct (while_true fuel _ (after_check w)) as [[[r|e] w1]|] eqn:Hloop;
    try discriminate.
  intros H. injection H as -> ->.
  apply while_true_success_inv in Hloop as (n & status & Hn & Hrun & Ht & Hobs & Hfs).
  exists n, status. split; [assumption|]. split; [exact Hrun|].
  split; [exact Ht|]. split; assumption.
Qed.

End MonitorJob.

(** ** Claims about the job monitor *)

Section MonitorClaims.
Import Scanner Spec.

(** C1.  On every interpreter, with a poll interval that [time.sleep]
    accepts: let a call of the monitor see the job running, in time, for
    its first [n] polls (any status value whose upper-case form is none of
    the terminal ones counts as running).  Then the monitor is still polling
    after [n] passes; if the next pass is in time and observes
    COMPLETED/SUCCESS/SUCCESSFUL or PARTIAL_COMPLETED it returns
    [(True, status)] with the status just fetched; if it observes
    FAILED/ERROR/CANCELLED it returns [(False, None)]; if the timeout has
    elapsed at that pass it returns [(False, None)].  Conversely the
    monitor returns [(True, fs)] only when the first terminal state it
    observed, in time, is one of the successful ones, and [fs] is that
    status. *)
Theorem monitor_job_outcome {py : Runtime} (cdgc : CDGC) (clock : nat -> Z)
    (job_info : dict) (job_id : json) (poll_interval timeout : Z) (w : World) (n : nat) :
  job_info !! str "jobId" = Some job_id →
  sleeps poll_interval →
  still_running cdgc clock job_id timeout w n →
  (∀ fuel, fuel ≤ n →
     monitor_job fuel cdgc clock job_info poll_interval timeout w = None) ∧
  (∀ fuel status, n < fuel → in_time_at clock timeout w n →
     observes cdgc job_id (polls w + n) status SUCCEEDED ∨
     observes cdgc job_id (polls w + n) status PARTIALLY_SUCCEEDED →
     monitor_job fuel cdgc clock job_info poll_interval timeout w =
       Some (Ok (true, Some status),
             after_fetch job_id (after_check (after_polls job_id poll_interval w n)))) ∧
  (∀ fuel status, n < fuel → in_time_at clock timeout w n →
     observes cdgc job_id (polls w + n) status FAILED →
     monitor_job fuel cdgc clock job_info poll_interval timeout w =
       Some (Ok (false, None),
             after_fetch job_id (after_check (after_polls job_id poll_interval w n)))) ∧
  (∀ fuel, n < fuel → timed_out_at clock timeout w n →
     monitor_job fuel cdgc clock job_info poll_interval timeout w =
       Some (Ok (false, None), after_check (after_polls job_id poll_interval w n))) ∧
  (∀ fuel fs w',
     monitor_job fuel cdgc clock job_info poll_interval timeout w = Some (Ok (true, fs), w') →
     ∃ m status,
       m < fuel ∧
       still_running cdgc clock job_id timeout w m ∧
       in_time_at clock timeout w m ∧
       (observes cdgc job_id (polls w + m) status SUCCEEDED ∨
        observes cdgc job_id (polls w + m) status PARTIALLY_SUCCEEDED) ∧
       fs = Some status).
Proof.
  intros Hjob Hpos Hrun. split; [|split; [|split; [|split]]].
  - intros fuel Hle. eapply monitor_job_keeps_polling; eassumption.
  - intros fuel status Hlt Hin [Hobs|Hobs].
    + rewrite (monitor_job_terminal cdgc clock job_info job_id poll_interval timeout
                 Hjob n fuel w status SUCCEEDED); try assumption; [reflexivity|discriminate].
    + rewrite (monitor_job_terminal cdgc clock job_info job_id poll_interval timeout
                 Hjob n fuel w status PARTIALLY_SUCCEEDED); try assumption;
        [reflexivity|discriminate].
  - intros fuel status Hlt Hin Hobs.
    rewrite (monitor_job_terminal cdgc clock job_info job_id poll_interval timeout
               Hjob n fuel w status FAILED); try assumption; [reflexivity|discriminate].
  - intros fuel Hlt Hout. eapply monitor_job_times_out; eassumption.
  - intros fuel fs w' H. eapply monitor_job_success_inv; eassumption.
Qed.

Section Run1.
#[local] Existing Instance Test.python.

(** C1, on a run: the statuses "running", "Completed" with the default
    interval and timeout on a clock stepping by 30. *)
Lemma monitor_job_outcome_witness :
  Test.job_1 !! str "jobId" = Some (JStr (str "job-1")) ∧
  sleeps 30 ∧
  still_running (Test.scripted_cdgc [str "running"; str "Completed"])
    (Test.stepping_clock 30) (JStr (str "job-1")) 3600 Test.start 1 ∧
  monitor_job 2 (Test.scripted_cdgc [str "running"; str "Completed"])
    (Test.stepping_clock 30) Test.job_1 30 3600 Test.start =
  Some (Ok (true, Some (Test.status_of (str "Completed"))),
        after_fetch (JStr (str "job-1"))
          (after_check (after_polls (JStr (str "job-1")) 30 Test.start 1))).
Proof.
  assert (Hjob : Test.job_1 !! str "jobId" = Some (JStr (str "job-1")))
    by (vm_compute; reflexivity).
  assert (Hrun : still_running (Test.scripted_cdgc [str "running"; str "Completed"])
            (Test.stepping_clock 30) (JStr (str "job-1")) 3600 Test.start 1).
  { intros i Hi. assert (i = 0) as -> by lia. split; [vm_compute; discriminate|].
    exists (Test.status_of (str "running")). split; [reflexivity|].
    exists (str "running"). split; vm_compute; reflexivity. }
  assert (Hsleep : sleeps 30) by (split; [lia|reflexivity]).
  split; [exact Hjob|]. split; [exact Hsleep|]. split; [exact Hrun|].
  apply (monitor_job_outcome _ _ _ _ 30 3600 Test.start 1 Hjob Hsleep Hrun).
  - lia.
  - vm_compute. discriminate.
  - left. split; [reflexivity|].
    exists (str "Completed"). split; vm_compute; reflexivity.
Defined.

End Run1.

(** C4.  Every pass through the loop begins with the clock reading, and a
    pass that finds the timeout exceeded raises at once: it issues no
    status request.  So when the monitor, after [n] polls of a running job,
    finds the timeout exceeded, it returns [(False, None)] as an ordinary
    result, having issued exactly those [n] requests; the last thing it did
    was to read the clock. *)
Theorem monitor_job_timeout_before_fetch {py : Runtime} (cdgc : CDGC) (clock : nat -> Z)
    (job_info : dict) (job_id : json) (poll_interval timeout : Z) (w : World)
    (n fuel : nat) :
  job_info !! str "jobId" = Some job_id →
  sleeps poll_interval →
  still_running cdgc clock job_id timeout w n →
  timed_out_at clock timeout w n →
  n < fuel →
  (∀ start_time w0,
     (clock (ticks w0) - start_time > timeout)%Z →
     monitor_iteration cdgc clock job_id poll_interval timeout start_time w0 =
       (Raise TimeoutError, after_check w0)) ∧
  (∀ start_time w0 r w1,
     monitor_iteration cdgc clock job_id poll_interval timeout start_time w0 = (r, w1) →
     ∃ rest, log w1 = log w0 ++ EvTime :: rest ∧
             (polls w1 ≠ polls w0 → (clock (ticks w0) - start_time ≤ timeout)%Z)) ∧
  ∃ w',
    monitor_job fuel cdgc clock job_info poll_interval timeout w =
      Some (Ok (false, None), w') ∧
    polls w' = polls w + n ∧
    log w' = log w ++ [EvTime]
               ++ mjoin (replicate n [EvTime; EvPoll job_id; EvSleep poll_interval])
               ++ [EvTime].
Proof.
  intros Hjob Hpos Hrun Hout Hlt. split; [|split].
  - intros start_time w0 Hgt. rewrite monitor_iteration_cases.
    destruct (Z.gtb_spec (clock (ticks w0) - start_time) timeout); [reflexivity|lia].
  - intros start_time w0 r w1. rewrite monitor_iteration_cases.
    destruct (Z.gtb_spec (clock (ticks w0) - start_time) timeout) as [Hgt|Hle].
    + intros [= <- <-]. exists []. split; [reflexivity|]. cbn. congruence.
    + intros H. assert (∃ rest, log w1 = log w0 ++ EvTime :: rest) as [rest Hrest].
      { destruct (get_job_status cdgc job_id (polls w0)) as [status|e].
        - destruct (status_string status) as [s|].
          + destruct (classify s);
              [destruct (poll_interval <? 0)%Z; [|destruct (sleep_error poll_interval)]|..];
              injection H as <- <-; cbn; rewrite <- ?app_assoc; eexists; reflexivity.
          + injection H as <- <-; cbn; rewrite <- ?app_assoc; eexists; reflexivity.
        - injection H as <- <-; cbn; rewrite <- ?app_assoc; eexists; reflexivity. }
      exists rest. split; [exact Hrest|]. intros _. exact Hle.
  - exists (after_check (after_polls job_id poll_interval w n)).
    split; [eapply monitor_job_times_out; eassumption|].
    split; [reflexivity|]. cbn. rewrite <- !app_assoc. reflexivity.
Qed.

Section Run2.
#[local] Existing Instance Test.python.

(** C4, on a run: a job that never leaves RUNNING, polled every 30 units
    with a timeout of 30: the third clock check finds 60 elapsed. *)
Lemma monitor_job_timeout_before_fetch_witness :
  ∃ w',
    monitor_job 5 (Test.scripted_cdgc []) (Test.stepping_clock 30) Test.job_1 30 30
      Test.start = Some (Ok (false, None), w') ∧
    polls w' = 1 ∧
    log w' = [EvTime; EvTime; EvPoll (JStr (str "job-1")); EvSleep 30; EvTime].
Proof.
  assert (Hjob : Test.job_1 !! str "jobId" = Some (JStr (str "job-1")))
    by (vm_compute; reflexivity).
  assert (Hrun : still_running (Test.scripted_cdgc []) (Test.stepping_clock 30)
                   (JStr (str "job-1")) 30 Test.start 1).
  { intros i Hi. assert (i = 0) as -> by lia. split; [vm_compute; discriminate|].
    exists (Test.status_of (str "RUNNING")). split; [reflexivity|].
    exists (str "RUNNING"). split; vm_compute; reflexivity. }
  assert (Hout : timed_out_at (Test.stepping_clock 30) 30 Test.start 1)
    by (vm_compute; reflexivity).
  assert (Hsleep : sleeps 30) by (split; [lia|reflexivity]).
  exact (proj2 (proj2 (monitor_job_timeout_before_fetch _ _ _ _ 30 30 Test.start 1 5
                         Hjob Hsleep Hrun Hout ltac:(lia)))).
Defined.

End Run2.

(** C8.  On every interpreter ([upper] leaves RUNNING and COMPLETED as
    they are, a sleep of no duration is accepted): when the three status
    requests of a call are answered RUNNING, RUNNING, COMPLETED, the poll
    interval is 0 and the timeout is not exceeded at the three clock
    checks, the monitor returns
    [(True, status)] with the third response after exactly three status
    requests, however long it is allowed to run: no fourth request is
    issued. *)
Theorem monitor_job_three_polls {py : Runtime} (cdgc : CDGC) (clock : nat -> Z)
    (job_info : dict) (job_id : json) (timeout : Z) (w : World) (s0 s1 s2 : dict)
    (fuel : nat) :
  conforms py →
  job_info !! str "jobId" = Some job_id →
  get_job_status cdgc job_id (polls w) = Ok s0 →
  get_job_status cdgc job_id (polls w + 1) = Ok s1 →
  get_job_status cdgc job_id (polls w + 2) = Ok s2 →
  s0 !! str "status" = Some (JStr (str "RUNNING")) →
  s1 !! str "status" = Some (JStr (str "RUNNING")) →
  s2 !! str "status" = Some (JStr (str "COMPLETED")) →
  (∀ i, i < 3 → in_time_at clock timeout w i) →
  3 ≤ fuel →
  ∃ w',
    monitor_job fuel cdgc clock job_info 0 timeout w = Some (Ok (true, Some s2), w') ∧
    polls w' = polls w + 3 ∧
    log w' = log w ++ [EvTime;
                       EvTime; EvPoll job_id; EvSleep 0;
                       EvTime; EvPoll job_id; EvSleep 0;
                       EvTime; EvPoll job_id].
Proof.
  intros Hpy Hjob H0 H1 H2 Hs0 Hs1 Hs2 Htime Hfuel.
  assert (Hrunning : classify (str "RUNNING") = RUNNING).
  { unfold classify. rewrite (upper_ascii py Hpy) by ascii_text.
    vm_compute. reflexivity. }
  assert (Hcompleted : classify (str "COMPLETED") = SUCCEEDED).
  { unfold classify. rewrite (upper_ascii py Hpy) by ascii_text.
    vm_compute. reflexivity. }
  assert (Hsleep : sleeps 0) by (split; [lia|exact (sleep_zero py Hpy)]).
  assert (Hrun : still_running cdgc clock job_id timeout w 2).
  { intros i Hi. split; [apply (Htime i); lia|]. cbn [after_check polls].
    destruct i as [|[|i]]; [| |lia].
    - exists s0. split; [rewrite Nat.add_0_r; exact H0|].
      exists (str "RUNNING"). split; [unfold status_string; rewrite Hs0; reflexivity|].
      exact Hrunning.
    - exists s1. split; [exact H1|].
      exists (str "RUNNING"). split; [unfold status_string; rewrite Hs1; reflexivity|].
      exact Hrunning. }
  exists (after_fetch job_id (after_check (after_polls job_id 0 w 2))).
  split; [|split].
  - rewrite (monitor_job_terminal cdgc clock job_info job_id 0 timeout Hjob 2 fuel w
               s2 SUCCEEDED);
      [reflexivity|exact Hsleep|exact Hrun|apply Htime; lia| |discriminate|lia].
    split; [exact H2|].
    exists (str "COMPLETED"). split; [unfold status_string; rewrite Hs2; reflexivity|].
    exact Hcompleted.
  - cbn. lia.
  - cbn. rewrite <- !app_assoc. reflexivity.
Qed.

Section Run3.
#[local] Existing Instance Test.python.

(** C8, on the test clock, where no time passes. *)
Lemma monitor_job_three_polls_witness :
  ∃ w',
    monitor_job 10 (Test.scripted_cdgc [str "RUNNING"; str "RUNNING"; str "COMPLETED"])
      (Test.stepping_clock 0) Test.job_1 0 3600 Test.start
    = Some (Ok (true, Some (Test.status_of (str "COMPLETED"))), w') ∧
    polls w' = 3 ∧
    log w' = [EvTime;
              EvTime; EvPoll (JStr (str "job-1")); EvSleep 0;
              EvTime; EvPoll (JStr (str "job-1")); EvSleep 0;
              EvTime; EvPoll (JStr (str "job-1"))].
Proof.
  apply (monitor_job_three_polls
           (Test.scripted_cdgc [str "RUNNING"; str "RUNNING"; str "COMPLETED"])
           (Test.stepping_clock 0) Test.job_1 (JStr (str "job-1")) 3600 Test.start
           (Test.status_of (str "RUNNING")) (Test.status_of (str "RUNNING"))
           (Test.status_of (str "COMPLETED")) 10).
  - exact python_conforms.
  - vm_compute. reflexivity.
  - vm_compute. reflexivity.
  - vm_compute. reflexivity.
  - vm_compute. reflexivity.
  - vm_compute. reflexivity.
  - vm_compute. reflexivity.
  - vm_compute. reflexivity.
  - intros i Hi. unfold in_time_at, Test.stepping_clock. lia.
  - lia.
Defined.

End Run3.

End MonitorClaims.

(** ** The resource resolver and the job launcher *)

Section Resolver.
Import Scanner Spec.

(** On hits that all have a name, the loop finds the first exact match. *)
Lemma exact_match_loop_find {py : Runtime} (hits : list Asset) (sourceName : pystr) :
  Forall (fun a => is_Some (asset_name a)) hits →
  exact_match_loop hits sourceName = Ok (find (is_exact_match sourceName) hits).
Proof.
  induction 1 as [|a hits [s Hs] _ IH]; [reflexivity|].
  cbn [exact_match_loop find]. unfold is_exact_match at 1. rewrite Hs.
  unfold asset_name in Hs. unfold subscript.
  destruct (summary a !! str "core.name") as [[| | |s'| |]|]; try discriminate.
  injection Hs as ->. cbn [method_lower].
  destruct (bool_decide (lower s = lower sourceName)); [reflexivity|exact IH].
Qed.

(** Whatever the loop returns is one of the hits. *)
Lemma exact_match_loop_elem {py : Runtime} (hits : list Asset) (sourceName : pystr)
    (a : Asset) :
  exact_match_loop hits sourceName = Ok (Some a) → a ∈ hits.
Proof.
  induction hits as [|h hits IH]; [discriminate|].
  cbn [exact_match_loop].
  destruct (subscript (summary h) (str "core.name")) as [v|]; [|discriminate].
  destruct (method_lower v) as [l|]; [|discriminate].
  destruct (bool_decide (l = lower sourceName)).
  - intros [= ->]. left.
  - intros H. right. exact (IH H).
Qed.

(** C5.  On every interpreter, a hit being an exact match when its name
    and the requested name have the same lower-case form: when the search
    response is well formed and its hit list contains a case-insensitive
    exact match for the requested name, the resolver
    returns an exact match (the first one in the list), whatever partial
    matches the list also holds.  When the hit list is empty the resolver
    reports not-found, [(False, None)].  And a resource it returns is
    always one of the hits, never a default. *)
Theorem search_catalog_source_resolves {py : Runtime} (cdgc : CDGC) (sourceName : pystr) :
  (∀ sr a,
     search_assets cdgc (str "*") (str "all") (search_body sourceName) = Ok (Some sr) →
     well_formed sr →
     a ∈ hits sr → is_exact_match sourceName a = true →
     ∃ a', search_catalog_source cdgc sourceName = (true, Some a') ∧
           find (is_exact_match sourceName) (hits sr) = Some a' ∧
           a' ∈ hits sr ∧ is_exact_match sourceName a' = true) ∧
  (∀ sr,
     search_assets cdgc (str "*") (str "all") (search_body sourceName) = Ok (Some sr) →
     hits sr = [] →
     search_catalog_source cdgc sourceName = (false, None)) ∧
  (∀ found a,
     search_catalog_source cdgc sourceName = (found, Some a) →
     ∃ sr, search_assets cdgc (str "*") (str "all") (search_body sourceName) = Ok (Some sr) ∧
           found = true ∧ a ∈ hits sr).
Proof.
  split; [|split].
  - intros sr a Hsearch [(n & Hn & Hcount) Hnames] Hin Hmatch.
    destruct (find (is_exact_match sourceName) (hits sr)) as [a'|] eqn:Hfind.
    + exists a'. apply find_some in Hfind as Hsome. destruct Hsome as [Hin' Hm'].
      split; [|split; [reflexivity|split; [apply list_elem_of_In; exact Hin'|exact Hm']]].
      unfold search_catalog_source, search_catalog_source_try.
      rewrite Hsearch, Hn.
      assert (0 < n)%Z as Hpos.
      { destruct (hits sr); [inversion Hin'|cbn [length] in Hcount; lia]. }
      destruct (Z.ltb_spec 0 n); [|lia].
      rewrite (exact_match_loop_find _ _ Hnames), Hfind. reflexivity.
    + exfalso. apply list_elem_of_In in Hin.
      pose proof (find_none _ _ Hfind a Hin) as Hno. congruence.
  - intros sr Hsearch Hempty.
    unfold search_catalog_source, search_catalog_source_try.
    rewrite Hsearch, Hempty.
    destruct (total_hits sr) as [n|]; [|reflexivity].
    destruct (0 <? n)%Z; reflexivity.
  - intros found a. unfold search_catalog_source, search_catalog_source_try.
    destruct (search_assets cdgc (str "*") (str "all") (search_body sourceName))
      as [[sr|]|]; try discriminate.
    destruct (total_hits sr) as [n|]; [|discriminate].
    destruct (0 <? n)%Z; [|discriminate].
    destruct (exact_match_loop (hits sr) sourceName) as [[asset|]|] eqn:Hloop;
      [| |discriminate].
    + intros [= <- <-]. exists sr. split; [reflexivity|]. split; [reflexivity|].
      eapply exact_match_loop_elem, Hloop.
    + destruct (hits sr) as [|first rest] eqn:Hhits; [discriminate|].
      destruct (subscript (summary first) (str "core.name")); [|discriminate].
      intros [= <- <-]. exists sr. split; [reflexivity|]. split; [reflexivity|].
      rewrite Hhits. left.
Qed.

Section Run4.
#[local] Existing Instance Test.python.

(** C5, on a run: the exact match is the third of three hits; the first two
    only contain the requested name. *)
Lemma search_catalog_source_resolves_witness :
  search_catalog_source
    (Test.answering_cdgc
       (Ok (Some {| total_hits := Ok 3%Z;
                    hits := [Test.source (str "Sales DB copy") (str "o-1");
                             Test.source (str "Old sales db") (str "o-2");
                             Test.source (str "SALES DB") (str "o-3")] |}))
       (Raise CDGCAPIError))
    (str "Sales Db")
  = (true, Some (Test.source (str "SALES DB") (str "o-3"))).
Proof.
  destruct (proj1 (search_catalog_source_resolves
                     (Test.answering_cdgc
                        (Ok (Some {| total_hits := Ok 3%Z;
                                     hits := [Test.source (str "Sales DB copy") (str "o-1");
                                              Test.source (str "Old sales db") (str "o-2");
                                              Test.source (str "SALES DB") (str "o-3")] |}))
                        (Raise CDGCAPIError))
                     (str "Sales Db"))
              _ (Test.source (str "SALES DB") (str "o-3")) eq_refl)
    as (a' & Hres & Hfind & _).
  - split.
    + exists 3%Z. split; [reflexivity|cbn; lia].
    + repeat constructor; eexists; vm_compute; reflexivity.
  - cbn [hits]. do 2 right. left.
  - vm_compute. reflexivity.
  - rewrite Hres.
    assert (Some a' = Some (Test.source (str "SALES DB") (str "o-3"))) as [= ->]
      by (rewrite <- Hfind; vm_compute; reflexivity).
    reflexivity.
Defined.

End Run4.

End Resolver.

Section Launcher.
Import Scanner Spec.

(** C6.  The launcher returns the failure pair [(False, None)] whenever
    the remote call raises, and whenever the response has no job
    identifier (no [jobId] field, a null one, or any other falsy value).
    Whenever it reports success it returns a handle whose [jobId] is the
    one of the response, which is neither [None] nor the empty string. *)
Theorem execute_catalog_source_launch (cdgc : CDGC) (catalogSource : Asset)
    (capabilities : option (list pystr)) :
  let launched :=
    run_catalog_source_job cdgc
      (get (systemAttributes catalogSource) (str "core.origin")) capabilities in
  (∀ e, launched = Raise e →
        execute_catalog_source cdgc catalogSource capabilities = (false, None)) ∧
  (∀ response, launched = Ok response →
        response !! str "jobId" = None ∨ truthy (get response (str "jobId")) = false →
        execute_catalog_source cdgc catalogSource capabilities = (false, None)) ∧
  (∀ handle, execute_catalog_source cdgc catalogSource capabilities = (true, handle) →
        ∃ response job_info job_id,
          launched = Ok response ∧
          handle = Some job_info ∧
          response !! str "jobId" = Some job_id ∧
          job_info !! str "jobId" = Some job_id ∧
          job_id ≠ JNull ∧ job_id ≠ JStr []).
Proof.
  intros launched. unfold execute_catalog_source. fold launched.
  split; [|split].
  - intros e ->. destruct e; reflexivity.
  - intros response -> Hno.
    assert (truthy (get response (str "jobId")) = false) as ->; [|reflexivity].
    destruct Hno as [Hnone|Hfalsy]; [|exact Hfalsy].
    unfold get. rewrite Hnone. reflexivity.
  - intros handle. destruct launched as [response|e]; [|destruct e; discriminate].
    destruct (truthy (get response (str "jobId"))) eqn:Htruthy; [|discriminate].
    intros [= <-]. unfold get in Htruthy |- * .
    destruct (response !! str "jobId") as [job_id|] eqn:Hid; [|discriminate].
    eexists response, _, job_id. split; [reflexivity|]. split; [reflexivity|].
    split; [exact Hid|]. split; [apply lookup_insert_eq|].
    split; intros ->; discriminate.
Qed.

(** C6, on a run: a response with a job identifier and a tracking URI. *)
Lemma execute_catalog_source_launch_witness :
  ∃ response job_info job_id,
    run_catalog_source_job
      (Test.answering_cdgc (Ok None)
         (Ok (<[str "jobId" := JStr (str "job-1")]>
                {[ str "trackingURI" := JStr (str "/jobs/job-1") ]})))
      (get (systemAttributes (Test.source (str "Sales DB") (str "o-3"))) (str "core.origin"))
      (Some [str "Metadata Extraction"]) = Ok response ∧
    Some Test.job_2 = Some job_info ∧
    response !! str "jobId" = Some job_id ∧
    job_info !! str "jobId" = Some job_id ∧
    job_id ≠ JNull ∧ job_id ≠ JStr [].
Proof.
  apply (proj2 (proj2 (execute_catalog_source_launch
                         (Test.answering_cdgc (Ok None)
                            (Ok (<[str "jobId" := JStr (str "job-1")]>
                                   {[ str "trackingURI" := JStr (str "/jobs/job-1") ]})))
                         (Test.source (str "Sales DB") (str "o-3"))
                         (Some [str "Metadata Extraction"])))).
  vm_compute. reflexivity.
Defined.

End Launcher.

(** ** Export file names *)

Section FileNames.
Import Exporter Spec.

(** On ASCII characters the characters kept are those of the class
    [[A-Za-z0-9_-]], on every interpreter. *)
Lemma kept_ascii {py : Runtime} (c : codepoint) :
  conforms py → (c < 128)%N → kept c = in_ascii_class c.
Proof.
  intros Hpy Hc. unfold kept. rewrite (isalnum_latin1 py Hpy) by lia.
  assert (Hall : forallb (fun n => eqb (latin1_isalnum (N.of_nat n)
                                        || (N.of_nat n =? 45)%N || (N.of_nat n =? 95)%N)
                                       (in_ascii_class (N.of_nat n)))
                   (seq 0 128) = true) by (vm_compute; reflexivity).
  rewrite forallb_forall in Hall.
  specialize (Hall (N.to_nat c)). rewrite N2Nat.id in Hall.
  apply eqb_prop, Hall, in_seq. lia.
Qed.

Lemma safe_name_kept {py : Runtime} (timestamp base_name : pystr) :
  create_json_filename timestamp base_name =
    ((fun c => if kept c then c else 95%N) <$> base_name)
      ++ str "_" ++ timestamp ++ str ".json".
Proof.
  unfold create_json_filename. f_equal. apply list_fmap_ext. intros _ c _.
  unfold kept. rewrite <- orb_assoc.
  replace (bool_decide (c ∈ str "-" ++ str "_")) with ((c =? 45)%N || (c =? 95)%N);
    [reflexivity|].
  change (str "-" ++ str "_") with [45%N; 95%N].
  destruct (N.eqb_spec c 45) as [->|H45]; [reflexivity|].
  destruct (N.eqb_spec c 95) as [->|H95]; [reflexivity|].
  symmetry. apply bool_decide_eq_false. rewrite !elem_of_cons, elem_of_nil. tauto.
Qed.

Section Run5.
#[local] Existing Instance Test.python.

(** C9, as stated, fails: the letter U+00E9 of "café" is outside
    [[A-Za-z0-9_-]] and is kept, since [isalnum] holds of it. *)
Lemma create_json_filename_keeps_e_acute :
  create_json_filename (str "20240131_093000") [99; 97; 102; 233]%N
    = [99; 97; 102; 233]%N ++ str "_20240131_093000.json" ∧
  create_json_filename (str "20240131_093000") [99; 97; 102; 233]%N
    ≠ sanitized [99; 97; 102; 233]%N ++ str "_20240131_093000.json".
Proof. split; [vm_compute; reflexivity | vm_compute; discriminate]. Qed.

End Run5.

(** C9, amended.  On every interpreter and for every base name, the file
    name is the sanitized base name followed by ['_'], the timestamp and
    [.json]; sanitization keeps the length, keeps every character that is
    alphanumeric in Python's sense ([isalnum], whatever the code point) or
    is ['-'] or ['_'], and replaces every other character by ['_'].  On
    ASCII characters the characters kept are exactly [[A-Za-z0-9_-]], so an
    ASCII base name is sanitized as the specification says, and
    "My Source #1" gives [My_Source__1_{timestamp}.json]; beyond ASCII the
    two differ: U+00E9 is kept. *)
Theorem create_json_filename_sanitizes {py : Runtime} (timestamp base_name : pystr) :
  (∃ safe_name,
     create_json_filename timestamp base_name
       = safe_name ++ str "_" ++ timestamp ++ str ".json" ∧
     length safe_name = length base_name ∧
     ∀ i c, base_name !! i = Some c →
            safe_name !! i = Some (if kept c then c else 95%N)) ∧
  (conforms py →
   (∀ c, (c < 128)%N → kept c = in_ascii_class c) ∧
   (Forall (fun c => (c < 128)%N) base_name →
    create_json_filename timestamp base_name
      = sanitized base_name ++ str "_" ++ timestamp ++ str ".json") ∧
   create_json_filename timestamp (str "My Source #1")
     = str "My_Source__1_" ++ timestamp ++ str ".json" ∧
   kept 233 = true ∧ in_ascii_class 233 = false).
Proof.
  split.
  - exists ((fun c => if kept c then c else 95%N) <$> base_name).
    split; [apply safe_name_kept|]. split; [apply length_fmap|].
    intros i c Hc. rewrite list_lookup_fmap, Hc. reflexivity.
  - intros Hpy.
    assert (Hascii : ∀ name, Forall (fun c => (c < 128)%N) name →
              create_json_filename timestamp name
                = sanitized name ++ str "_" ++ timestamp ++ str ".json").
    { intros name Hname. rewrite safe_name_kept. f_equal. unfold sanitized.
      apply list_fmap_ext. intros i c Hc.
      rewrite (kept_ascii c Hpy); [reflexivity|].
      rewrite Forall_forall in Hname. apply Hname.
      eapply list_elem_of_lookup_2, Hc. }
    split; [intros c; exact (kept_ascii c Hpy)|]. split; [exact (Hascii base_name)|].
    split; [rewrite Hascii by ascii_text; reflexivity|].
    split; [|reflexivity].
    unfold kept. rewrite (isalnum_latin1 py Hpy) by lia. reflexivity.
Qed.

Section Run6.
#[local] Existing Instance Test.python.

(** C9, amended, on an ASCII name. *)
Lemma create_json_filename_sanitizes_witness :
  Forall (fun c => (c < 128)%N) (str "Q3 report (final).v2") ∧
  create_json_filename (str "20240131_093000") (str "Q3 report (final).v2")
    = str "Q3_report__final__v2_20240131_093000.json".
Proof.
  assert (H : Forall (fun c => (c < 128)%N) (str "Q3 report (final).v2")) by ascii_text.
  split; [exact H|].
  rewrite (proj1 (proj2 (proj2 (create_json_filename_sanitizes
                                  (str "20240131_093000") (str "Q3 report (final).v2"))
                                python_conforms)) H).
  vm_compute. reflexivity.
Defined.

End Run6.

End FileNames.

(** ** Dictionary objects: preparing and saving a record *)

Section Records.
Import Importer Exporter Spec.
Context {Σ : Type}.

(** One step of the field-removal loop, on the object [l] holding [p]. *)
Lemma strip_field (h : gmap loc dict) (σ : Σ) (t : list event) (l : loc) (p : dict)
    (field : pystr) :
  (let* q := load l in
   if bool_decide (is_Some (q !! field)) then store l (delete field q) else ret tt)
    {| heap := <[l := p]> h; remote := σ; trace := t |}
  = (Ok tt, {| heap := <[l := delete field p]> h; remote := σ; trace := t |}).
Proof.
  unfold bind, load, store, ret. cbn [heap remote trace].
  rewrite lookup_insert_eq. case_bool_decide as Hfield.
  - cbn [heap remote trace]. rewrite insert_insert_eq. reflexivity.
  - rewrite delete_id; [reflexivity|].
    destruct (p !! field) eqn:E; [|reflexivity]. exfalso. apply Hfield. eauto.
Qed.

(** [prepare_classification_for_import] allocates a new object holding the
    record without the export-only fields, and changes nothing else. *)
Lemma prepare_classification_for_import_run (w : World Σ) (l : loc) (d : dict) :
  heap w !! l = Some d →
  prepare_classification_for_import l w =
    (Ok (fresh (dom (heap w))),
     {| heap := <[fresh (dom (heap w)) := stripped d]> (heap w);
        remote := remote w; trace := trace w |}).
Proof.
  intros Hl. unfold prepare_classification_for_import, metadata_fields, for_each.
  unfold bind at 1. unfold load at 1. rewrite Hl.
  unfold bind at 1. unfold alloc at 1. cbn [heap remote trace].
  set (l' := fresh (dom (heap w))).
  unfold bind at 1. unfold bind at 1. rewrite strip_field.
  unfold bind at 1. rewrite strip_field.
  unfold bind at 1. rewrite strip_field.
  unfold bind at 1. rewrite strip_field.
  reflexivity.
Qed.

Lemma fresh_loc_ne (h : gmap loc dict) (l : loc) (d : dict) :
  h !! l = Some d → fresh (dom h) ≠ l.
Proof.
  intros Hl Heq. apply (is_fresh (dom h)). rewrite Heq. eapply elem_of_dom_2, Hl.
Qed.

Lemma stripped_lookup (d : dict) (k : pystr) :
  stripped d !! k = if bool_decide (k ∈ metadata_fields) then None else d !! k.
Proof.
  unfold stripped, metadata_fields. case_bool_decide as Hk.
  - rewrite !elem_of_cons, elem_of_nil in Hk.
    destruct Hk as [->|[->|[->|[->|[]]]]];
      rewrite ?lookup_delete_eq; try reflexivity;
      repeat (rewrite lookup_delete_ne by (vm_compute; discriminate);
              rewrite ?lookup_delete_eq); reflexivity.
  - rewrite !elem_of_cons, elem_of_nil in Hk.
    rewrite !lookup_delete_ne; [reflexivity|..]; intros <-; tauto.
Qed.

Variable fs : FileSystem.

(** [save_classification_to_file] when the output directory cannot be
    created: nothing else happens. *)
Lemma save_classification_to_file_no_directory (self : ClassificationExporter)
    (utcnow : pystr) (l : loc) (filename output_dir : pystr) (w : World Σ) (e : exn) :
  makedirs fs output_dir = Raise e →
  save_classification_to_file fs self utcnow l filename output_dir w =
    (Raise e, {| heap := heap w; remote := remote w;
                 trace := trace w ++ [CallMakedirs output_dir] |}).
Proof.
  intros Hmk. unfold save_classification_to_file.
  unfold bind at 1. unfold os_call at 1. rewrite Hmk. reflexivity.
Qed.

(** [save_classification_to_file] when the directory is there: the object
    passed in is updated in place, then written. *)
Lemma save_classification_to_file_run (self : ClassificationExporter)
    (utcnow : pystr) (l : loc) (filename output_dir : pystr) (w : World Σ) (d : dict) :
  heap w !! l = Some d →
  makedirs fs output_dir = Ok tt →
  save_classification_to_file fs self utcnow l filename output_dir w =
    (write_file fs (path_join output_dir filename) (exported self utcnow d),
     {| heap := <[l := exported self utcnow d]> (heap w);
        remote := remote w;
        trace := trace w ++ [CallMakedirs output_dir;
                             CallWrite (path_join output_dir filename)
                               (exported self utcnow d)] |}).
Proof.
  intros Hl Hmk. unfold save_classification_to_file, exported.
  unfold bind, os_call, load, store, try_except, raise. cbn [heap remote trace].
  rewrite Hmk, Hl. cbn [heap remote trace].
  rewrite !lookup_insert_eq. cbn [heap remote trace]. rewrite !insert_insert_eq.
  rewrite <- app_assoc.
  destruct (write_file fs _ _) as [[]|e]; reflexivity.
Qed.

End Records.

Section RecordClaims.
Import Importer Exporter Spec.
Context {Σ : Type}.

(** C7.  Preparing a record for import yields a record without the four
    fields export_date, export_org, export_user and id, in which every
    other field is as in the original.  So when a payload that has none of
    these fields is given an id by the store, exported, and the exported
    record is prepared for import, the result is the payload. *)
Theorem export_then_prepare_round_trip :
  (∀ (w : World Σ) l d,
     heap w !! l = Some d →
     ∃ l' w' p,
       prepare_classification_for_import l w = (Ok l', w') ∧
       heap w' !! l' = Some p ∧
       ∀ k, p !! k = if bool_decide (k ∈ metadata_fields) then None else d !! k) ∧
  (∀ fs self utcnow l filename output_dir (w w1 : World Σ) payload id,
     heap w !! l = Some (with_id id payload) →
     (∀ k, k ∈ metadata_fields → payload !! k = None) →
     save_classification_to_file fs self utcnow l filename output_dir w = (Ok tt, w1) →
     ∃ l' w2,
       heap w1 !! l = Some (exported self utcnow (with_id id payload)) ∧
       prepare_classification_for_import l w1 = (Ok l', w2) ∧
       heap w2 !! l' = Some payload).
Proof.
  split.
  - intros w l d Hl. eexists _, _, (stripped d).
    split; [apply prepare_classification_for_import_run, Hl|].
    split; [apply lookup_insert_eq|]. apply stripped_lookup.
  - intros fs self utcnow l filename output_dir w w1 payload id Hl Hnone Hsave.
    destruct (makedirs fs output_dir) as [[]|e] eqn:Hmk.
    2:{ rewrite (save_classification_to_file_no_directory fs _ _ _ _ _ _ e Hmk) in Hsave.
        discriminate. }
    rewrite (save_classification_to_file_run fs _ _ _ _ _ _ _ Hl Hmk) in Hsave.
    injection Hsave as _ <-. cbn [heap].
    assert (Hl1 : <[l := exported self utcnow (with_id id payload)]> (heap w) !! l
                  = Some (exported self utcnow (with_id id payload)))
      by apply lookup_insert_eq.
    eexists _, _. split; [exact Hl1|].
    split; [apply prepare_classification_for_import_run; exact Hl1|].
    cbn [heap]. rewrite lookup_insert_eq. f_equal. apply map_eq. intros k.
    rewrite stripped_lookup. case_bool_decide as Hk.
    + symmetry. apply Hnone, Hk.
    + unfold metadata_fields in Hk. rewrite !elem_of_cons, elem_of_nil in Hk.
      unfold exported. rewrite !lookup_insert_ne by (intros <-; tauto).
      destruct id as [v|]; cbn [with_id]; [|reflexivity].
      rewrite lookup_insert_ne by (intros <-; tauto). reflexivity.
Qed.

End RecordClaims.

(** C7, on a run: the payload "PII" with the id 42, exported and
    prepared. *)
Lemma export_then_prepare_round_trip_witness :
  ∃ l' w2,
    heap (snd (Exporter.save_classification_to_file Test.plain_fs Test.exporter
                 (str "Wed, 31 Jan 2024 09:30:00 GMT") 0 (str "pii.json") (str "./output")
                 (Test.holding (Spec.with_id (Some (JNum 42)) Test.pii)))) !! 0
      = Some (Spec.exported Test.exporter (str "Wed, 31 Jan 2024 09:30:00 GMT")
                (Spec.with_id (Some (JNum 42)) Test.pii)) ∧
    Importer.prepare_classification_for_import 0
      (snd (Exporter.save_classification_to_file Test.plain_fs Test.exporter
              (str "Wed, 31 Jan 2024 09:30:00 GMT") 0 (str "pii.json") (str "./output")
              (Test.holding (Spec.with_id (Some (JNum 42)) Test.pii))))
      = (Ok l', w2) ∧
    heap w2 !! l' = Some Test.pii.
Proof.
  apply (proj2 (@export_then_prepare_round_trip unit) Test.plain_fs Test.exporter
           (str "Wed, 31 Jan 2024 09:30:00 GMT") 0 (str "pii.json") (str "./output")
           (Test.holding (Spec.with_id (Some (JNum 42)) Test.pii))).
  - vm_compute. reflexivity.
  - intros k Hk. unfold Importer.metadata_fields in Hk.
    rewrite !elem_of_cons, elem_of_nil in Hk.
    destruct Hk as [->|[->|[->|[->|[]]]]]; vm_compute; reflexivity.
  - rewrite (save_classification_to_file_run Test.plain_fs _ _ _ _ _ _
               (Spec.with_id (Some (JNum 42)) Test.pii)); reflexivity.
Defined.

Section MutationClaims.
Import Importer Exporter Spec.
Context {Σ : Type}.

(** C10, amended.  A call of [save_classification_to_file] that gets past
    the creation of the output directory updates the dictionary it was
    given, in place, whether or not the file is then written: afterwards
    that same object holds the three export fields, and no other object has
    been created or changed.  [prepare_classification_for_import] leaves
    the object it was given as it is: it returns a new object, which holds
    the record without the export-only fields. *)
Theorem save_mutates_prepare_copies (fs : FileSystem) (self : ClassificationExporter)
    (utcnow : pystr) (l : loc) (filename output_dir : pystr) (w : World Σ) (d : dict) :
  heap w !! l = Some d →
  (makedirs fs output_dir = Ok tt →
   ∃ r w' d',
     save_classification_to_file fs self utcnow l filename output_dir w = (r, w') ∧
     r = write_file fs (path_join output_dir filename) d' ∧
     heap w' !! l = Some d' ∧
     d' !! str "export_date" = Some (JStr utcnow) ∧
     d' !! str "export_org" = Some (org_name (auth self)) ∧
     d' !! str "export_user" = Some (user_id (auth self)) ∧
     (∀ k, k ∉ [str "export_date"; str "export_org"; str "export_user"] →
           d' !! k = d !! k) ∧
     (∀ l', l' ≠ l → heap w' !! l' = heap w !! l')) ∧
  (∃ l' w',
     prepare_classification_for_import l w = (Ok l', w') ∧
     l' ≠ l ∧
     heap w !! l' = None ∧
     heap w' !! l = Some d ∧
     heap w' !! l' = Some (stripped d) ∧
     (∀ l'', l'' ≠ l' → heap w' !! l'' = heap w !! l'')).
Proof.
  intros Hl. split.
  - intros Hmk. eexists _, _, (exported self utcnow d).
    split; [exact (save_classification_to_file_run fs self utcnow l filename output_dir
                     w d Hl Hmk)|].
    split; [reflexivity|]. cbn [heap].
    split; [apply lookup_insert_eq|]. unfold exported.
    split; [rewrite !lookup_insert_ne by (vm_compute; discriminate);
            apply lookup_insert_eq|].
    split; [rewrite lookup_insert_ne by (vm_compute; discriminate);
            apply lookup_insert_eq|].
    split; [apply lookup_insert_eq|].
    split.
    + intros k Hk. rewrite !elem_of_cons, elem_of_nil in Hk.
      rewrite !lookup_insert_ne by (intros <-; tauto). reflexivity.
    + intros l' Hne. apply lookup_insert_ne. congruence.
  - eexists _, _. split; [apply prepare_classification_for_import_run, Hl|].
    pose proof (fresh_loc_ne _ _ _ Hl) as Hfresh. cbn [heap].
    split; [exact Hfresh|].
    split; [apply not_elem_of_dom, is_fresh|].
    split; [rewrite lookup_insert_ne by exact Hfresh; exact Hl|].
    split; [apply lookup_insert_eq|].
    intros l'' Hne. apply lookup_insert_ne. congruence.
Qed.

End MutationClaims.

(** C10, as stated, fails: on a file system where the output directory
    cannot be created, the call raises and the dictionary passed in is as
    before, without the export fields. *)
Lemma save_classification_to_file_without_directory :
  ∃ w',
    Exporter.save_classification_to_file Test.readonly_fs Test.exporter
      (str "Wed, 31 Jan 2024 09:30:00 GMT") 0 (str "pii.json") (str "./output")
      (Test.holding Test.pii) = (Raise OSError, w') ∧
    heap w' !! 0 = Some Test.pii ∧
    Test.pii !! str "export_date" = None ∧
    Test.pii !! str "export_org" = None ∧
    Test.pii !! str "export_user" = None.
Proof.
  eexists. split; [apply save_classification_to_file_no_directory; reflexivity|].
  split; [|split; [|split]]; vm_compute; reflexivity.
Qed.

(** C10, amended, on a run: the record "PII" is saved although the file
    cannot be written, and prepared. *)
Lemma save_mutates_prepare_copies_witness :
  heap (Test.holding Test.pii) !! 0 = Some Test.pii ∧
  (∃ r w' d',
     Exporter.save_classification_to_file
       {| isdir := fun _ => true; listdir := fun _ => Ok []; read_file := fun _ => Missing;
          makedirs := fun _ => Ok tt; write_file := fun _ _ => Raise OSError |}
       Test.exporter (str "Wed, 31 Jan 2024 09:30:00 GMT") 0 (str "pii.json")
       (str "./output") (Test.holding Test.pii) = (r, w') ∧
     r = Raise OSError ∧
     heap w' !! 0 = Some d' ∧
     d' !! str "export_date" = Some (JStr (str "Wed, 31 Jan 2024 09:30:00 GMT")) ∧
     d' !! str "export_org" = Some (JStr (str "acme")) ∧
     d' !! str "export_user" = Some (JStr (str "u-7")) ∧
     (∀ k, k ∉ [str "export_date"; str "export_org"; str "export_user"] →
           d' !! k = Test.pii !! k) ∧
     (∀ l', l' ≠ 0 → heap w' !! l' = heap (Test.holding Test.pii) !! l')).
Proof.
  assert (H : heap (Test.holding Test.pii) !! 0 = Some Test.pii)
    by (vm_compute; reflexivity).
  split; [exact H|].
  exact (proj1 (save_mutates_prepare_copies
                  {| isdir := fun _ => true; listdir := fun _ => Ok [];
                     read_file := fun _ => Missing;
                     makedirs := fun _ => Ok tt; write_file := fun _ _ => Raise OSError |}
                  Test.exporter (str "Wed, 31 Jan 2024 09:30:00 GMT") 0 (str "pii.json")
                  (str "./output") (Test.holding Test.pii) Test.pii H) eq_refl).
Defined.

(** ** The reconciler *)

Section Reconciler.
Import Importer Spec.
Context {py : Runtime} {Σ : Type}.
Variable client : ClassificationsApi Σ.

(** On records that all have a name, the loop finds the first record with
    the wanted name. *)
Lemma exists_loop_find (collection : list dict) (name : pystr) :
  Forall (fun c => is_Some (record_name c)) collection →
  exists_loop collection (JStr name) = Ok (find (same_name name) collection).
Proof.
  induction 1 as [|c collection [s Hs] _ IH]; [reflexivity|].
  cbn [exists_loop find]. unfold same_name at 1. rewrite Hs.
  unfold record_name in Hs. unfold get_default.
  destruct (c !! str "name") as [[| | |s'| |]|]; try discriminate.
  injection Hs as ->. cbn [method_lower].
  destruct (bool_decide (lower s = lower name)); [reflexivity|exact IH].
Qed.

Lemma classification_exists_run (w : World Σ) (name : pystr) (collection : list dict)
    (σ1 : Σ) :
  get_all_classifications client (remote w) = (Ok collection, σ1) →
  Forall (fun c => is_Some (record_name c)) collection →
  classification_exists client (JStr name) w =
    (Ok (find (same_name name) collection),
     {| heap := heap w; remote := σ1; trace := trace w ++ [CallGetAll] |}).
Proof.
  intros Hget Hnames. unfold classification_exists, try_except, bind, remote_call, lift.
  rewrite Hget, (exists_loop_find _ _ Hnames). reflexivity.
Qed.

(** A record found by name is a non-empty dictionary. *)
Lemma found_truthy (collection : list dict) (name : pystr) (c : dict) :
  find (same_name name) collection = Some c → existing_truthy (Some c) = true.
Proof.
  intros Hfind. apply find_some in Hfind as [_ Hsame].
  unfold same_name, record_name in Hsame. cbn [existing_truthy]. unfold dict_truthy.
  case_bool_decide as Hempty; [|reflexivity].
  rewrite Hempty, lookup_empty in Hsame. discriminate.
Qed.

(** C2.  On every interpreter, two names are the same up to letter case
    when they have the same lower-case form.  Take a local record whose
    name (or the default the script uses when the record has none) is a
    string, and a remote collection, as fetched, in which every record has
    a name.  A reconcile step fetches the collection and then: if a record
    with the same name up to letter case exists, the first such in the
    order of the collection, and
    [update_if_exists] is true, it calls update with that record's id and
    the prepared payload and, if the call returns, logs Updated; if one
    exists and [update_if_exists] is false, it makes no further call,
    leaves the remote store as it is and logs Skipped; if none exists, it
    calls create with the prepared payload and, if the call returns, logs
    Created. *)
Theorem import_classification_reconciles (classification : loc)
    (update_if_exists : bool) (w : World Σ) (record : dict) (name : pystr)
    (collection : list dict) (σ1 : Σ) :
  heap w !! classification = Some record →
  get_default record (str "name") (JStr (str "Unknown")) = JStr name →
  get_all_classifications client (remote w) = (Ok collection, σ1) →
  Forall (fun c => is_Some (record_name c)) collection →
  ∃ w',
    import_classification client classification update_if_exists w = (Ok tt, w') ∧
    match find (same_name name) collection, update_if_exists with
    | Some existing, true =>
        let id := get existing (str "id") in
        let response := update_classification client id (stripped record) σ1 in
        remote w' = response.2 ∧
        trace w' = trace w ++ [LogProcessing (JStr name); CallGetAll;
                               CallUpdate id (stripped record);
                               match response.1 with
                               | Ok _ => LogUpdated (JStr name)
                               | Raise _ => LogFailed (JStr name)
                               end]
    | Some existing, false =>
        remote w' = σ1 ∧
        trace w' = trace w ++ [LogProcessing (JStr name); CallGetAll;
                               LogSkipped (JStr name)]
    | None, _ =>
        let response := Classifications.import_classification client (stripped record) σ1 in
        remote w' = response.2 ∧
        trace w' = trace w ++ [LogProcessing (JStr name); CallGetAll;
                               CallCreate (stripped record);
                               match response.1 with
                               | Ok _ => LogCreated (JStr name)
                               | Raise _ => LogFailed (JStr name)
                               end]
    end.
Proof.
  intros Hl Hname Hget Hnames.
  unfold import_classification.
  unfold bind at 1. unfold load at 1. rewrite Hl, Hname.
  unfold bind at 1. unfold emit at 1. cbn [heap remote trace].
  unfold try_except at 1. unfold bind at 1.
  rewrite (prepare_classification_for_import_run _ _ record) by exact Hl.
  cbn [heap remote trace]. set (l' := fresh (dom (heap w))).
  unfold bind at 1.
  rewrite (classification_exists_run _ name collection σ1) by assumption.
  cbn [heap remote trace].
  destruct (find (same_name name) collection) as [existing|] eqn:Hfind.
  - rewrite (found_truthy _ _ _ Hfind). destruct update_if_exists.
    + unfold bind, load, remote_call, emit. cbn [heap remote trace existing_id].
      rewrite lookup_insert_eq.
      destruct (update_classification client (get existing (str "id")) (stripped record) σ1)
        as [[response|e] σ2]; cbn [heap remote trace fst snd];
        eexists; (split; [reflexivity|]); cbn [heap remote trace];
        rewrite <- !app_assoc; split; reflexivity.
    + unfold emit. cbn [heap remote trace].
      eexists; (split; [reflexivity|]); cbn [heap remote trace];
        rewrite <- !app_assoc; split; reflexivity.
  - cbn [existing_truthy].
    unfold bind, load, remote_call, emit. cbn [heap remote trace].
    rewrite lookup_insert_eq.
    destruct update_if_exists;
      destruct (Classifications.import_classification client (stripped record) σ1)
        as [[response|e] σ2]; cbn [heap remote trace fst snd];
      eexists; (split; [reflexivity|]); cbn [heap remote trace];
      rewrite <- !app_assoc; split; reflexivity.
Qed.

End Reconciler.

Section Run7.
#[local] Existing Instance Test.python.

(** C2, on a run: an exported record "PII" is imported, with update, into
    a store that holds a record "pii" with the id 0. *)
Lemma import_classification_reconciles_witness :
  ∃ w',
    Importer.import_classification Test.memory_client 0 true
      (Test.importing
         (Spec.exported Test.exporter (str "Wed, 31 Jan 2024 09:30:00 GMT")
            (Spec.with_id (Some (JNum 42)) Test.pii))
         [<[str "id" := JNum 0]> {[ str "name" := JStr (str "pii") ]}])
      = (Ok tt, w') ∧
    remote w' = [<[str "id" := JNum 0]> Test.pii] ∧
    trace w' = [LogProcessing (JStr (str "PII")); CallGetAll;
                CallUpdate (JNum 0) Test.pii; LogUpdated (JStr (str "PII"))].
Proof.
  destruct (import_classification_reconciles Test.memory_client 0 true
              (Test.importing
                 (Spec.exported Test.exporter (str "Wed, 31 Jan 2024 09:30:00 GMT")
                    (Spec.with_id (Some (JNum 42)) Test.pii))
                 [<[str "id" := JNum 0]> {[ str "name" := JStr (str "pii") ]}])
              (Spec.exported Test.exporter (str "Wed, 31 Jan 2024 09:30:00 GMT")
                 (Spec.with_id (Some (JNum 42)) Test.pii))
              (str "PII")
              [<[str "id" := JNum 0]> {[ str "name" := JStr (str "pii") ]}]
              [<[str "id" := JNum 0]> {[ str "name" := JStr (str "pii") ]}])
    as (w' & Hrun & Hcalls).
  - vm_compute. reflexivity.
  - vm_compute. reflexivity.
  - reflexivity.
  - repeat constructor. eexists. vm_compute. reflexivity.
  - exists w'. split; [exact Hrun|].
    assert (Hfind : find (Spec.same_name (str "PII"))
                      [<[str "id" := JNum 0]> {[ str "name" := JStr (str "pii") ]}]
                    = Some (<[str "id" := JNum 0]> {[ str "name" := JStr (str "pii") ]}))
      by (vm_compute; reflexivity).
    rewrite Hfind in Hcalls. cbv zeta in Hcalls. destruct Hcalls as [Hremote Htrace].
    split; [rewrite Hremote|rewrite Htrace]; vm_compute; reflexivity.
Defined.

End Run7.

(** ** The batch import *)

Section Batch.
Import Importer Spec.
Context {py : Runtime} {Σ : Type}.

Lemma quiet_ret {A} (a : A) : quiet (Σ := Σ) (ret a).
Proof. intros w r w' [= <- <-]. reflexivity. Qed.

Lemma quiet_raise {A} (e : exn) : quiet (Σ := Σ) (A := A) (raise e).
Proof. intros w r w' [= <- <-]. reflexivity. Qed.

Lemma quiet_lift {A} (x : result A) : quiet (Σ := Σ) (lift x).
Proof. intros w r w' [= <- <-]. reflexivity. Qed.

Lemma quiet_load (l : loc) : quiet (Σ := Σ) (load l).
Proof. intros w r w' [= <- <-]. reflexivity. Qed.

Lemma quiet_store (l : loc) (d : dict) : quiet (Σ := Σ) (store l d).
Proof. intros w r w' [= <- <-]. reflexivity. Qed.

Lemma quiet_alloc (d : dict) : quiet (Σ := Σ) (alloc d).
Proof. intros w r w' [= <- <-]. reflexivity. Qed.

Lemma file_lines_snoc (t : list event) (ev : event) :
  file_lines (t ++ [ev]) = file_lines t ++ (if is_file_line ev then [ev] else []).
Proof. unfold file_lines. rewrite List.filter_app. reflexivity. Qed.

Lemma quiet_emit (ev : event) : is_file_line ev = false → quiet (Σ := Σ) (emit ev).
Proof.
  intros Hev w r w' [= <- <-]. cbn [trace].
  rewrite file_lines_snoc, Hev. apply app_nil_r.
Qed.

Lemma quiet_remote_call {A} (ev : event) (f : Σ → result A * Σ) :
  is_file_line ev = false → quiet (remote_call ev f).
Proof.
  intros Hev w r w'. unfold remote_call. destruct (f (remote w)) as [r0 σ].
  intros [= <- <-]. cbn [trace]. rewrite file_lines_snoc, Hev. apply app_nil_r.
Qed.

Lemma quiet_bind {A B} (m : M (World Σ) A) (k : A → M (World Σ) B) :
  quiet m → (∀ a, quiet (k a)) → quiet (bind m k).
Proof.
  intros Hm Hk w r w'. unfold bind.
  destruct (m w) as [[a|e] w1] eqn:Hmw.
  - intros Hkw. rewrite (Hk _ _ _ _ Hkw). eapply Hm, Hmw.
  - intros [= <- <-]. eapply Hm, Hmw.
Qed.

Lemma quiet_try_except {A} (m : M (World Σ) A) (h : exn → M (World Σ) A) :
  quiet m → (∀ e, quiet (h e)) → quiet (try_except m h).
Proof.
  intros Hm Hh w r w'. unfold try_except.
  destruct (m w) as [[a|e] w1] eqn:Hmw.
  - intros [= <- <-]. eapply Hm, Hmw.
  - intros Hhw. rewrite (Hh _ _ _ _ Hhw). eapply Hm, Hmw.
Qed.

Lemma quiet_for_each {A} (l : list A) (body : A → M (World Σ) unit) :
  (∀ x, quiet (body x)) → quiet (for_each l body).
Proof.
  intros Hbody. induction l as [|x l IH]; cbn [for_each].
  - apply quiet_ret.
  - apply quiet_bind; [apply Hbody|intros _; exact IH].
Qed.

Variable client : ClassificationsApi Σ.
Variable fs : FileSystem.

Lemma quiet_prepare (l : loc) : quiet (Σ := Σ) (prepare_classification_for_import l).
Proof.
  unfold prepare_classification_for_import.
  apply quiet_bind; [apply quiet_load|intros d].
  apply quiet_bind; [apply quiet_alloc|intros l'].
  apply quiet_bind; [|intros _; apply quiet_ret].
  apply quiet_for_each. intros field.
  apply quiet_bind; [apply quiet_load|intros p].
  destruct (bool_decide _); [apply quiet_store|apply quiet_ret].
Qed.

Lemma quiet_import_classification (l : loc) (update_if_exists : bool) :
  quiet (import_classification client l update_if_exists).
Proof.
  unfold import_classification.
  apply quiet_bind; [apply quiet_load|intros record].
  apply quiet_bind; [apply quiet_emit; reflexivity|intros _].
  apply quiet_try_except; [|intros e; apply quiet_emit; reflexivity].
  apply quiet_bind; [apply quiet_prepare|intros prepared].
  apply quiet_bind.
  { unfold classification_exists.
    apply quiet_try_except; [|intros e; apply quiet_raise].
    apply quiet_bind; [apply quiet_remote_call; reflexivity|intros cs; apply quiet_lift]. }
  intros existing.
  destruct (existing_truthy existing); [destruct update_if_exists|].
  - apply quiet_bind; [apply quiet_load|intros payload].
    apply quiet_bind; [apply quiet_remote_call; reflexivity|intros _].
    apply quiet_emit; reflexivity.
  - apply quiet_emit; reflexivity.
  - apply quiet_bind; [apply quiet_load|intros payload].
    apply quiet_bind; [apply quiet_remote_call; reflexivity|intros _].
    apply quiet_emit; reflexivity.
Qed.

Lemma quiet_read_classification_file (filepath : pystr) :
  quiet (Σ := Σ) (read_classification_file fs filepath).
Proof.
  assert (Hhandler : ∀ e : exn,
            quiet (Σ := Σ) (A := value)
              match e with
              | JSONDecodeError => emit (LogInvalidJson filepath) ;; raise e
              | _ => emit (LogLoadFailed filepath) ;; raise e
              end).
  { intros e. destruct e;
      (apply quiet_bind; [apply quiet_emit; reflexivity|intros _; apply quiet_raise]). }
  unfold read_classification_file.
  destruct (read_file fs filepath) as [|e|data|s|l|]; [apply quiet_raise|..];
    (apply quiet_try_except; [|exact Hhandler]).
  - apply quiet_raise.
  - apply quiet_bind; [apply quiet_alloc|intros l].
    apply quiet_bind; [apply quiet_emit; reflexivity|intros _].
    destruct (negb _); [apply quiet_raise|apply quiet_ret].
  - apply quiet_bind; [apply quiet_emit; reflexivity|intros _].
    destruct (negb _); [apply quiet_raise|apply quiet_ret].
  - apply quiet_bind; [apply quiet_emit; reflexivity|intros _].
    destruct (negb _); [apply quiet_raise|apply quiet_ret].
  - apply quiet_bind; [apply quiet_emit; reflexivity|intros _]. apply quiet_raise.
Qed.

Lemma quiet_import_classification_from_file (filepath : pystr) (update_if_exists : bool) :
  quiet (import_classification_from_file client fs filepath update_if_exists).
Proof.
  unfold import_classification_from_file.
  apply quiet_bind; [apply quiet_read_classification_file|].
  intros [l|v]; [apply quiet_import_classification|apply quiet_raise].
Qed.

(** The loop over the files of a batch: it announces every file, in order,
    and no exception leaves it. *)
Lemma batch_loop_run (directory : pystr) (update_if_exists : bool) (total : nat)
    (files : list pystr) (start : nat) (w : World Σ) :
  ∃ w',
    for_enumerate start files (fun idx filename =>
      emit (LogFile idx total filename) ;;
      try_except
        (import_classification_from_file client fs (path_join directory filename)
           update_if_exists)
        (fun e => emit (LogFileFailed filename))) w = (Ok tt, w') ∧
    file_lines (trace w') =
      file_lines (trace w) ++ imap (fun i f => LogFile (start + i) total f) files.
Proof.
  revert start w. induction files as [|f files IH]; intros start w.
  - exists w. split; [reflexivity|]. cbn. rewrite app_nil_r. reflexivity.
  - cbn [for_enumerate]. unfold bind at 1. unfold bind at 1. unfold emit at 1.
    set (w1 := {| heap := heap w; remote := remote w;
                  trace := trace w ++ [LogFile start total f] |}).
    destruct (try_except
                (import_classification_from_file client fs (path_join directory f)
                   update_if_exists)
                (fun e => emit (LogFileFailed f)) w1) as [r w2] eqn:Hfile.
    assert (Hquiet : file_lines (trace w2) = file_lines (trace w1)).
    { eapply (quiet_try_except _ _ (quiet_import_classification_from_file _ _)); [|exact Hfile].
      intros e. apply quiet_emit. reflexivity. }
    assert (r = Ok tt) as ->.
    { unfold try_except in Hfile.
      destruct (import_classification_from_file client fs (path_join directory f)
                  update_if_exists w1) as [[[]|e] w3].
      - injection Hfile as <- _. reflexivity.
      - unfold emit in Hfile. injection Hfile as <- _. reflexivity. }
    destruct (IH (S start) w2) as (w' & Hrest & Hlines).
    exists w'. split; [exact Hrest|].
    rewrite Hlines, Hquiet. unfold w1. cbn [trace].
    rewrite file_lines_snoc. cbn [is_file_line imap]. rewrite <- app_assoc.
    cbn [app]. f_equal. f_equal; [f_equal; lia|].
    apply imap_ext. intros i x _. cbn. f_equal. lia.
Qed.

End Batch.

Section BatchClaims.
Import Importer Spec.
Context {py : Runtime}.

(** A batch import in a directory whose names could be listed: the value
    it returns is decided by the names alone, and every JSON file is
    announced, in order. *)
Lemma import_all_from_directory_run {Σ : Type} (client : ClassificationsApi Σ)
    (fs : FileSystem) (directory : pystr) (update_if_exists : bool) (w : World Σ)
    (names : list pystr) :
  isdir fs directory = true →
  listdir fs directory = Ok names →
  ∃ w',
    import_all_from_directory client fs directory update_if_exists w
      = (Ok (if bool_decide (json_files_of names = []) then JArr [] else JNull), w') ∧
    file_lines (trace w') =
      file_lines (trace w)
        ++ imap (fun i f => LogFile (S i) (length (json_files_of names)) f)
             (json_files_of names).
Proof.
  intros Hdir Hnames. unfold import_all_from_directory. rewrite Hdir. cbn [negb].
  unfold bind at 1, lift at 1. rewrite Hnames.
  fold (json_files_of names).
  case_bool_decide as Hfiles.
  - rewrite Hfiles. eexists. split; [reflexivity|]. cbn [trace imap].
    rewrite file_lines_snoc. reflexivity.
  - unfold bind at 1.
    destruct (batch_loop_run client fs directory update_if_exists
                (length (json_files_of names)) (json_files_of names) 1 w)
      as (w' & Hloop & Hlines).
    rewrite Hloop. eexists. split; [reflexivity|]. exact Hlines.
Qed.


End BatchClaims.

Section Run8.
#[local] Existing Instance Test.python.



End Run8.

(** * Further properties *)

(** ** The job monitor: errors, bounds, termination *)

Section MonitorMore.
Import Scanner Spec.
Context {py : Runtime}.
Variable cdgc : CDGC.
Variable clock : nat -> Z.
Variable job_id : json.
Variables poll_interval timeout start_time : Z.

Local Abbreviation iteration :=
  (monitor_iteration cdgc clock job_id poll_interval timeout start_time).

(** What a pass leaves behind: one more clock reading, at most one more
    status request; a pass that goes on or returns has made its request,
    and a pass returns only success, with a status. *)
Lemma iteration_shape (w0 w1 : World) (r : result (option (bool * option dict))) :
  iteration w0 = (r, w1) →
  ticks w1 = S (ticks w0) ∧
  (polls w1 = polls w0 ∨ polls w1 = S (polls w0)) ∧
  match r with
  | Ok (Some (found, fs)) => found = true ∧ is_Some fs ∧ polls w1 = S (polls w0)
  | Ok None => polls w1 = S (polls w0)
  | Raise _ => True
  end.
Proof.
  rewrite monitor_iteration_cases.
  destruct (clock (ticks w0) - start_time >? timeout)%Z.
  { intros [= <- <-]. cbn. auto. }
  destruct (get_job_status cdgc job_id (polls w0)) as [status|e].
  2:{ intros [= <- <-]. cbn. auto. }
  destruct (status_string status) as [s|].
  2:{ intros [= <- <-]. cbn. auto. }
  destruct (classify s);
    [destruct (poll_interval <? 0)%Z; [|destruct (sleep_error poll_interval)]|..];
    intros [= <- <-]; cbn; eauto 6.
Qed.

Lemma while_true_shape (fuel : nat) (w0 w' : World) (r : result (bool * option dict)) :
  while_true fuel iteration w0 = Some (r, w') →
  ∃ m, m < fuel ∧
       ticks w' = S (ticks w0 + m) ∧
       (polls w' = polls w0 + m ∨ polls w' = S (polls w0 + m)) ∧
       match r with
       | Ok (found, fs) => found = true ∧ is_Some fs
       | Raise _ => True
       end.
Proof.
  revert w0. induction fuel as [|fuel IH]; intros w0 H; [discriminate|].
  cbn [while_true] in H.
  destruct (iteration w0) as [[[[found fs]|]|e] w1] eqn:Hit;
    apply iteration_shape in Hit as (Ht & Hp & Hr).
  - injection H as <- <-. destruct Hr as (-> & Hfs & _).
    exists 0. rewrite !Nat.add_0_r. split; [lia|]. split; [exact Ht|].
    split; [exact Hp|]. split; [reflexivity|exact Hfs].
  - apply IH in H as (m & Hm & Ht' & Hp' & Hr').
    exists (S m). split; [lia|]. split; [lia|]. split; [lia|exact Hr'].
  - injection H as <- <-. exists 0. rewrite !Nat.add_0_r.
    split; [lia|]. split; [exact Ht|]. split; [exact Hp|exact I].
Qed.

(** More fuel does not change the outcome of a loop that has ended. *)
Lemma while_true_more_fuel {W A} (body : M W (option A)) (fuel fuel' : nat) (w : W)
    (out : result A * W) :
  while_true fuel body w = Some out → fuel ≤ fuel' → while_true fuel' body w = Some out.
Proof.
  revert fuel' w. induction fuel as [|fuel IH]; intros fuel' w H Hle; [discriminate|].
  destruct fuel' as [|fuel']; [lia|].
  cbn [while_true] in *. destruct (body w) as [[[a|]|e] w1]; try exact H.
  apply IH; [exact H|lia].
Qed.

(** A loop whose pass number [n] would find the timeout exceeded has ended
    by then, with at most [n] status requests. *)
Lemma while_true_ends_by (n : nat) (w0 : World) :
  (clock (ticks w0 + n)%nat - start_time > timeout)%Z →
  ∃ r w', while_true (S n) iteration w0 = Some (r, w') ∧ polls w' ≤ polls w0 + n.
Proof.
  revert w0. induction n as [|n IH]; intros w0 Hout.
  - rewrite Nat.add_0_r in Hout. cbn [while_true]. rewrite monitor_iteration_cases.
    destruct (Z.gtb_spec (clock (ticks w0) - start_time) timeout); [|lia].
    eexists _, _. split; [reflexivity|]. cbn. lia.
  - cbn [while_true].
    destruct (iteration w0) as [[[r|]|e] w1] eqn:Hit;
      apply iteration_shape in Hit as (Ht & Hp & Hr).
    + eexists _, _. split; [reflexivity|]. lia.
    + destruct (IH w1) as (r & w' & Hloop & Hpolls).
      { rewrite Ht. replace (S (ticks w0) + n) with (ticks w0 + S n) by lia. exact Hout. }
      exists r, w'. split; [exact Hloop|]. lia.
    + eexists _, _. split; [reflexivity|]. lia.
Qed.

End MonitorMore.

Section MonitorJobMore.
Import Scanner Spec.

(** X1.  The only exception that leaves [monitor_job] is the [KeyError] of
    a handle without [jobId]: it is raised before the clock is read or any
    request is made.  With a [jobId], a call that ends returns a pair, and
    the pair holds a final status exactly when it reports success. *)
Theorem monitor_job_raises_only_key_error {py : Runtime} (cdgc : CDGC) (clock : nat -> Z) (job_info : dict)
    (poll_interval timeout : Z) (fuel : nat) (w : World) :
  (job_info !! str "jobId" = None →
   monitor_job fuel cdgc clock job_info poll_interval timeout w = Some (Raise KeyError, w)) ∧
  (∀ job_id out w',
     job_info !! str "jobId" = Some job_id →
     monitor_job fuel cdgc clock job_info poll_interval timeout w = Some (out, w') →
     ∃ found fs, out = Ok (found, fs) ∧ (found = true ↔ is_Some fs)).
Proof.
  split.
  - intros Hnone. unfold monitor_job, subscript. rewrite Hnone. reflexivity.
  - intros job_id out w' Hjob.
    rewrite (monitor_job_loop cdgc clock job_info job_id poll_interval timeout Hjob).
    destruct (while_true fuel _ (after_check w)) as [[[[found fs]|e] w1]|] eqn:Hloop;
      [| |discriminate].
    + apply while_true_shape in Hloop as (m & _ & _ & _ & -> & Hfs).
      intros [= <- <-]. exists true, fs. split; [reflexivity|]. tauto.
    + intros [= <- <-]. exists false, None. split; [reflexivity|].
      split; [discriminate|]. intros [x Hx]. discriminate.
Qed.

Section Run9.
#[local] Existing Instance Test.python.

(** X1, on a run: a handle whose [jobId] field is missing. *)
Lemma monitor_job_raises_only_key_error_witness :
  monitor_job 0 (Test.scripted_cdgc []) (Test.stepping_clock 30)
    {[ str "catalogSourceName" := JStr (str "Sales DB") ]} 30 3600 Test.start
  = Some (Raise KeyError, Test.start).
Proof.
  apply (proj1 (monitor_job_raises_only_key_error (Test.scripted_cdgc [])
                  (Test.stepping_clock 30)
                  {[ str "catalogSourceName" := JStr (str "Sales DB") ]} 30 3600 0
                  Test.start)).
  vm_compute. reflexivity.
Defined.

End Run9.

(** X2.  A call that ends has read the clock once at its start and once at
    the top of each pass, and has made one status request in each pass but
    possibly the last: after [m + 1] passes there are [m + 2] clock readings
    and [m] or [m + 1] status requests, and [m + 1] is at most the number of
    passes allowed. *)
Theorem monitor_job_request_count {py : Runtime} (cdgc : CDGC) (clock : nat -> Z) (job_info : dict)
    (poll_interval timeout : Z) (fuel : nat) (w w' : World)
    (job_id : json) (out : result (bool * option dict)) :
  job_info !! str "jobId" = Some job_id →
  monitor_job fuel cdgc clock job_info poll_interval timeout w = Some (out, w') →
  ∃ m, m < fuel ∧
       ticks w' = ticks w + m + 2 ∧
       (polls w' = polls w + m ∨ polls w' = polls w + m + 1).
Proof.
  intros Hjob.
  rewrite (monitor_job_loop cdgc clock job_info job_id poll_interval timeout Hjob).
  destruct (while_true fuel _ (after_check w)) as [[r w1]|] eqn:Hloop; [|discriminate].
  apply while_true_shape in Hloop as (m & Hm & Ht & Hp & _).
  cbn [after_check ticks polls] in Ht, Hp.
  intros H. assert (w1 = w') as <- by (destruct r as [?|[]]; congruence).
  exists m. split; [exact Hm|]. split; lia.
Qed.

Section Run10.
#[local] Existing Instance Test.python.

(** X2, on a run: the job that completes at its second poll. *)
Lemma monitor_job_request_count_witness :
  ∃ m, m < 5 ∧
       ticks (after_fetch (JStr (str "job-1"))
                (after_check (after_polls (JStr (str "job-1")) 30 Test.start 1)))
         = ticks Test.start + m + 2 ∧
       (polls (after_fetch (JStr (str "job-1"))
                 (after_check (after_polls (JStr (str "job-1")) 30 Test.start 1)))
          = polls Test.start + m ∨
        polls (after_fetch (JStr (str "job-1"))
                 (after_check (after_polls (JStr (str "job-1")) 30 Test.start 1)))
          = polls Test.start + m + 1).
Proof.
  apply (monitor_job_request_count
           (Test.scripted_cdgc [str "running"; str "Completed"]) (Test.stepping_clock 30)
           Test.job_1 30 3600 5 Test.start _ (JStr (str "job-1"))
           (Ok (true, Some (Test.status_of (str "Completed"))))).
  - vm_compute. reflexivity.
  - vm_compute. reflexivity.
Defined.

End Run10.

(** The outcome does not depend on how long the monitor is allowed to
    run: a call that ends within some number of passes ends in the same
    way, in the same world, when it is allowed more. *)
Lemma monitor_job_more_fuel {py : Runtime} (cdgc : CDGC) (clock : nat -> Z) (job_info : dict)
    (poll_interval timeout : Z) (fuel fuel' : nat) (w : World)
    (out : result (bool * option dict) * World) :
  monitor_job fuel cdgc clock job_info poll_interval timeout w = Some out →
  fuel ≤ fuel' →
  monitor_job fuel' cdgc clock job_info poll_interval timeout w = Some out.
Proof.
  intros H Hle. unfold monitor_job in *.
  destruct (subscript job_info (str "jobId")) as [job_id|e]; [|exact H].
  destruct (time_time clock w) as [[start_time|e] w1]; [|exact H].
  destruct (while_true fuel _ w1) as [out1|] eqn:Hloop; [|discriminate].
  rewrite (while_true_more_fuel _ fuel fuel' w1 out1 Hloop Hle). exact H.
Qed.

Section Run11.
#[local] Existing Instance Test.python.

(** On a run: two passes are enough for the job that completes at its
    second poll; so are seven. *)
Lemma monitor_job_more_fuel_witness :
  monitor_job 7 (Test.scripted_cdgc [str "running"; str "Completed"])
    (Test.stepping_clock 30) Test.job_1 30 3600 Test.start =
  Some (Ok (true, Some (Test.status_of (str "Completed"))),
        after_fetch (JStr (str "job-1"))
          (after_check (after_polls (JStr (str "job-1")) 30 Test.start 1))).
Proof.
  apply (monitor_job_more_fuel _ _ _ _ _ 2 7).
  - vm_compute. reflexivity.
  - lia.
Defined.

End Run11.

End MonitorJobMore.

Section MonitorFailures.
Import Scanner Spec.

(** A pass, reached after [n] polls of a running job, in which the status
    request raises or is answered by a status that is not a string. *)
Lemma monitor_job_poll_exception {py : Runtime} (cdgc : CDGC) (clock : nat -> Z) (job_info : dict)
    (job_id : json) (poll_interval timeout : Z) (w : World) (n fuel : nat) :
  job_info !! str "jobId" = Some job_id →
  sleeps poll_interval →
  still_running cdgc clock job_id timeout w n →
  in_time_at clock timeout w n →
  (∃ e, get_job_status cdgc job_id (polls w + n) = Raise e) ∨
  (∃ status, get_job_status cdgc job_id (polls w + n) = Ok status ∧
             status_string status = None) →
  n < fuel →
  monitor_job fuel cdgc clock job_info poll_interval timeout w =
    Some (Ok (false, None),
          after_fetch job_id (after_check (after_polls job_id poll_interval w n))).
Proof.
  intros Hjob Hpos Hrun Hin Hbad Hlt.
  rewrite (monitor_job_exit cdgc clock job_info job_id poll_interval timeout Hjob n)
    by assumption.
  destruct (fuel - n) as [|f] eqn:Hf; [lia|].
  cbn [while_true]. rewrite monitor_iteration_cases.
  unfold in_time_at in Hin. cbn [after_polls after_iterations after_check ticks polls].
  destruct (Z.gtb_spec (clock (S (ticks w) + n)%nat - clock (ticks w)) timeout) as [Hgt|_].
  { cbn [Nat.add] in Hgt. lia. }
  destruct Hbad as [[e ->]|(status & -> & ->)]; [destruct e|]; reflexivity.
Qed.

(** X3.  An error of the status request is not retried: when, after [n]
    polls of a running job, the next request raises, the monitor returns
    [(False, None)] at once, having made [n + 1] requests. *)
Theorem monitor_job_no_retry {py : Runtime} (cdgc : CDGC) (clock : nat -> Z) (job_info : dict)
    (job_id : json) (poll_interval timeout : Z) (w : World) (n fuel : nat) (e : exn) :
  job_info !! str "jobId" = Some job_id →
  sleeps poll_interval →
  still_running cdgc clock job_id timeout w n →
  in_time_at clock timeout w n →
  get_job_status cdgc job_id (polls w + n) = Raise e →
  n < fuel →
  ∃ w',
    monitor_job fuel cdgc clock job_info poll_interval timeout w
      = Some (Ok (false, None), w') ∧
    polls w' = polls w + n + 1 ∧
    ∃ before, log w' = before ++ [EvPoll job_id].
Proof.
  intros Hjob Hpos Hrun Hin Hraise Hlt. eexists. split.
  - eapply monitor_job_poll_exception; eauto.
  - split; [cbn; lia|]. cbn. eexists. reflexivity.
Qed.

Section Run12.
#[local] Existing Instance Test.python.

(** X3, on a run: every request fails; the first failure ends the call. *)
Lemma monitor_job_no_retry_witness :
  ∃ w',
    monitor_job 9 (Test.answering_cdgc (Ok None) (Raise CDGCAPIError))
      (Test.stepping_clock 30) Test.job_1 30 3600 Test.start
      = Some (Ok (false, None), w') ∧
    polls w' = 1 ∧
    ∃ before, log w' = before ++ [EvPoll (JStr (str "job-1"))].
Proof.
  apply (monitor_job_no_retry (Test.answering_cdgc (Ok None) (Raise CDGCAPIError))
           (Test.stepping_clock 30) Test.job_1 (JStr (str "job-1")) 30 3600 Test.start
           0 9 CDGCAPIError).
  - vm_compute. reflexivity.
  - split; [lia|reflexivity].
  - intros i Hi. lia.
  - vm_compute. discriminate.
  - reflexivity.
  - lia.
Defined.

End Run12.

(** X4.  A status that is not a string ([null], a number, a list, ...) is
    neither read as running nor as a terminal state: the monitor returns
    [(False, None)] at once. *)
Theorem monitor_job_status_not_a_string {py : Runtime} (cdgc : CDGC) (clock : nat -> Z)
    (job_info : dict) (job_id : json) (poll_interval timeout : Z) (w : World)
    (n fuel : nat) (status : dict) (v : json) :
  job_info !! str "jobId" = Some job_id →
  sleeps poll_interval →
  still_running cdgc clock job_id timeout w n →
  in_time_at clock timeout w n →
  get_job_status cdgc job_id (polls w + n) = Ok status →
  status !! str "status" = Some v →
  (∀ s, v ≠ JStr s) →
  n < fuel →
  ∃ w',
    monitor_job fuel cdgc clock job_info poll_interval timeout w
      = Some (Ok (false, None), w') ∧
    polls w' = polls w + n + 1.
Proof.
  intros Hjob Hpos Hrun Hin Hget Hv Hnot Hlt. eexists. split.
  - eapply monitor_job_poll_exception; eauto. right. exists status.
    split; [exact Hget|]. unfold status_string. rewrite Hv.
    destruct v; try reflexivity. exfalso. eapply Hnot. reflexivity.
  - cbn. lia.
Qed.

Section Run13.
#[local] Existing Instance Test.python.

(** X4, on a run: the status of the first response is [null]. *)
Lemma monitor_job_status_not_a_string_witness :
  ∃ w',
    monitor_job 9
      {| search_assets := fun _ _ _ => Ok None;
         run_catalog_source_job := fun _ _ => Raise CDGCAPIError;
         get_job_status := fun _ _ => Ok {[ str "status" := JNull ]} |}
      (Test.stepping_clock 30) Test.job_1 30 3600 Test.start
      = Some (Ok (false, None), w') ∧
    polls w' = 1.
Proof.
  apply (monitor_job_status_not_a_string
           {| search_assets := fun _ _ _ => Ok None;
              run_catalog_source_job := fun _ _ => Raise CDGCAPIError;
              get_job_status := fun _ _ => Ok {[ str "status" := JNull ]} |}
           (Test.stepping_clock 30) Test.job_1 (JStr (str "job-1")) 30 3600 Test.start
           0 9 {[ str "status" := JNull ]} JNull).
  - vm_compute. reflexivity.
  - split; [lia|reflexivity].
  - intros i Hi. lia.
  - vm_compute. discriminate.
  - reflexivity.
  - vm_compute. reflexivity.
  - intros s. discriminate.
  - lia.
Defined.

End Run13.

(** X5.  With a poll interval that [time.sleep] does not accept, a
    negative one or one too large for the platform, the monitor cannot
    wait: when its first poll, made in time, sees the job running,
    [time.sleep] raises and the monitor returns [(False, None)] after that
    one request, without having slept. *)
Theorem monitor_job_rejected_interval {py : Runtime} (cdgc : CDGC) (clock : nat -> Z)
    (job_info : dict) (job_id : json) (poll_interval timeout : Z) (w : World)
    (fuel : nat) (status : dict) :
  job_info !! str "jobId" = Some job_id →
  (poll_interval < 0)%Z ∨ is_Some (sleep_error poll_interval) →
  in_time_at clock timeout w 0 →
  observes cdgc job_id (polls w) status RUNNING →
  0 < fuel →
  monitor_job fuel cdgc clock job_info poll_interval timeout w =
    Some (Ok (false, None),
          {| ticks := ticks w + 2; polls := polls w + 1;
             log := log w ++ [EvTime; EvTime; EvPoll job_id] |}).
Proof.
  intros Hjob Hneg Hin [Hget (s & Hs & Hcl)] Hfuel.
  rewrite (monitor_job_loop cdgc clock job_info job_id poll_interval timeout Hjob).
  destruct fuel as [|fuel]; [lia|]. cbn [while_true].
  rewrite monitor_iteration_cases. cbn [after_check ticks polls log].
  unfold in_time_at in Hin. rewrite Nat.add_0_r in Hin.
  destruct (Z.gtb_spec (clock (S (ticks w)) - clock (ticks w)) timeout); [lia|].
  rewrite Hget, Hs, Hcl.
  assert (Hraised : ∃ e,
            (if (poll_interval <? 0)%Z
             then (Raise ValueError, after_fetch job_id (after_check (after_check w)))
             else match sleep_error poll_interval with
                  | Some e => (Raise e, after_fetch job_id (after_check (after_check w)))
                  | None =>
                      (Ok None,
                       {| ticks := S (ticks (after_check w));
                          polls := S (polls (after_check w));
                          log := log (after_check w)
                                   ++ [EvTime; EvPoll job_id; EvSleep poll_interval] |})
                  end)
            = (Raise e : result (option (bool * option dict)),
               after_fetch job_id (after_check (after_check w)))).
  { destruct (Z.ltb_spec poll_interval 0); [eauto|].
    destruct Hneg as [Hneg|[e He]]; [lia|]. rewrite He. eauto. }
  destruct Hraised as [e He]. cbn [after_check ticks polls log] in He |- *. rewrite He.
  unfold after_fetch, after_check. cbn [ticks polls log].
  rewrite <- !app_assoc. do 3 f_equal; lia.
Qed.

Section Run14.
#[local] Existing Instance Test.python.

(** X5, on a run: a poll interval of ten thousand million seconds. *)
Lemma monitor_job_rejected_interval_witness :
  monitor_job 9 (Test.scripted_cdgc []) (Test.stepping_clock 30) Test.job_1 10000000000
    3600 Test.start =
  Some (Ok (false, None),
        {| ticks := 2; polls := 1;
           log := [EvTime; EvTime; EvPoll (JStr (str "job-1"))] |}).
Proof.
  apply (monitor_job_rejected_interval (Test.scripted_cdgc []) (Test.stepping_clock 30)
           Test.job_1 (JStr (str "job-1")) 10000000000 3600 Test.start 9
           (Test.status_of (str "RUNNING"))).
  - vm_compute. reflexivity.
  - right. vm_compute. eauto.
  - vm_compute. discriminate.
  - split; [reflexivity|]. exists (str "RUNNING"). split; vm_compute; reflexivity.
  - lia.
Defined.

End Run14.

(** X6.  The monitor ends.  On a clock that does not run backwards between
    the start and the first check and on which a pass with its sleep of
    [poll_interval > 0] takes at least [poll_interval], the monitor returns
    within [timeout / poll_interval + 2] passes whatever the job reports,
    and makes at most [timeout / poll_interval + 1] status requests. *)
Theorem monitor_job_terminates {py : Runtime} (cdgc : CDGC) (clock : nat -> Z) (job_info : dict)
    (job_id : json) (poll_interval timeout : Z) (w : World) (fuel : nat) :
  job_info !! str "jobId" = Some job_id →
  (0 < poll_interval)%Z →
  (clock (ticks w) ≤ clock (S (ticks w)))%Z →
  (∀ i, (clock (S (ticks w + i)%nat) + poll_interval ≤ clock (S (S (ticks w + i)%nat)))%Z) →
  Z.to_nat (timeout / poll_interval) + 2 ≤ fuel →
  ∃ out w',
    monitor_job fuel cdgc clock job_info poll_interval timeout w = Some (Ok out, w') ∧
    polls w' ≤ polls w + Z.to_nat (timeout / poll_interval) + 1.
Proof.
  intros Hjob Hpos Hfirst Hstep Hfuel.
  set (N := Z.to_nat (timeout / poll_interval)) in *.
  assert (Helapsed : ∀ i, (clock (ticks w) + Z.of_nat i * poll_interval
                             ≤ clock (S (ticks w + i)%nat))%Z).
  { induction i as [|i IH].
    - rewrite Nat.add_0_r. lia.
    - specialize (Hstep i). replace (ticks w + S i) with (S (ticks w + i)) by lia. lia. }
  assert (Hout : (clock (ticks (after_check w) + S N)%nat - clock (ticks w) > timeout)%Z).
  { cbn [after_check ticks]. specialize (Helapsed (S N)).
    replace (S (ticks w) + S N) with (S (ticks w + S N)) by lia.
    assert (timeout < Z.of_nat (S N) * poll_interval)%Z; [|lia].
    destruct (Z.le_gt_cases 0 timeout) as [Hnn|Hneg].
    - pose proof (Z.mul_succ_div_gt timeout poll_interval Hpos) as Hdiv.
      assert (Z.of_nat (S N) = Z.succ (timeout / poll_interval)) as ->.
      { subst N. rewrite Nat2Z.inj_succ, Z2Nat.id; [reflexivity|].
        apply Z.div_pos; lia. }
      lia.
    - nia. }
  destruct (while_true_ends_by cdgc clock job_id poll_interval timeout (clock (ticks w))
              (S N) (after_check w) Hout) as (r & w1 & Hloop & Hpolls).
  rewrite (monitor_job_loop cdgc clock job_info job_id poll_interval timeout Hjob).
  rewrite (while_true_more_fuel _ (S (S N)) fuel _ _ Hloop) by lia.
  cbn [after_check polls] in Hpolls.
  destruct r as [out|e]; eexists _, w1; (split; [reflexivity|lia]).
Qed.

Section Run15.
#[local] Existing Instance Test.python.

(** X6, on a run: a job that never leaves RUNNING, polled every 30 units
    with a timeout of 100, on a clock on which a pass takes 30. *)
Lemma monitor_job_terminates_witness :
  ∃ out w',
    monitor_job 5 (Test.scripted_cdgc []) (Test.stepping_clock 30) Test.job_1 30 100
      Test.start = Some (Ok out, w') ∧
    polls w' ≤ 4.
Proof.
  apply (monitor_job_terminates (Test.scripted_cdgc []) (Test.stepping_clock 30)
           Test.job_1 (JStr (str "job-1")) 30 100 Test.start 5).
  - vm_compute. reflexivity.
  - lia.
  - vm_compute. discriminate.
  - intros i. unfold Test.stepping_clock. lia.
  - vm_compute. lia.
Defined.

End Run15.

End MonitorFailures.

(** ** The resolver and the launcher: fallback, failures, the handle *)

Section ResolverMore.
Import Scanner Spec.

(** X7.  Ambiguous-match policy: when a well-formed response has hits but
    none of them is an exact match for the name, the resolver returns the
    first hit, in the order of the response, as found. *)
Theorem search_catalog_source_first_hit {py : Runtime} (cdgc : CDGC) (sourceName : pystr)
    (sr : SearchResults) (first : Asset) (rest : list Asset) :
  search_assets cdgc (str "*") (str "all") (search_body sourceName) = Ok (Some sr) →
  well_formed sr →
  hits sr = first :: rest →
  (∀ a, a ∈ hits sr → is_exact_match sourceName a = false) →
  search_catalog_source cdgc sourceName = (true, Some first).
Proof.
  intros Hsearch [(n & Hn & Hcount) Hnames] Hhits Hnone.
  unfold search_catalog_source, search_catalog_source_try.
  rewrite Hsearch, Hn.
  assert (0 < n)%Z by (rewrite Hhits in Hcount; cbn [length] in Hcount; lia).
  destruct (Z.ltb_spec 0 n); [|lia].
  rewrite (exact_match_loop_find _ _ Hnames).
  destruct (find (is_exact_match sourceName) (hits sr)) as [a|] eqn:Hfind.
  { apply find_some in Hfind as [Hin Hm]. apply list_elem_of_In in Hin.
    rewrite (Hnone a Hin) in Hm. discriminate. }
  rewrite Hhits in *. apply Forall_cons in Hnames as [[s Hs] _].
  unfold asset_name in Hs. unfold subscript.
  destruct (summary first !! str "core.name"); [reflexivity|discriminate].
Qed.

Section Run16.
#[local] Existing Instance Test.python.

(** X7, on a run: two hits that only contain the name. *)
Lemma search_catalog_source_first_hit_witness :
  search_catalog_source
    (Test.answering_cdgc
       (Ok (Some {| total_hits := Ok 2%Z;
                    hits := [Test.source (str "Sales DB copy") (str "o-1");
                             Test.source (str "Old sales db") (str "o-2")] |}))
       (Raise CDGCAPIError))
    (str "Sales Db")
  = (true, Some (Test.source (str "Sales DB copy") (str "o-1"))).
Proof.
  apply (search_catalog_source_first_hit _ _
           {| total_hits := Ok 2%Z;
              hits := [Test.source (str "Sales DB copy") (str "o-1");
                       Test.source (str "Old sales db") (str "o-2")] |}
           _ [Test.source (str "Old sales db") (str "o-2")]).
  - reflexivity.
  - split.
    + exists 2%Z. split; [reflexivity|cbn; lia].
    + repeat constructor; eexists; vm_compute; reflexivity.
  - reflexivity.
  - intros a Ha. cbn [hits] in Ha. rewrite !elem_of_cons, elem_of_nil in Ha.
    destruct Ha as [->|[->|[]]]; vm_compute; reflexivity.
Defined.

End Run16.

(** X8.  The resolver reports not-found, [(False, None)], and raises
    nothing, when the search call raises, when the response is empty
    ([None]), when its hit count cannot be read, and when its hit count is
    not positive, whatever hits the response carries. *)
Theorem search_catalog_source_not_found {py : Runtime} (cdgc : CDGC) (sourceName : pystr) :
  let response := search_assets cdgc (str "*") (str "all") (search_body sourceName) in
  (∀ e, response = Raise e → search_catalog_source cdgc sourceName = (false, None)) ∧
  (response = Ok None → search_catalog_source cdgc sourceName = (false, None)) ∧
  (∀ sr e, response = Ok (Some sr) → total_hits sr = Raise e →
           search_catalog_source cdgc sourceName = (false, None)) ∧
  (∀ sr n, response = Ok (Some sr) → total_hits sr = Ok n → (n ≤ 0)%Z →
           search_catalog_source cdgc sourceName = (false, None)).
Proof.
  intros response. unfold search_catalog_source, search_catalog_source_try.
  fold response. split; [|split; [|split]].
  - intros e ->. reflexivity.
  - intros ->. reflexivity.
  - intros sr e -> ->. reflexivity.
  - intros sr n -> -> Hn. destruct (Z.ltb_spec 0 n); [lia|reflexivity].
Qed.

Section Run17.
#[local] Existing Instance Test.python.

(** X8, on a run: a response that reports no hit and yet carries the
    source that was asked for. *)
Lemma search_catalog_source_not_found_witness :
  search_catalog_source
    (Test.answering_cdgc
       (Ok (Some {| total_hits := Ok 0%Z;
                    hits := [Test.source (str "Sales DB") (str "o-3")] |}))
       (Raise CDGCAPIError))
    (str "Sales DB")
  = (false, None).
Proof.
  apply (proj2 (proj2 (proj2 (search_catalog_source_not_found
                                (Test.answering_cdgc
                                   (Ok (Some {| total_hits := Ok 0%Z;
                                                hits := [Test.source (str "Sales DB")
                                                           (str "o-3")] |}))
                                   (Raise CDGCAPIError))
                                (str "Sales DB"))))
           {| total_hits := Ok 0%Z; hits := [Test.source (str "Sales DB") (str "o-3")] |}
           0%Z eq_refl eq_refl).
  lia.
Defined.

End Run17.

(** The loop raises at the first hit whose name is missing or not a
    string, when no hit before it matches. *)
Lemma exact_match_loop_nameless {py : Runtime} (before after : list Asset) (bad : Asset)
    (sourceName : pystr) :
  Forall (fun a => is_Some (asset_name a)) before →
  (∀ a, a ∈ before → is_exact_match sourceName a = false) →
  asset_name bad = None →
  ∃ e, exact_match_loop (before ++ bad :: after) sourceName = Raise e.
Proof.
  intros Hnames Hno Hbad. induction Hnames as [|a before [s Hs] _ IH].
  - cbn [app exact_match_loop]. unfold asset_name in Hbad. unfold subscript.
    destruct (summary bad !! str "core.name") as [[| | |s| |]|]; try discriminate;
      cbn [method_lower]; eauto.
  - cbn [app exact_match_loop].
    pose proof (Hno a ltac:(left)) as Ha. unfold is_exact_match in Ha. rewrite Hs in Ha.
    unfold asset_name in Hs. unfold subscript.
    destruct (summary a !! str "core.name") as [[| | |s'| |]|]; try discriminate.
    injection Hs as ->. cbn [method_lower]. rewrite Ha.
    apply IH. intros a' Ha'. apply Hno. right. exact Ha'.
Qed.

(** X9.  A hit without a name, or with a name that is not a string, hides
    every hit after it: when no hit before it is an exact match, the
    resolver reports not-found, even if an exact match follows. *)
Theorem search_catalog_source_nameless_hit {py : Runtime} (cdgc : CDGC)
    (sourceName : pystr)
    (sr : SearchResults) (before after : list Asset) (bad : Asset) :
  search_assets cdgc (str "*") (str "all") (search_body sourceName) = Ok (Some sr) →
  hits sr = before ++ bad :: after →
  Forall (fun a => is_Some (asset_name a)) before →
  (∀ a, a ∈ before → is_exact_match sourceName a = false) →
  asset_name bad = None →
  search_catalog_source cdgc sourceName = (false, None).
Proof.
  intros Hsearch Hhits Hnames Hno Hbad.
  unfold search_catalog_source, search_catalog_source_try. rewrite Hsearch.
  destruct (total_hits sr) as [n|]; [|reflexivity].
  destruct (0 <? n)%Z; [|reflexivity].
  rewrite Hhits.
  destruct (exact_match_loop_nameless before after bad sourceName Hnames Hno Hbad)
    as [e ->].
  reflexivity.
Qed.

Section Run18.
#[local] Existing Instance Test.python.

(** X9, on a run: the first hit has no name, the second is the source
    asked for. *)
Lemma search_catalog_source_nameless_hit_witness :
  search_catalog_source
    (Test.answering_cdgc
       (Ok (Some {| total_hits := Ok 2%Z;
                    hits := [ {| summary := ∅; systemAttributes := ∅ |};
                              Test.source (str "Sales DB") (str "o-3")] |}))
       (Raise CDGCAPIError))
    (str "Sales DB")
  = (false, None).
Proof.
  apply (search_catalog_source_nameless_hit _ _
           {| total_hits := Ok 2%Z;
              hits := [ {| summary := ∅; systemAttributes := ∅ |};
                        Test.source (str "Sales DB") (str "o-3")] |}
           [] [Test.source (str "Sales DB") (str "o-3")]
           {| summary := ∅; systemAttributes := ∅ |}).
  - reflexivity.
  - reflexivity.
  - constructor.
  - intros a Ha. inversion Ha.
  - reflexivity.
Defined.

End Run18.

(** X10.  The handle of a launch.  When the response carries a job
    identifier, the launcher returns success with a handle of exactly four
    fields: the job identifier; as [jobUri] the response's [jobUri] if it
    has a non-empty one and its [trackingURI] otherwise ([None] when it has
    neither); the name and the origin of the source ([None] when the
    source lacks them). *)
Theorem execute_catalog_source_handle (cdgc : CDGC) (catalogSource : Asset)
    (capabilities : option (list pystr)) (response : dict) :
  run_catalog_source_job cdgc
    (get (systemAttributes catalogSource) (str "core.origin")) capabilities = Ok response →
  truthy (get response (str "jobId")) = true →
  ∃ job_info,
    execute_catalog_source cdgc catalogSource capabilities = (true, Some job_info) ∧
    dom job_info = {[ str "jobId"; str "jobUri"; str "catalogSourceName";
                      str "catalogSourceId" ]} ∧
    job_info !! str "jobId" = Some (get response (str "jobId")) ∧
    job_info !! str "jobUri" =
      Some (if truthy (get response (str "jobUri")) then get response (str "jobUri")
            else get response (str "trackingURI")) ∧
    job_info !! str "catalogSourceName" = Some (get (summary catalogSource) (str "core.name")) ∧
    job_info !! str "catalogSourceId" =
      Some (get (systemAttributes catalogSource) (str "core.origin")).
Proof.
  intros Hrun Hid. unfold execute_catalog_source. rewrite Hrun, Hid.
  eexists. split; [reflexivity|]. unfold job_handle.
  split; [rewrite !dom_insert_L, dom_empty_L; set_solver|].
  split; [apply lookup_insert_eq|].
  split; [rewrite lookup_insert_ne by (vm_compute; discriminate); apply lookup_insert_eq|].
  split; [rewrite !lookup_insert_ne by (vm_compute; discriminate); apply lookup_insert_eq|].
  rewrite !lookup_insert_ne by (vm_compute; discriminate). apply lookup_insert_eq.
Qed.

(** X10, on a run: the response has no [jobUri] but a [trackingURI]. *)
Lemma execute_catalog_source_handle_witness :
  ∃ job_info,
    execute_catalog_source
      (Test.answering_cdgc (Ok None)
         (Ok (<[str "jobId" := JStr (str "job-1")]>
                {[ str "trackingURI" := JStr (str "/jobs/job-1") ]})))
      (Test.source (str "Sales DB") (str "o-3")) (Some [str "Metadata Extraction"])
      = (true, Some job_info) ∧
    job_info !! str "jobUri" = Some (JStr (str "/jobs/job-1")).
Proof.
  destruct (execute_catalog_source_handle
              (Test.answering_cdgc (Ok None)
                 (Ok (<[str "jobId" := JStr (str "job-1")]>
                        {[ str "trackingURI" := JStr (str "/jobs/job-1") ]})))
              (Test.source (str "Sales DB") (str "o-3")) (Some [str "Metadata Extraction"])
              (<[str "jobId" := JStr (str "job-1")]>
                 {[ str "trackingURI" := JStr (str "/jobs/job-1") ]})
              eq_refl)
    as (job_info & Hrun & _ & _ & Huri & _).
  - vm_compute. reflexivity.
  - exists job_info. split; [exact Hrun|]. rewrite Huri. vm_compute. reflexivity.
Defined.

End ResolverMore.

(** ** The reconciler: files, failures, the steps of a record *)

Section ImporterMore.
Import Importer Spec.
Context {py : Runtime} {Σ : Type}.
Variable client : ClassificationsApi Σ.
Variable fs : FileSystem.

(** What reading a file does, case by case: a missing file raises before
    anything is logged; otherwise the reading is logged once the document
    is loaded, and an exception raised from then on, or by the loading, is
    logged and raised again. *)
Lemma read_classification_file_run (filepath : pystr) (w : World Σ) :
  let logged (w0 : World Σ) (lines : list event) : World Σ :=
    {| heap := heap w0; remote := remote w0; trace := trace w0 ++ lines |} in
  let held (name_in_data : bool) (data : value) (w0 : World Σ) :=
    if name_in_data then (Ok data, logged w0 [LogRead filepath])
    else (Raise ValueError, logged w0 [LogRead filepath; LogLoadFailed filepath]) in
  read_classification_file fs filepath w =
    match read_file fs filepath with
    | Missing => (Raise FileNotFoundError, w)
    | Broken e =>
        (Raise e, logged w [match e with
                            | JSONDecodeError => LogInvalidJson filepath
                            | _ => LogLoadFailed filepath
                            end])
    | Object data =>
        held (bool_decide (is_Some (data !! str "name"))) (Ref (fresh (dom (heap w))))
          {| heap := <[fresh (dom (heap w)) := data]> (heap w); remote := remote w;
             trace := trace w |}
    | Text s => held (contains s (str "name")) (Plain (JStr s)) w
    | Array l =>
        held (existsb (fun x => match x with
                                | JStr s => bool_decide (s = str "name")
                                | _ => false
                                end) l) (Plain (JArr l)) w
    | Scalar => (Raise TypeError, logged w [LogRead filepath; LogLoadFailed filepath])
    end.
Proof.
  intros logged held. unfold read_classification_file, held, logged.
  destruct (read_file fs filepath) as [|e|data|s|l|]; [reflexivity|..];
    unfold try_except, bind, alloc, emit, raise, ret; cbn [heap remote trace].
  - destruct e; reflexivity.
  - destruct (bool_decide (is_Some (data !! str "name"))); cbn [negb heap remote trace];
      rewrite <- ?app_assoc; reflexivity.
  - destruct (contains s (str "name")); cbn [negb heap remote trace];
      rewrite <- ?app_assoc; reflexivity.
  - destruct (existsb _ l); cbn [negb heap remote trace];
      rewrite <- ?app_assoc; reflexivity.
  - rewrite <- ?app_assoc. reflexivity.
Qed.

(** [prepare_classification_for_import] in any world: a reference to no
    object reads as the empty dictionary. *)
Lemma prepare_classification_for_import_any (w : World Σ) (l : loc) :
  prepare_classification_for_import l w =
    (Ok (fresh (dom (heap w))),
     {| heap := <[fresh (dom (heap w)) :=
                    stripped (match heap w !! l with Some d => d | None => ∅ end)]> (heap w);
        remote := remote w; trace := trace w |}).
Proof.
  unfold prepare_classification_for_import, metadata_fields, for_each.
  unfold bind at 1. unfold load at 1.
  unfold bind at 1. unfold alloc at 1. cbn [heap remote trace].
  unfold bind at 1. unfold bind at 1. rewrite strip_field.
  unfold bind at 1. rewrite strip_field.
  unfold bind at 1. rewrite strip_field.
  unfold bind at 1. rewrite strip_field.
  reflexivity.
Qed.

(** X14.  The steps of a record.  Whatever the record, the client and the
    remote store, [import_classification] raises nothing; it announces the
    record, fetches the remote collection once, and then does exactly one
    of four things: it logs Failed, having sent nothing more (the check for
    an existing record raised); it logs Skipped, having sent nothing more;
    it sends one update and logs Updated or, if the update raised, Failed;
    it sends one create and logs Created or, if the create raised, Failed.
    So a record causes at most one write. *)
Theorem import_classification_steps (classification : loc) (update_if_exists : bool)
    (w : World Σ) :
  ∃ w' name steps,
    import_classification client classification update_if_exists w = (Ok tt, w') ∧
    trace w' = trace w ++ LogProcessing name :: CallGetAll :: steps ∧
    (steps = [LogFailed name] ∨
     (steps = [LogSkipped name] ∧ update_if_exists = false) ∨
     (∃ id payload outcome,
        steps = [CallUpdate id payload; outcome] ∧ update_if_exists = true ∧
        (outcome = LogUpdated name ∨ outcome = LogFailed name)) ∨
     (∃ payload outcome,
        steps = [CallCreate payload; outcome] ∧
        (outcome = LogCreated name ∨ outcome = LogFailed name))).
Proof.
  unfold import_classification.
  unfold bind at 1. unfold load at 1.
  set (record := match heap w !! classification with Some d => d | None => ∅ end).
  set (name := get_default record (str "name") (JStr (str "Unknown"))).
  unfold bind at 1. unfold emit at 1. cbn [heap remote trace].
  unfold try_except at 1. unfold bind at 1.
  rewrite prepare_classification_for_import_any. cbn [heap remote trace].
  fold record. set (l' := fresh (dom (heap w))).
  unfold bind at 1. unfold classification_exists, try_except at 1.
  unfold bind at 1, remote_call at 1, lift, raise. cbn [heap remote trace].
  destruct (get_all_classifications client (remote w)) as [[collection|e] σ1].
  2:{ unfold emit. cbn [heap remote trace]. eexists _, name, _.
      split; [reflexivity|]. cbn [trace]. rewrite <- !app_assoc.
      split; [reflexivity|]. left. reflexivity. }
  destruct (exists_loop collection name) as [existing|e].
  2:{ unfold emit. cbn [heap remote trace]. eexists _, name, _.
      split; [reflexivity|]. cbn [trace]. rewrite <- !app_assoc.
      split; [reflexivity|]. left. reflexivity. }
  destruct (existing_truthy existing); [destruct update_if_exists|].
  - unfold bind, load, remote_call, emit. cbn [heap remote trace].
    rewrite lookup_insert_eq.
    destruct (update_classification client (existing_id existing) (stripped record) σ1)
      as [[response|e] σ2]; cbn [heap remote trace];
      eexists _, name, _; (split; [reflexivity|]); cbn [trace]; rewrite <- !app_assoc;
      (split; [reflexivity|]); right; right; left; eexists _, _, _;
      (split; [reflexivity|]); (split; [reflexivity|]); [left|right]; reflexivity.
  - unfold emit. cbn [heap remote trace]. eexists _, name, _.
    split; [reflexivity|]. cbn [trace]. rewrite <- !app_assoc.
    split; [reflexivity|]. right. left. split; reflexivity.
  - unfold bind, load, remote_call, emit. cbn [heap remote trace].
    rewrite lookup_insert_eq.
    destruct (Classifications.import_classification client (stripped record) σ1)
      as [[response|e] σ2]; cbn [heap remote trace];
      eexists _, name, _; (split; [reflexivity|]); cbn [trace]; rewrite <- !app_assoc;
      (split; [reflexivity|]); right; right; right; eexists _, _;
      (split; [reflexivity|]); [left|right]; reflexivity.
Qed.

End ImporterMore.

Section ImporterFailures.
Import Importer Spec.
Context {py : Runtime} {Σ : Type}.
Variable client : ClassificationsApi Σ.

(** The loop raises at the first record whose name is not a string, when
    no record before it has the wanted name. *)
Lemma exists_loop_bad_name (before after : list dict) (bad : dict) (v : json)
    (name : pystr) :
  Forall (fun c => is_Some (record_name c)) before →
  (∀ c, c ∈ before → same_name name c = false) →
  bad !! str "name" = Some v → (∀ s, v ≠ JStr s) →
  exists_loop (before ++ bad :: after) (JStr name) = Raise AttributeError.
Proof.
  intros Hnames Hno Hbad Hv. induction Hnames as [|c before [s Hs] _ IH].
  - cbn [app exists_loop]. unfold get_default. rewrite Hbad.
    destruct v; try reflexivity. exfalso. eapply Hv. reflexivity.
  - cbn [app exists_loop].
    pose proof (Hno c ltac:(left)) as Hc. unfold same_name in Hc. rewrite Hs in Hc.
    unfold record_name in Hs. unfold get_default.
    destruct (c !! str "name") as [[| | |s'| |]|]; try discriminate.
    injection Hs as ->. cbn [method_lower]. rewrite Hc.
    apply IH. intros c' Hc'. apply Hno. right. exact Hc'.
Qed.

(** X15.  When the check for an existing record fails, nothing is written.
    If fetching the remote collection raises, or if the collection holds,
    before any record with the wanted name, a record whose name is not a
    string, [import_classification] sends neither update nor create: it
    logs Failed and returns, even if a record with the wanted name comes
    later in the collection. *)
Theorem import_classification_failed_check (classification : loc)
    (update_if_exists : bool) (w : World Σ) (record : dict) (name : pystr) :
  heap w !! classification = Some record →
  get_default record (str "name") (JStr (str "Unknown")) = JStr name →
  (∀ e σ1,
     get_all_classifications client (remote w) = (Raise e, σ1) →
     ∃ w', import_classification client classification update_if_exists w = (Ok tt, w') ∧
           remote w' = σ1 ∧
           trace w' = trace w ++ [LogProcessing (JStr name); CallGetAll;
                                  LogFailed (JStr name)]) ∧
  (∀ before bad after v σ1,
     get_all_classifications client (remote w) = (Ok (before ++ bad :: after), σ1) →
     Forall (fun c => is_Some (record_name c)) before →
     (∀ c, c ∈ before → same_name name c = false) →
     bad !! str "name" = Some v → (∀ s, v ≠ JStr s) →
     ∃ w', import_classification client classification update_if_exists w = (Ok tt, w') ∧
           remote w' = σ1 ∧
           trace w' = trace w ++ [LogProcessing (JStr name); CallGetAll;
                                  LogFailed (JStr name)]).
Proof.
  intros Hl Hname.
  assert (Hstart : ∀ r σ1,
    get_all_classifications client (remote w) = (r, σ1) →
    (match r with
     | Ok collection => ∃ e, exists_loop collection (JStr name) = Raise e
     | Raise _ => True
     end) →
    ∃ w', import_classification client classification update_if_exists w = (Ok tt, w') ∧
          remote w' = σ1 ∧
          trace w' = trace w ++ [LogProcessing (JStr name); CallGetAll;
                                 LogFailed (JStr name)]).
  { intros r σ1 Hget Hr. unfold import_classification.
    unfold bind at 1. unfold load at 1. rewrite Hl, Hname.
    unfold bind at 1. unfold emit at 1. cbn [heap remote trace].
    unfold try_except at 1. unfold bind at 1.
    rewrite (prepare_classification_for_import_run _ _ record) by exact Hl.
    cbn [heap remote trace].
    unfold bind at 1. unfold classification_exists, try_except at 1.
    unfold bind at 1, remote_call at 1, lift, raise. cbn [heap remote trace].
    rewrite Hget. destruct r as [collection|e].
    - destruct Hr as [e ->]. unfold emit. cbn [heap remote trace].
      eexists. split; [reflexivity|]. cbn [remote trace]. rewrite <- !app_assoc.
      split; reflexivity.
    - unfold emit. cbn [heap remote trace].
      eexists. split; [reflexivity|]. cbn [remote trace]. rewrite <- !app_assoc.
      split; reflexivity. }
  split.
  - intros e σ1 Hget. apply (Hstart (Raise e) σ1 Hget I).
  - intros before bad after v σ1 Hget Hnames Hno Hbad Hv.
    apply (Hstart (Ok (before ++ bad :: after)) σ1 Hget).
    eexists. eapply exists_loop_bad_name; eassumption.
Qed.

(** A reconcile step, with the world it leaves: the prepared payload is a
    new object, the remote store is as the write left it. *)
Lemma import_classification_world (classification : loc) (update_if_exists : bool)
    (w : World Σ) (record : dict) (name : pystr) (collection : list dict) (σ1 : Σ) :
  heap w !! classification = Some record →
  get_default record (str "name") (JStr (str "Unknown")) = JStr name →
  get_all_classifications client (remote w) = (Ok collection, σ1) →
  Forall (fun c => is_Some (record_name c)) collection →
  import_classification client classification update_if_exists w =
    (Ok tt,
     {| heap := <[fresh (dom (heap w)) := stripped record]> (heap w);
        remote :=
          match find (same_name name) collection, update_if_exists with
          | Some existing, true =>
              (update_classification client (get existing (str "id")) (stripped record) σ1).2
          | Some existing, false => σ1
          | None, _ => (Classifications.import_classification client (stripped record) σ1).2
          end;
        trace :=
          trace w ++ LogProcessing (JStr name) :: CallGetAll ::
          match find (same_name name) collection, update_if_exists with
          | Some existing, true =>
              [CallUpdate (get existing (str "id")) (stripped record);
               match (update_classification client (get existing (str "id"))
                        (stripped record) σ1).1 with
               | Ok _ => LogUpdated (JStr name)
               | Raise _ => LogFailed (JStr name)
               end]
          | Some existing, false => [LogSkipped (JStr name)]
          | None, _ =>
              [CallCreate (stripped record);
               match (Classifications.import_classification client (stripped record) σ1).1 with
               | Ok _ => LogCreated (JStr name)
               | Raise _ => LogFailed (JStr name)
               end]
          end |}).
Proof.
  intros Hl Hname Hget Hnames.
  unfold import_classification.
  unfold bind at 1. unfold load at 1. rewrite Hl, Hname.
  unfold bind at 1. unfold emit at 1. cbn [heap remote trace].
  unfold try_except at 1. unfold bind at 1.
  rewrite (prepare_classification_for_import_run _ _ record) by exact Hl.
  cbn [heap remote trace]. set (l' := fresh (dom (heap w))).
  unfold bind at 1.
  rewrite (classification_exists_run client _ name collection σ1) by assumption.
  cbn [heap remote trace].
  destruct (find (same_name name) collection) as [existing|] eqn:Hfind.
  - rewrite (found_truthy _ _ _ Hfind). destruct update_if_exists.
    + unfold bind, load, remote_call, emit. cbn [heap remote trace existing_id].
      rewrite lookup_insert_eq.
      destruct (update_classification client (get existing (str "id")) (stripped record) σ1)
        as [[response|e] σ2]; cbn [heap remote trace fst snd];
        rewrite <- !app_assoc; reflexivity.
    + unfold emit. cbn [heap remote trace]. rewrite <- !app_assoc. reflexivity.
  - cbn [existing_truthy].
    unfold bind, load, remote_call, emit. cbn [heap remote trace].
    rewrite lookup_insert_eq.
    destruct update_if_exists;
      destruct (Classifications.import_classification client (stripped record) σ1)
        as [[response|e] σ2]; cbn [heap remote trace fst snd];
      rewrite <- !app_assoc; reflexivity.
Qed.

End ImporterFailures.

Section Run19.
#[local] Existing Instance Test.python.

(** X15, on a run: the remote collection holds a record whose name is
    [null] before the record "pii". *)
Lemma import_classification_failed_check_witness :
  ∃ w',
    Importer.import_classification Test.memory_client 0 true
      (Test.importing Test.pii
         [ {[ str "name" := JNull ]};
           <[str "id" := JNum 1]> {[ str "name" := JStr (str "pii") ]} ])
      = (Ok tt, w') ∧
    remote w' = [ {[ str "name" := JNull ]};
                  <[str "id" := JNum 1]> {[ str "name" := JStr (str "pii") ]} ] ∧
    trace w' = [LogProcessing (JStr (str "PII")); CallGetAll; LogFailed (JStr (str "PII"))].
Proof.
  apply (proj2 (import_classification_failed_check Test.memory_client 0 true
                  (Test.importing Test.pii
                     [ {[ str "name" := JNull ]};
                       <[str "id" := JNum 1]> {[ str "name" := JStr (str "pii") ]} ])
                  Test.pii (str "PII") ltac:(vm_compute; reflexivity)
                  ltac:(vm_compute; reflexivity))
           [] {[ str "name" := JNull ]}
           [<[str "id" := JNum 1]> {[ str "name" := JStr (str "pii") ]}] JNull).
  - reflexivity.
  - constructor.
  - intros c Hc. inversion Hc.
  - vm_compute. reflexivity.
  - intros s. discriminate.
Defined.

End Run19.

Section Idempotence.
Import Importer Spec.
Context {py : Runtime}.

Lemma find_none_app {A} (f : A → bool) (l : list A) (x : A) :
  (∀ y, y ∈ l → f y = false) → f x = true → find f (l ++ [x]) = Some x.
Proof.
  intros Hno Hx. induction l as [|y l IH]; cbn [app find].
  - rewrite Hx. reflexivity.
  - rewrite (Hno y ltac:(left)). apply IH. intros z Hz. apply Hno. right. exact Hz.
Qed.

Lemma find_none_all {A} (f : A → bool) (l : list A) :
  (∀ y, y ∈ l → f y = false) → find f l = None.
Proof.
  intros Hno. destruct (find f l) as [x|] eqn:Hfind; [|reflexivity].
  apply find_some in Hfind as [Hin Hx]. apply list_elem_of_In in Hin.
  rewrite (Hno x Hin) in Hx. discriminate.
Qed.

(** X16.  Importing a record twice does not duplicate it.  On a store that
    gives a created record an identifier and keeps it, a record whose name
    is not yet in the store is created by the first import with update; the
    second import of the same record finds it, sends an update with the
    identifier the store gave and the same payload, and leaves the store as
    it was after the first import. *)
Theorem import_twice_updates (classification : loc) (w : World (list dict))
    (record : dict) (name : pystr) :
  heap w !! classification = Some record →
  record !! str "name" = Some (JStr name) →
  Forall (fun c => is_Some (record_name c)) (remote w) →
  (∀ c, c ∈ remote w → same_name name c = false) →
  ∃ w1 w2,
    import_classification Test.memory_client classification true w = (Ok tt, w1) ∧
    import_classification Test.memory_client classification true w1 = (Ok tt, w2) ∧
    remote w1 = remote w ++ [<[str "id" := JNum (Z.of_nat (length (remote w)))]>
                               (stripped record)] ∧
    remote w2 = remote w1 ∧
    trace w2 = trace w ++
      [LogProcessing (JStr name); CallGetAll; CallCreate (stripped record);
       LogCreated (JStr name);
       LogProcessing (JStr name); CallGetAll;
       CallUpdate (JNum (Z.of_nat (length (remote w)))) (stripped record);
       LogUpdated (JStr name)].
Proof.
  intros Hl Hname Hnames Hno.
  assert (Hdefault : get_default record (str "name") (JStr (str "Unknown")) = JStr name)
    by (unfold get_default; rewrite Hname; reflexivity).
  set (created := <[str "id" := JNum (Z.of_nat (length (remote w)))]> (stripped record)).
  assert (Hcreated_name : created !! str "name" = Some (JStr name)).
  { unfold created. rewrite lookup_insert_ne by (vm_compute; discriminate).
    rewrite stripped_lookup.
    rewrite bool_decide_eq_false_2; [exact Hname|].
    unfold metadata_fields. rewrite !elem_of_cons, elem_of_nil.
    intros [H|[H|[H|[H|[]]]]]; vm_compute in H; discriminate. }
  assert (Hcreated_match : same_name name created = true).
  { unfold same_name, record_name. rewrite Hcreated_name.
    apply bool_decide_eq_true_2. reflexivity. }
  eexists _, _.
  split.
  { apply (import_classification_world Test.memory_client classification true w record
             name (remote w) (remote w) Hl Hdefault eq_refl Hnames). }
  rewrite (find_none_all _ _ Hno). cbn [Test.memory_client
    Classifications.import_classification fst snd]. fold created.
  split.
  { apply (import_classification_world Test.memory_client classification true _ record
             name (remote w ++ [created]) (remote w ++ [created])).
    - cbn [heap]. rewrite lookup_insert_ne; [exact Hl|]. eapply fresh_loc_ne, Hl.
    - exact Hdefault.
    - reflexivity.
    - apply Forall_app. split; [exact Hnames|]. constructor; [|constructor].
      unfold record_name. rewrite Hcreated_name. eauto. }
  rewrite (find_none_app _ _ _ Hno Hcreated_match).
  assert (Hid : get created (str "id") = JNum (Z.of_nat (length (remote w)))).
  { unfold get, created. rewrite lookup_insert_eq. reflexivity. }
  rewrite Hid. cbn [Test.memory_client update_classification fst snd remote trace].
  rewrite Nat2Z.id. fold created.
  assert (Hsame : <[length (remote w) := created]> (remote w ++ [created])
                  = remote w ++ [created]).
  { apply list_insert_id. apply list_lookup_middle. reflexivity. }
  rewrite Hsame. split; [reflexivity|]. split; [reflexivity|].
  rewrite <- app_assoc. reflexivity.
Qed.

End Idempotence.

Section Run20.
#[local] Existing Instance Test.python.

(** X16, on a run: the record "PII", exported with the id 42 of another
    store, is imported twice into an empty store. *)
Lemma import_twice_updates_witness :
  ∃ w1 w2,
    Importer.import_classification Test.memory_client 0 true
      (Test.importing (Spec.with_id (Some (JNum 42)) Test.pii) []) = (Ok tt, w1) ∧
    Importer.import_classification Test.memory_client 0 true w1 = (Ok tt, w2) ∧
    remote w1 = [<[str "id" := JNum 0]> Test.pii] ∧
    remote w2 = remote w1 ∧
    trace w2 =
      [LogProcessing (JStr (str "PII")); CallGetAll; CallCreate Test.pii;
       LogCreated (JStr (str "PII"));
       LogProcessing (JStr (str "PII")); CallGetAll; CallUpdate (JNum 0) Test.pii;
       LogUpdated (JStr (str "PII"))].
Proof.
  destruct (import_twice_updates 0
              (Test.importing (Spec.with_id (Some (JNum 42)) Test.pii) [])
              (Spec.with_id (Some (JNum 42)) Test.pii) (str "PII"))
    as (w1 & w2 & H1 & H2 & Hr1 & Hr2 & Ht).
  - vm_compute. reflexivity.
  - vm_compute. reflexivity.
  - constructor.
  - intros c Hc. inversion Hc.
  - exists w1, w2. split; [exact H1|]. split; [exact H2|].
    split; [rewrite Hr1; vm_compute; reflexivity|]. split; [exact Hr2|].
    rewrite Ht. vm_compute. reflexivity.
Defined.

End Run20.

Section BatchEdges.
Import Importer Spec.
Context {py : Runtime} {Σ : Type}.

(** X17.  The edges of a batch.  For a path that is not a directory the
    batch import raises [NotADirectoryError] before anything is read or
    sent.  For a directory in which [os.listdir] finds no name that ends in
    [.json], whatever else it finds, the batch import logs a warning and
    returns the empty list; nothing is read or sent.  For a directory that
    [os.listdir] cannot list, it raises the error of [os.listdir], and
    nothing is read or sent. *)
Theorem import_all_from_directory_edges (client : ClassificationsApi Σ)
    (fs : FileSystem) (directory : pystr) (update_if_exists : bool) (w : World Σ) :
  (isdir fs directory = false →
   import_all_from_directory client fs directory update_if_exists w
     = (Raise NotADirectoryError, w)) ∧
  (∀ names,
     isdir fs directory = true →
     listdir fs directory = Ok names →
     Forall (fun f => endswith f (str ".json") = false) names →
     import_all_from_directory client fs directory update_if_exists w
       = (Ok (JArr []),
          {| heap := heap w; remote := remote w; trace := trace w ++ [LogNoFiles] |})) ∧
  (∀ e,
     isdir fs directory = true →
     listdir fs directory = Raise e →
     import_all_from_directory client fs directory update_if_exists w = (Raise e, w)).
Proof.
  unfold import_all_from_directory. split; [|split].
  - intros ->. reflexivity.
  - intros names -> Hnames Hnone. cbn [negb]. unfold bind at 1, lift at 1.
    rewrite Hnames. clear Hnames.
    assert (filter (fun f => endswith f (str ".json") = true) names = []) as ->.
    { induction Hnone as [|f l Hf _ IH]; [reflexivity|].
      rewrite filter_cons, decide_False by (rewrite Hf; discriminate). exact IH. }
    reflexivity.
  - intros e -> Hnames. cbn [negb]. unfold bind at 1, lift at 1.
    rewrite Hnames. reflexivity.
Qed.

End BatchEdges.

Section Run21.
#[local] Existing Instance Test.python.

(** X17, on a run: a directory that holds only notes. *)
Lemma import_all_from_directory_edges_witness :
  Importer.import_all_from_directory Test.memory_client
    (Test.directory_fs (str "in") [(str "notes.txt", Broken JSONDecodeError);
                                   (str "json", Object Test.pii)])
    (str "in") true (Test.fresh_world [])
  = (Ok (JArr []), {| heap := ∅; remote := []; trace := [LogNoFiles] |}).
Proof.
  apply (proj1 (proj2 (import_all_from_directory_edges Test.memory_client
                         (Test.directory_fs (str "in")
                            [(str "notes.txt", Broken JSONDecodeError);
                             (str "json", Object Test.pii)])
                         (str "in") true (Test.fresh_world [])))
           [str "notes.txt"; str "json"]).
  - vm_compute. reflexivity.
  - vm_compute. reflexivity.
  - repeat constructor.
Defined.

End Run21.

(** ** The scanner program *)

Section ScannerProgram.
Import Scanner ScannerMain.
Context {py : Runtime}.

Lemma elem_of_if_snoc (b : bool) (l : list pystr) (x c : pystr) :
  c ∈ (if b then l ++ [x] else l) ↔ c ∈ l ∨ (b = true ∧ c = x).
Proof.
  destruct b.
  - rewrite elem_of_app, list_elem_of_singleton. tauto.
  - split; [tauto|]. intros [H|[H _]]; [exact H|discriminate].
Qed.

(** X11.  The capabilities sent with a launch are exactly those whose flag
    is set, each once, in the fixed order of the program whatever the order
    of the flags on the command line; the list is empty exactly when no
    flag is set. *)
Theorem build_capabilities_flags (f : CapabilityFlags) :
  (∀ c, c ∈ build_capabilities f ↔
        (metadata_extraction f = true ∧ c = str "Metadata Extraction") ∨
        (data_profiling f = true ∧ c = str "Data Profiling") ∨
        (data_classification f = true ∧ c = str "Data Classification") ∨
        (data_quality f = true ∧ c = str "Data Quality") ∨
        (relationship_discovery f = true ∧ c = str "Relationship Discovery") ∨
        (glossary_association f = true ∧ c = str "Glossary Association") ∨
        (lineage_discovery f = true ∧ c = str "Lineage Discovery")) ∧
  NoDup (build_capabilities f) ∧
  build_capabilities f `sublist_of`
    [str "Metadata Extraction"; str "Data Profiling"; str "Data Classification";
     str "Data Quality"; str "Relationship Discovery"; str "Glossary Association";
     str "Lineage Discovery"] ∧
  (build_capabilities f = [] ↔
     metadata_extraction f = false ∧ data_profiling f = false ∧
     data_classification f = false ∧ data_quality f = false ∧
     relationship_discovery f = false ∧ glossary_association f = false ∧
     lineage_discovery f = false).
Proof.
  split; [|split; [|split]].
  - intros c. unfold build_capabilities. cbv zeta.
    rewrite !elem_of_if_snoc, elem_of_nil. tauto.
  - destruct f as [[] [] [] [] [] [] []];
      refine (bool_decide_unpack (NoDup _) _); vm_compute; exact I.
  - destruct f as [[] [] [] [] [] [] []]; cbn;
      repeat first [apply sublist_nil | apply sublist_skip | apply sublist_cons].
  - destruct f as [[] [] [] [] [] [] []]; cbn; split;
      first [discriminate | intros (? & ? & ? & ? & ? & ? & ?); discriminate
            | intros; repeat split; reflexivity].
Qed.

Lemma exact_match_loop_arg_some (hits : list Asset) (s : pystr) :
  exact_match_loop_arg hits (Some s) = exact_match_loop hits s.
Proof.
  induction hits as [|a hits IH]; [reflexivity|].
  cbn [exact_match_loop_arg exact_match_loop name_value method_lower].
  destruct (subscript (summary a) (str "core.name")) as [v|]; [|reflexivity].
  destruct (method_lower v) as [l|]; [|reflexivity].
  rewrite IH. reflexivity.
Qed.

(** For a name that is given, the search of [main] is
    [search_catalog_source]. *)
Lemma search_catalog_source_arg_some (cdgc : CDGC) (s : pystr) :
  search_catalog_source_arg cdgc (Some s) = search_catalog_source cdgc s.
Proof.
  unfold search_catalog_source_arg, search_catalog_source, search_catalog_source_try.
  cbn [name_text].
  destruct (search_assets cdgc (str "*") (str "all") (search_body s)) as [[sr|]|];
    try reflexivity.
  destruct (total_hits sr) as [n|]; [|reflexivity].
  destruct (0 <? n)%Z; [|reflexivity].
  rewrite exact_match_loop_arg_some. reflexivity.
Qed.

Lemma exact_match_loop_arg_none (hits : list Asset) :
  hits ≠ [] → ∃ e, exact_match_loop_arg hits None = Raise e.
Proof.
  destruct hits as [|a hits]; [congruence|]. intros _.
  cbn [exact_match_loop_arg name_value method_lower].
  destruct (subscript (summary a) (str "core.name")) as [v|]; [|eauto].
  destruct (method_lower v) as [l|]; eauto.
Qed.

(** Without a name nothing is found. *)
Lemma search_catalog_source_arg_none (cdgc : CDGC) :
  search_catalog_source_arg cdgc None = (false, None).
Proof.
  unfold search_catalog_source_arg.
  destruct (search_assets cdgc (str "*") (str "all") (search_body (name_text None)))
    as [[sr|]|]; try reflexivity.
  destruct (total_hits sr) as [n|]; [|reflexivity].
  destruct (0 <? n)%Z; [|reflexivity].
  destruct (hits sr) as [|a hits] eqn:Hhits; [reflexivity|].
  destruct (exact_match_loop_arg_none (a :: hits) ltac:(discriminate)) as [e ->].
  reflexivity.
Qed.

Lemma exact_match_loop_named (hits : list Asset) (s : pystr) (a : Asset) :
  exact_match_loop hits s = Ok (Some a) →
  ∃ v, subscript (summary a) (str "core.name") = Ok v.
Proof.
  induction hits as [|h hits IH]; [discriminate|].
  cbn [exact_match_loop].
  destruct (subscript (summary h) (str "core.name")) as [v|] eqn:Hv; [|discriminate].
  destruct (method_lower v) as [l|]; [|discriminate].
  destruct (bool_decide (l = lower s)).
  - intros [= <-]. eauto.
  - exact IH.
Qed.

(** A source that was found has a name. *)
Lemma search_catalog_source_named (cdgc : CDGC) (s : pystr) (found : bool) (a : Asset) :
  search_catalog_source cdgc s = (found, Some a) →
  found = true ∧ ∃ v, subscript (summary a) (str "core.name") = Ok v.
Proof.
  unfold search_catalog_source, search_catalog_source_try.
  destruct (search_assets cdgc (str "*") (str "all") (search_body s)) as [[sr|]|];
    try discriminate.
  destruct (total_hits sr) as [n|]; [|discriminate].
  destruct (0 <? n)%Z; [|discriminate].
  destruct (exact_match_loop (hits sr) s) as [[asset|]|] eqn:Hloop; [| |discriminate].
  - intros [= <- <-]. split; [reflexivity|]. eapply exact_match_loop_named, Hloop.
  - destruct (hits sr) as [|first rest]; [discriminate|].
    destruct (subscript (summary first) (str "core.name")) as [v|] eqn:Hv; [|discriminate].
    intros [= <- <-]. eauto.
Qed.

End ScannerProgram.

Section ScannerExit.
Import Scanner ScannerMain.

(** The program after its arguments are parsed, when it was started with
    arguments: what the status 0 means. *)
Lemma run_exit_status_zero {py : Runtime} (fuel : nat) (args : Args) (env : Env)
    (w w' : World) :
  argc env ≠ 1 →
  run fuel args env w = Some (0, w') ↔
    build_capabilities (flags args) ≠ [] ∧
    ∃ cdgc sourceName catalogSource job_info,
      connect env = Ok cdgc ∧
      name args = Some sourceName ∧
      search_catalog_source cdgc sourceName = (true, Some catalogSource) ∧
      execute_catalog_source cdgc catalogSource (Some (build_capabilities (flags args)))
        = (true, Some job_info) ∧
      log_usage env = Ok tt ∧
      if no_wait args then w' = w
      else ∃ final_status,
             monitor_job fuel cdgc (clock env) job_info (poll_interval args)
               (timeout args) w = Some (Ok (true, final_status), w').
Proof.
  intros Hargc. unfold run. destruct (Nat.eqb_spec (argc env) 1) as [|_]; [contradiction|].
  cbv zeta. split.
  - case_bool_decide as Hcaps; [discriminate|].
    destruct (connect env) as [cdgc|] eqn:Hconnect; [|discriminate].
    destruct (name args) as [sourceName|] eqn:Hname.
    2:{ rewrite search_catalog_source_arg_none. discriminate. }
    rewrite search_catalog_source_arg_some.
    destruct (search_catalog_source cdgc sourceName) as [found catalogSource] eqn:Hsearch.
    destruct found; [|discriminate]. cbn [negb].
    destruct catalogSource as [catalogSource|]; [|discriminate].
    destruct (subscript (summary catalogSource) (str "core.name")); [|discriminate].
    destruct (execute_catalog_source cdgc catalogSource
                (Some (build_capabilities (flags args)))) as [success job_info] eqn:Hexec.
    destruct success; [|discriminate]. cbn [negb].
    assert (∃ ji, job_info = Some ji) as [ji ->].
    { revert Hexec. unfold execute_catalog_source.
      destruct (run_catalog_source_job cdgc _ _) as [r|[]]; try discriminate.
      destruct (truthy _); [|discriminate]. intros [= <-]. eauto. }
    assert (Hfinish : ∀ w0, finish env w0 = Some (0, w') → log_usage env = Ok tt ∧ w' = w0).
    { intros w0. unfold finish. destruct (log_usage env) as [[]|]; [|discriminate].
      intros [= ->]. split; reflexivity. }
    destruct (no_wait args); cbn [negb].
    + intros H. apply Hfinish in H as [Hlog Hw].
      split; [exact Hcaps|]. exists cdgc, sourceName, catalogSource, ji.
      do 5 (split; [first [reflexivity | assumption]|]). exact Hw.
    + destruct (monitor_job fuel cdgc (clock env) ji (poll_interval args) (timeout args) w)
        as [[[[success final_status]|e] w1]|] eqn:Hmon; try discriminate.
      destruct success; [|discriminate].
      intros H. apply Hfinish in H as [Hlog Hw]. subst w'.
      split; [exact Hcaps|]. exists cdgc, sourceName, catalogSource, ji.
      do 5 (split; [first [reflexivity | assumption]|]).
      exists final_status. first [reflexivity | assumption].
  - intros (Hcaps & cdgc & sourceName & catalogSource & ji & Hconnect & Hname & Hsearch
            & Hexec & Hlog & Hmon).
    rewrite bool_decide_eq_false_2 by exact Hcaps.
    rewrite Hconnect, Hname, search_catalog_source_arg_some, Hsearch. cbn [negb].
    destruct (search_catalog_source_named _ _ _ _ Hsearch) as [_ [v ->]].
    rewrite Hexec. cbn [negb]. unfold finish.
    destruct (no_wait args); cbn [negb].
    + rewrite Hlog, Hmon. reflexivity.
    + destruct Hmon as [final_status ->]. rewrite Hlog. reflexivity.
Qed.

(** The program never ends with a status other than 0, 1 and 2 once its
    arguments are parsed. *)
Lemma run_exit_status {py : Runtime} (fuel : nat) (args : Args) (env : Env)
    (w w' : World) (status : nat) :
  run fuel args env w = Some (status, w') → status = 0 ∨ status = 1.
Proof.
  unfold run, finish. cbv zeta.
  repeat match goal with
         | |- context [if ?b then _ else _] => destruct b
         | |- context [match ?x with _ => _ end] => destruct x
         end; intros [= <- _]; auto.
Qed.

(** X12.  What the exit status of the scanner program means.  The program
    ends with status 2 exactly when [argparse] rejects the command line,
    and then nothing has been done.  It ends with status 0 exactly when:
    the help was asked for with [-h], or the program was started without
    arguments, and then nothing has been done; or, started with
    arguments, at least one capability flag is set; the client could be
    created; a name was given and the resolver found a source for it; the
    launcher started a job for that source with the capabilities of the
    flags; unless [--no-wait] was given, the monitor returned success for
    that job; and the usage could be logged.  With [--no-wait] the job is
    not observed at all: no clock reading, no status request. *)
Theorem main_exit_status_zero {py : Runtime} (fuel : nat) (command_line : parsed Args)
    (env : Env) (w w' : World) :
  (main fuel command_line env w = Some (2, w') ↔ command_line = UsageError ∧ w' = w) ∧
  (main fuel command_line env w = Some (0, w') ↔
     (command_line = Help ∧ w' = w) ∨
     ∃ args,
       command_line = Parsed args ∧
       ((argc env = 1 ∧ w' = w) ∨
        (argc env ≠ 1 ∧
         build_capabilities (flags args) ≠ [] ∧
         ∃ cdgc sourceName catalogSource job_info,
           connect env = Ok cdgc ∧
           name args = Some sourceName ∧
           search_catalog_source cdgc sourceName = (true, Some catalogSource) ∧
           execute_catalog_source cdgc catalogSource
             (Some (build_capabilities (flags args))) = (true, Some job_info) ∧
           log_usage env = Ok tt ∧
           if no_wait args then w' = w
           else ∃ final_status,
                  monitor_job fuel cdgc (clock env) job_info (poll_interval args)
                    (timeout args) w = Some (Ok (true, final_status), w')))).
Proof.
  destruct command_line as [| |args]; cbn [main].
  - split.
    + split; [discriminate|]. intros [H _]. discriminate.
    + split.
      * intros [= <-]. left. split; reflexivity.
      * intros [[_ ->]|(args & H & _)]; [reflexivity|discriminate].
  - split.
    + split; [intros [= <-]; split; reflexivity|]. intros [_ ->]. reflexivity.
    + split; [discriminate|]. intros [[H _]|(args & H & _)]; discriminate.
  - split.
    + split; [|intros [H _]; discriminate].
      intros H. apply run_exit_status in H as [H|H]; discriminate.
    + destruct (Nat.eq_dec (argc env) 1) as [Hone|Hmore].
      * assert (Hrun : run fuel args env w = Some (0, w))
          by (unfold run; rewrite Hone; reflexivity).
        rewrite Hrun. split.
        -- intros [= <-]. right. exists args. split; [reflexivity|]. left.
           split; [exact Hone|reflexivity].
        -- intros [[H _]|(args0 & [= <-] & [[_ ->]|[H _]])];
             [discriminate|reflexivity|contradiction].
      * rewrite (run_exit_status_zero fuel args env w w' Hmore). split.
        -- intros H. right. exists args. split; [reflexivity|]. right.
           split; [exact Hmore|exact H].
        -- intros [[H _]|(args0 & [= <-] & [[H _]|[_ H]])];
             [discriminate|contradiction|exact H].
Qed.

End ScannerExit.

(** X12, on a run: a launch with one capability and [--no-wait]. *)
Lemma main_exit_status_zero_witness :
  ScannerMain.main (py := Test.python) 0
    (Parsed
       {| ScannerMain.name := Some (str "Sales DB");
          ScannerMain.flags :=
            {| ScannerMain.metadata_extraction := false;
               ScannerMain.data_profiling := true;
               ScannerMain.data_classification := false;
               ScannerMain.data_quality := false;
               ScannerMain.relationship_discovery := false;
               ScannerMain.glossary_association := false;
               ScannerMain.lineage_discovery := false |};
          ScannerMain.poll_interval := 30; ScannerMain.timeout := 3600;
          ScannerMain.no_wait := true; ScannerMain.verbose := false;
          ScannerMain.output_json := false |})
    {| ScannerMain.argc := 5;
       ScannerMain.connect :=
         Ok (Test.answering_cdgc
               (Ok (Some {| Scanner.total_hits := Ok 1%Z;
                            Scanner.hits := [Test.source (str "Sales DB") (str "o-3")] |}))
               (Ok {[ str "jobId" := JStr (str "job-1") ]}));
       ScannerMain.clock := Test.stepping_clock 30;
       ScannerMain.log_usage := Ok tt |}
    Test.start
  = Some (0, Test.start).
Proof.
  set (cdgc := Test.answering_cdgc
                 (Ok (Some {| Scanner.total_hits := Ok 1%Z;
                              Scanner.hits := [Test.source (str "Sales DB") (str "o-3")] |}))
                 (Ok {[ str "jobId" := JStr (str "job-1") ]})).
  set (args := {| ScannerMain.name := Some (str "Sales DB");
                  ScannerMain.flags :=
                    {| ScannerMain.metadata_extraction := false;
                       ScannerMain.data_profiling := true;
                       ScannerMain.data_classification := false;
                       ScannerMain.data_quality := false;
                       ScannerMain.relationship_discovery := false;
                       ScannerMain.glossary_association := false;
                       ScannerMain.lineage_discovery := false |};
                  ScannerMain.poll_interval := 30; ScannerMain.timeout := 3600;
                  ScannerMain.no_wait := true; ScannerMain.verbose := false;
                  ScannerMain.output_json := false |}).
  assert (Hcaps : ScannerMain.build_capabilities (ScannerMain.flags args) ≠ [])
    by (vm_compute; discriminate).
  assert (Hsearch : Scanner.search_catalog_source (py := Test.python) cdgc (str "Sales DB")
                    = (true, Some (Test.source (str "Sales DB") (str "o-3"))))
    by (vm_compute; reflexivity).
  assert (Hexec : Scanner.execute_catalog_source cdgc
                    (Test.source (str "Sales DB") (str "o-3"))
                    (Some (ScannerMain.build_capabilities (ScannerMain.flags args)))
                  = (true, Some (Scanner.job_handle (JStr (str "job-1")) JNull
                                   (JStr (str "Sales DB")) (JStr (str "o-3")))))
    by (vm_compute; reflexivity).
  apply (proj2 (proj2 (main_exit_status_zero (py := Test.python) 0 (Parsed args) _
                         Test.start Test.start))).
  right. exists args. split; [reflexivity|]. right.
  split; [cbn; lia|]. split; [exact Hcaps|].
  exists cdgc, (str "Sales DB"), (Test.source (str "Sales DB") (str "o-3")),
    (Scanner.job_handle (JStr (str "job-1")) JNull (JStr (str "Sales DB"))
       (JStr (str "o-3"))).
  split; [reflexivity|]. split; [reflexivity|]. split; [exact Hsearch|].
  split; [exact Hexec|]. split; reflexivity.
Defined.

(** X11, on a run: two flags, given in any order. *)
Lemma build_capabilities_flags_witness :
  ScannerMain.build_capabilities
    {| ScannerMain.metadata_extraction := false; ScannerMain.data_profiling := true;
       ScannerMain.data_classification := false; ScannerMain.data_quality := false;
       ScannerMain.relationship_discovery := false;
       ScannerMain.glossary_association := false;
       ScannerMain.lineage_discovery := true |} ≠ [].
Proof.
  intros Hempty.
  apply (proj2 (proj2 (proj2 (build_capabilities_flags _)))) in Hempty
    as (_ & Hprofiling & _).
  discriminate.
Defined.

(** ** The import program *)

Section ImporterProgram.
Import Importer ImporterMain Spec.
Context {py : Runtime} {Σ : Type}.

(** A reconcile step raises nothing. *)
Lemma import_classification_returns (client : ClassificationsApi Σ) (l : loc)
    (update_if_exists : bool) (w : World Σ) :
  ∃ w', import_classification client l update_if_exists w = (Ok tt, w').
Proof.
  unfold import_classification, bind at 1 2, load, emit at 1, try_except at 1.
  match goal with
  | |- context [bind (prepare_classification_for_import l) ?k ?w0] =>
      destruct (bind (prepare_classification_for_import l) k w0) as [[[]|e] w1]
  end; unfold emit; eauto.
Qed.

(** Importing a file, case by case: a record is imported, and that raises
    nothing; anything else raises, with nothing but log lines written. *)
Lemma import_classification_from_file_cases (client : ClassificationsApi Σ)
    (fs : FileSystem) (filepath : pystr) (update_if_exists : bool) (w : World Σ) :
  ∃ r w',
    import_classification_from_file client fs filepath update_if_exists w = (r, w') ∧
    if is_record (read_file fs filepath) then r = Ok tt
    else (∃ e, r = Raise e) ∧
         remote w' = remote w ∧
         (∃ lines, trace w' = trace w ++ lines ∧
                   Forall (fun ev => is_client_call ev = false) lines) ∧
         (match read_file fs filepath with
          | Text _ | Array _ =>
              ∀ data w1, read_classification_file fs filepath w = (Ok data, w1) →
                         r = Raise AttributeError ∧ w' = w1
          | _ => True
          end).
Proof.
  unfold import_classification_from_file, bind at 1.
  pose proof (read_classification_file_run fs filepath w) as Hread.
  cbv zeta in Hread. rewrite Hread. clear Hread.
  assert (Hlog : ∀ lines, Forall (fun ev => is_client_call ev = false) lines →
            ∃ lines0, trace w ++ lines = trace w ++ lines0 ∧
                      Forall (fun ev => is_client_call ev = false) lines0) by eauto.
  destruct (read_file fs filepath) as [|e|data|s|l|]; cbn [is_record].
  - eexists _, _. split; [reflexivity|]. split; [eauto|]. split; [reflexivity|].
    split; [|exact I]. exists []. rewrite app_nil_r. split; [reflexivity|constructor].
  - eexists _, _. split; [reflexivity|]. split; [eauto|]. split; [reflexivity|].
    split; [|exact I]. cbn [trace]. apply Hlog. destruct e; repeat constructor.
  - destruct (bool_decide (is_Some (data !! str "name"))).
    + destruct (import_classification_returns client (fresh (dom (heap w)))
                  update_if_exists
                  {| heap := <[fresh (dom (heap w)) := data]> (heap w);
                     remote := remote w; trace := trace w ++ [LogRead filepath] |})
        as [w' Hrun].
      exists (Ok tt), w'. split; [exact Hrun|reflexivity].
    + eexists _, _. split; [reflexivity|]. split; [eauto|]. split; [reflexivity|].
      split; [|exact I]. cbn [trace]. apply Hlog. repeat constructor.
  - destruct (contains s (str "name")).
    + eexists _, _. split; [reflexivity|]. split; [eauto|]. split; [reflexivity|].
      split; [cbn [trace]; apply Hlog; repeat constructor|].
      intros data w1 [= <- <-]. split; reflexivity.
    + eexists _, _. split; [reflexivity|]. split; [eauto|]. split; [reflexivity|].
      split; [cbn [trace]; apply Hlog; repeat constructor|].
      intros data w1 [=].
  - destruct (existsb _ l).
    + eexists _, _. split; [reflexivity|]. split; [eauto|]. split; [reflexivity|].
      split; [cbn [trace]; apply Hlog; repeat constructor|].
      intros data w1 [= <- <-]. split; reflexivity.
    + eexists _, _. split; [reflexivity|]. split; [eauto|]. split; [reflexivity|].
      split; [cbn [trace]; apply Hlog; repeat constructor|].
      intros data w1 [=].
  - eexists _, _. split; [reflexivity|]. split; [eauto|]. split; [reflexivity|].
    split; [|exact I]. cbn [trace]. apply Hlog. repeat constructor.
Qed.

(** X13.  What reaches the client from a file.  Importing a file raises
    nothing exactly when the file holds a JSON object with a [name] field.
    In every other case it raises, the remote store is as before and no
    client method has been called: whether there is no file, the file
    cannot be opened or parsed, or it holds a JSON object without a name, a
    number, [true], [false] or [null], or a string or an array.  A string
    or an array that contains "name" passes the check of
    [read_classification_file], which returns it; the import then raises
    [AttributeError] at its first statement, before anything is logged. *)
Theorem import_classification_from_file_outcome (client : ClassificationsApi Σ)
    (fs : FileSystem) (filepath : pystr) (update_if_exists : bool) (w : World Σ) :
  ∃ r w',
    import_classification_from_file client fs filepath update_if_exists w = (r, w') ∧
    (r = Ok tt ↔ is_record (read_file fs filepath) = true) ∧
    (r ≠ Ok tt →
     (∃ e, r = Raise e) ∧
     remote w' = remote w ∧
     ∃ lines, trace w' = trace w ++ lines ∧
              Forall (fun ev => is_client_call ev = false) lines) ∧
    (∀ data w1,
       (∃ s, read_file fs filepath = Text s) ∨ (∃ l, read_file fs filepath = Array l) →
       read_classification_file fs filepath w = (Ok data, w1) →
       r = Raise AttributeError ∧ w' = w1).
Proof.
  destruct (import_classification_from_file_cases client fs filepath update_if_exists w)
    as (r & w' & Hrun & Hcases).
  exists r, w'. split; [exact Hrun|].
  destruct (is_record (read_file fs filepath)) eqn:Hrecord.
  - subst r. split; [tauto|]. split; [congruence|].
    intros data w1 [[s Hs]|[l Hl]] _; [rewrite Hs in Hrecord|rewrite Hl in Hrecord];
      discriminate.
  - destruct Hcases as ([e ->] & Hremote & Hlines & Hplain).
    split; [split; discriminate|]. split; [eauto|].
    intros data w1 [[s Hs]|[l Hl]] Hread;
      [rewrite Hs in Hplain|rewrite Hl in Hplain]; exact (Hplain data w1 Hread).
Qed.

(** The batch import of a directory that can be listed raises nothing. *)
Lemma import_all_from_directory_returns (client : ClassificationsApi Σ)
    (fs : FileSystem) (directory : pystr) (update_if_exists : bool) (w : World Σ)
    (names : list pystr) :
  isdir fs directory = true →
  listdir fs directory = Ok names →
  ∃ v w', import_all_from_directory client fs directory update_if_exists w = (Ok v, w').
Proof.
  intros Hdir Hnames.
  destruct (import_all_from_directory_run client fs directory update_if_exists w names
              Hdir Hnames) as (w' & Hrun & _).
  eauto.
Qed.

(** The batch import of a path that is no directory, or cannot be listed,
    raises. *)
Lemma import_all_from_directory_raises (client : ClassificationsApi Σ)
    (fs : FileSystem) (directory : pystr) (update_if_exists : bool) (w : World Σ) :
  isdir fs directory = false ∨ (∃ e, listdir fs directory = Raise e) →
  ∃ e, import_all_from_directory client fs directory update_if_exists w = (Raise e, w).
Proof.
  unfold import_all_from_directory. destruct (isdir fs directory); cbn [negb].
  - intros [H|[e He]]; [discriminate|]. unfold bind, lift. rewrite He. eauto.
  - intros _. unfold raise. eauto.
Qed.

(** The program after its arguments are parsed: its status is 0 or 1, and
    what the status 0 means. *)
Lemma importer_run_exit_status (fs : FileSystem) (args : Args) (env : Env Σ)
    (w : World Σ) :
  ∃ status w',
    run fs args env w = (Ok status, w') ∧
    (status = 0 ∨ status = 1) ∧
    (status = 0 ↔
       given (file args) ≠ given (directory args) ∧
       (∃ client, connect env = Ok client) ∧
       log_usage env = Ok tt ∧
       if given (file args) then is_record (read_file fs (text (file args))) = true
       else isdir fs (text (directory args)) = true ∧
            ∃ names, listdir fs (text (directory args)) = Ok names).
Proof.
  unfold run.
  destruct (given (file args)) eqn:Hfile, (given (directory args)) eqn:Hdir;
    cbn [negb andb].
  - eexists 1, _. split; [reflexivity|]. split; [auto|].
    split; [discriminate|]. intros [H _]. congruence.
  - unfold try_except, bind at 1, lift at 1.
    destruct (connect env) as [client|e].
    2:{ eexists 1, _. split; [reflexivity|]. split; [auto|].
        split; [discriminate|]. intros (_ & [c Hc] & _). discriminate. }
    unfold bind at 1.
    destruct (import_classification_from_file_cases client fs (text (file args))
                (update args) w) as (r & w1 & -> & Hcases).
    destruct (is_record (read_file fs (text (file args)))).
    + subst r. unfold bind, lift, ret. destruct (log_usage env) as [[]|e].
      * eexists 0, _. split; [reflexivity|]. split; [auto|].
        split; [|reflexivity]. intros _. split; [discriminate|].
        split; [eauto|]. split; reflexivity.
      * eexists 1, _. split; [reflexivity|]. split; [auto|].
        split; [discriminate|]. intros (_ & _ & H & _). discriminate.
    + destruct Hcases as ([e ->] & _). eexists 1, _. split; [reflexivity|]. split; [auto|].
      split; [discriminate|]. intros (_ & _ & _ & H). discriminate.
  - unfold try_except, bind at 1, lift at 1.
    destruct (connect env) as [client|e].
    2:{ eexists 1, _. split; [reflexivity|]. split; [auto|].
        split; [discriminate|]. intros (_ & [c Hc] & _). discriminate. }
    unfold bind at 1, bind at 1.
    destruct (isdir fs (text (directory args))) eqn:Hisdir;
      [destruct (listdir fs (text (directory args))) as [names|e] eqn:Hnames|].
    + destruct (import_all_from_directory_returns client fs (text (directory args))
                  (update args) w names Hisdir Hnames) as (v & w1 & ->).
      unfold bind, lift, ret. destruct (log_usage env) as [[]|e].
      * eexists 0, _. split; [reflexivity|]. split; [auto|].
        split; [|reflexivity]. intros _. split; [discriminate|].
        split; [eauto|]. split; [reflexivity|]. split; [reflexivity|eauto].
      * eexists 1, _. split; [reflexivity|]. split; [auto|].
        split; [discriminate|]. intros (_ & _ & H & _). discriminate.
    + destruct (import_all_from_directory_raises client fs (text (directory args))
                  (update args) w) as [e' ->]; [right; rewrite Hnames; eauto|].
      eexists 1, _. split; [reflexivity|]. split; [auto|].
      split; [discriminate|]. intros (_ & _ & _ & _ & names & H). discriminate.
    + destruct (import_all_from_directory_raises client fs (text (directory args))
                  (update args) w) as [e' ->]; [left; exact Hisdir|].
      eexists 1, _. split; [reflexivity|]. split; [auto|].
      split; [discriminate|]. intros (_ & _ & _ & H & _). discriminate.
  - eexists 1, _. split; [reflexivity|]. split; [auto|].
    split; [discriminate|]. intros [H _]. congruence.
Qed.

(** X18.  What the exit status of the import program means.  The program
    always ends, with status 0, 1 or 2.  It ends with 2 exactly when
    [argparse] rejects the command line.  It ends with 0 exactly when the
    help was asked for with [-h], or: one of [--file] and [--directory] is
    given and not both (an empty path counts as not given); logging in
    succeeded; the file is a JSON object with a [name] field, respectively
    the directory is a directory that can be listed; and the usage could be
    logged.  What happened to the records does not enter: a record that
    could not be created or updated, and a file of a directory that could
    not be read, leave the status at 0. *)
Theorem importer_main_exit_status (fs : FileSystem) (command_line : parsed Args)
    (env : Env Σ) (w : World Σ) :
  ∃ status w',
    main fs command_line env w = (Ok status, w') ∧
    (status = 0 ∨ status = 1 ∨ status = 2) ∧
    (status = 2 ↔ command_line = UsageError) ∧
    (status = 0 ↔
       command_line = Help ∨
       ∃ args,
         command_line = Parsed args ∧
         given (file args) ≠ given (directory args) ∧
         (∃ client, connect env = Ok client) ∧
         log_usage env = Ok tt ∧
         if given (file args) then is_record (read_file fs (text (file args))) = true
         else isdir fs (text (directory args)) = true ∧
              ∃ names, listdir fs (text (directory args)) = Ok names).
Proof.
  destruct command_line as [| |args]; cbn [main].
  - exists 0, w. split; [reflexivity|]. split; [auto|].
    split; [split; discriminate|]. split; [auto|reflexivity].
  - exists 2, w. split; [reflexivity|]. split; [auto|].
    split; [split; reflexivity|]. split; [discriminate|].
    intros [H|(args & H & _)]; discriminate.
  - destruct (importer_run_exit_status fs args env w)
      as (status & w' & Hrun & Hstatus & Hzero).
    exists status, w'. split; [exact Hrun|]. split; [tauto|].
    split; [split; [intros ->; destruct Hstatus; discriminate|discriminate]|].
    rewrite Hzero. split.
    + intros H. right. exists args. split; [reflexivity|exact H].
    + intros [H|(args0 & [= <-] & H)]; [discriminate|exact H].
Qed.

End ImporterProgram.

Section Run22.
#[local] Existing Instance Test.python.

(** X13, on a run: a file that holds the JSON string "no name given" is
    read, and importing it raises [AttributeError]. *)
Lemma import_classification_from_file_outcome_witness :
  ∃ w',
    Importer.import_classification_from_file Test.memory_client Test.odd_inbox
      (str "in/s.json") false (Test.fresh_world [])
    = (Raise AttributeError, w') ∧
    trace w' = [LogRead (str "in/s.json")].
Proof.
  destruct (import_classification_from_file_outcome Test.memory_client Test.odd_inbox
              (str "in/s.json") false (Test.fresh_world []))
    as (r & w' & Hrun & _ & _ & Hplain).
  destruct (Hplain (Plain (JStr (str "no name given")))
              {| heap := ∅; remote := []; trace := [LogRead (str "in/s.json")] |})
    as [-> ->].
  - left. eexists. vm_compute. reflexivity.
  - vm_compute. reflexivity.
  - eexists. split; [exact Hrun|reflexivity].
Defined.

End Run22.

Section Run23.
#[local] Existing Instance Test.python.

(** X18, on a run: the test directory, in which one file cannot be read:
    the status is 0. *)
Lemma importer_main_exit_status_witness :
  ∃ w',
    ImporterMain.main Test.inbox
      (Parsed {| ImporterMain.file := None; ImporterMain.directory := Some (str "in");
                 ImporterMain.update := false |})
      {| ImporterMain.connect := Ok Test.memory_client;
         ImporterMain.log_usage := Ok tt |}
      (Test.fresh_world []) = (Ok 0, w').
Proof.
  destruct (importer_main_exit_status Test.inbox
              (Parsed {| ImporterMain.file := None;
                         ImporterMain.directory := Some (str "in");
                         ImporterMain.update := false |})
              {| ImporterMain.connect := Ok Test.memory_client;
                 ImporterMain.log_usage := Ok tt |}
              (Test.fresh_world []))
    as (status & w' & Hrun & _ & _ & Hzero).
  exists w'. rewrite Hrun. f_equal. f_equal. apply Hzero.
  right. eexists. split; [reflexivity|].
  split; [vm_compute; discriminate|].
  split; [eexists; reflexivity|].
  split; [reflexivity|]. split; [vm_compute; reflexivity|].
  eexists. vm_compute. reflexivity.
Defined.

End Run23.

(** ** The exporter: file names, single exports, the export of all *)

Section ExporterFileNames.
Import Exporter Spec.

(** X19.  On every interpreter, the file name of an export is the
    sanitized base name, the timestamp and the extension [.json].  The
    sanitized base name consists of kept characters only, and sanitizing it
    again changes nothing: a base name and its sanitized form, and so any
    two base names that differ only in replaced characters, get the same
    file name. *)
Theorem create_json_filename_idempotent {py : Runtime} (timestamp base_name : pystr) :
  ∃ safe_name,
    create_json_filename timestamp base_name
      = safe_name ++ str "_" ++ timestamp ++ str ".json" ∧
    Forall (fun c => kept c = true) safe_name ∧
    create_json_filename timestamp safe_name = create_json_filename timestamp base_name ∧
    endswith (create_json_filename timestamp base_name) (str ".json") = true.
Proof.
  exists ((fun c => if kept c then c else 95%N) <$> base_name).
  assert (Hkept : Forall (fun c => kept c = true)
                    ((fun c => if kept c then c else 95%N) <$> base_name)).
  { apply Forall_fmap, Forall_forall. intros c _. cbn.
    destruct (kept c) eqn:Hc; [exact Hc|]. unfold kept. apply orb_true_r. }
  split; [apply safe_name_kept|]. split; [exact Hkept|]. split.
  - rewrite !safe_name_kept. f_equal.
    rewrite <- list_fmap_compose. apply list_fmap_ext. intros i c _. cbn.
    destruct (kept c) eqn:Hc; [rewrite Hc; reflexivity|].
    destruct (kept 95); reflexivity.
  - rewrite safe_name_kept. unfold endswith. apply bool_decide_eq_true_2.
    set (safe := (fun c => if kept c then c else 95%N) <$> base_name).
    replace (safe ++ str "_" ++ timestamp ++ str ".json")
      with ((safe ++ str "_" ++ timestamp) ++ str ".json")
      by (rewrite <- !app_assoc; reflexivity).
    rewrite length_app.
    replace (length (safe ++ str "_" ++ timestamp) + length (str ".json")
             - length (str ".json"))
      with (length (safe ++ str "_" ++ timestamp)) by lia.
    apply drop_app_length.
Qed.

End ExporterFileNames.

Section ExporterMethods.
Import Exporter ExporterMore Spec.
Context {py : Runtime} {Σ : Type}.
Variable client : ClassificationsApi Σ.
Variable get_classification_details : json -> Σ -> result dict * Σ.
Variable fs : FileSystem.
Variable repr : json -> pystr.

(** The file name an export uses: the one given, if it is not empty, or
    one made from the name of the record. *)
Lemma export_classification_raise (self : ClassificationExporter)
    (timestamp utcnow : pystr) (classification_id : json) (output_dir : pystr)
    (filename : option pystr) (w : World Σ) (e : exn) (σ1 : Σ) :
  get_classification_details classification_id (remote w) = (Raise e, σ1) →
  export_classification get_classification_details fs repr self timestamp utcnow
    classification_id output_dir filename w
  = (Raise e, {| heap := heap w; remote := σ1; trace := trace w |}).
Proof.
  intros Hdetails. unfold export_classification, bind at 1, details_call.
  rewrite Hdetails. reflexivity.
Qed.

Lemma export_classification_ok (self : ClassificationExporter)
    (timestamp utcnow : pystr) (classification_id : json) (output_dir : pystr)
    (filename : option pystr) (w : World Σ) (details : dict) (σ1 : Σ) :
  get_classification_details classification_id (remote w) = (Ok details, σ1) →
  export_classification get_classification_details fs repr self timestamp utcnow
    classification_id output_dir filename w
  = save_classification_to_file fs self utcnow (fresh (dom (heap w)))
      (if negb (ImporterMain.given filename) then
         create_json_filename timestamp
           (format_value repr (get_default details (str "name") (JStr (str "classification")))
              ++ str "_classification")
       else ImporterMain.text filename)
      output_dir
      {| heap := <[fresh (dom (heap w)) := details]> (heap w); remote := σ1;
         trace := trace w |}.
Proof.
  intros Hdetails. unfold export_classification, bind at 1, details_call.
  rewrite Hdetails. reflexivity.
Qed.

(** X20.  A single export.  If fetching the details raises, the export
    raises the same and nothing is created or written.  Otherwise, if the
    output directory can be created, the record as fetched is given the
    three export fields and is written, under the file name given or, if
    none or an empty one is given, under a name made from the record's name
    followed by [_classification] (from ["classification"] for a record
    without a name); the export returns or raises as the write does. *)
Theorem export_classification_writes (self : ClassificationExporter)
    (timestamp utcnow : pystr) (classification_id : json) (output_dir : pystr)
    (filename : option pystr) (w : World Σ) :
  (∀ e σ1,
     get_classification_details classification_id (remote w) = (Raise e, σ1) →
     ∃ w', export_classification get_classification_details fs repr self timestamp utcnow
             classification_id output_dir filename w = (Raise e, w') ∧
           heap w' = heap w ∧ trace w' = trace w) ∧
  (∀ details σ1,
     get_classification_details classification_id (remote w) = (Ok details, σ1) →
     makedirs fs output_dir = Ok tt →
     let name :=
       match filename with
       | Some (c :: given) => c :: given
       | _ =>
           create_json_filename timestamp
             (match details !! str "name" with
              | Some (JStr s) => s
              | Some v => repr v
              | None => str "classification"
              end ++ str "_classification")
       end in
     let path := path_join output_dir name in
     ∃ w', export_classification get_classification_details fs repr self timestamp utcnow
             classification_id output_dir filename w
           = (write_file fs path (exported self utcnow details), w') ∧
           remote w' = σ1 ∧
           trace w' = trace w ++ [CallMakedirs output_dir;
                                  CallWrite path (exported self utcnow details)]).
Proof.
  split.
  - intros e σ1 Hdetails. eexists. split; [eapply export_classification_raise, Hdetails|].
    split; reflexivity.
  - intros details σ1 Hdetails Hmk name path.
    rewrite (export_classification_ok _ _ _ _ _ _ _ _ _ Hdetails).
    erewrite save_classification_to_file_run;
      [|cbn [heap]; apply lookup_insert_eq|exact Hmk].
    assert (Hname : (if negb (ImporterMain.given filename) then
                       create_json_filename timestamp
                         (format_value repr
                            (get_default details (str "name") (JStr (str "classification")))
                            ++ str "_classification")
                     else ImporterMain.text filename) = name).
    { subst name. unfold ImporterMain.given, ImporterMain.text, get_default, format_value.
      destruct filename as [[|c given]|]; cbn [negb];
        try rewrite bool_decide_eq_true_2 by reflexivity;
        try rewrite bool_decide_eq_false_2 by discriminate; cbn [negb]; try reflexivity;
        destruct (details !! str "name") as [[]|]; reflexivity. }
    rewrite Hname. fold path. eexists. split; [reflexivity|]. split; reflexivity.
Qed.

(** The loop finds the first record with the wanted name, on records that
    all have a name. *)
Lemma matching_loop_find (classifications : list dict) (name : pystr) :
  Forall (fun c => is_Some (record_name c)) classifications →
  matching_loop classifications name = Ok (find (same_name name) classifications).
Proof.
  induction 1 as [|c classifications [s Hs] _ IH]; [reflexivity|].
  cbn [matching_loop find]. unfold same_name at 1. rewrite Hs.
  unfold record_name in Hs. unfold get_default.
  destruct (c !! str "name") as [[| | |s'| |]|]; try discriminate.
  injection Hs as ->. cbn [method_lower].
  destruct (bool_decide (lower s = lower name)); [reflexivity|exact IH].
Qed.

(** X21.  An export by name.  On a collection in which every record has a
    name: if no record has the wanted name up to letter case, the export
    raises [ValueError] after the one fetch, and nothing is created or
    written; if one has, the first such, in the order of the collection, is
    exported by its identifier, as a single export would; if that record
    has no identifier, the export raises [KeyError] and nothing is created
    or written. *)
Theorem export_classification_by_name_cases (self : ClassificationExporter)
    (timestamp utcnow : pystr) (classification_name : pystr) (output_dir : pystr)
    (filename : option pystr) (w : World Σ) (classifications : list dict) (σ1 : Σ) :
  get_all_classifications client (remote w) = (Ok classifications, σ1) →
  Forall (fun c => is_Some (record_name c)) classifications →
  let fetched := {| heap := heap w; remote := σ1; trace := trace w ++ [CallGetAll] |} in
  match find (same_name classification_name) classifications with
  | None =>
      export_classification_by_name client get_classification_details fs repr self
        timestamp utcnow classification_name output_dir filename w
      = (Raise ValueError, fetched)
  | Some matching =>
      match matching !! str "id" with
      | Some classification_id =>
          export_classification_by_name client get_classification_details fs repr self
            timestamp utcnow classification_name output_dir filename w
          = export_classification get_classification_details fs repr self timestamp utcnow
              classification_id output_dir filename fetched
      | None =>
          export_classification_by_name client get_classification_details fs repr self
            timestamp utcnow classification_name output_dir filename w
          = (Raise KeyError, fetched)
      end
  end.
Proof.
  intros Hget Hnames fetched.
  assert (Hrun :
    export_classification_by_name client get_classification_details fs repr self
      timestamp utcnow classification_name output_dir filename w
    = match find (same_name classification_name) classifications with
      | None => (Raise ValueError, fetched)
      | Some matching =>
          if negb (dict_truthy matching) then (Raise ValueError, fetched)
          else
            (let* _ := lift (subscript matching (str "name")) in
             let* _ := lift (subscript matching (str "id")) in
             let* classification_id := lift (subscript matching (str "id")) in
             export_classification get_classification_details fs repr self timestamp
               utcnow classification_id output_dir filename) fetched
      end).
  { unfold export_classification_by_name, bind at 1, remote_call at 1. rewrite Hget.
    unfold bind at 1, lift at 1. rewrite (matching_loop_find _ _ Hnames).
    fold fetched. destruct (find _ classifications) as [matching|]; [|reflexivity].
    destruct (dict_truthy matching); reflexivity. }
  destruct (find (same_name classification_name) classifications) as [matching|] eqn:Hfind;
    [|exact Hrun].
  pose proof (found_truthy _ _ _ Hfind) as Htruthy. cbn [Importer.existing_truthy] in Htruthy.
  rewrite Htruthy in Hrun. cbn [negb] in Hrun.
  apply find_some in Hfind as [_ Hsame]. unfold same_name, record_name in Hsame.
  unfold bind, lift, subscript in Hrun.
  destruct (matching !! str "name") as [v|]; [|discriminate].
  destruct (matching !! str "id"); exact Hrun.
Qed.

(** X22.  The export of all records.  Each record ends in exactly one of
    the two counters: after the loop the number of successes and the
    number of failures have grown, together, by the number of records, and
    no exception of a record leaves the loop.  The export of all itself
    raises only if the output directory cannot be created or the list of
    records cannot be fetched. *)
Theorem export_all_counts (self : ClassificationExporter)
    (timestamp_at utcnow_at : nat -> pystr) (output_dir : pystr) :
  (∀ classifications idx success_count failed_count (w : World Σ),
     ∃ success failed w',
       export_all_loop get_classification_details fs repr self timestamp_at utcnow_at
         output_dir idx classifications success_count failed_count w
       = (Ok (success, failed), w') ∧
       success_count ≤ success ∧ failed_count ≤ failed ∧
       success + failed = success_count + failed_count + length classifications) ∧
  (∀ w : World Σ,
     match makedirs fs output_dir, (get_all_classifications client (remote w)).1 with
     | Raise e, _ | Ok _, Raise e =>
         ∃ w', export_all_classifications client get_classification_details fs repr self
                 timestamp_at utcnow_at output_dir w = (Raise e, w')
     | Ok _, Ok _ =>
         ∃ w', export_all_classifications client get_classification_details fs repr self
                 timestamp_at utcnow_at output_dir w = (Ok tt, w')
     end).
Proof.
  assert (Hloop : ∀ classifications idx success_count failed_count (w : World Σ),
     ∃ success failed w',
       export_all_loop get_classification_details fs repr self timestamp_at utcnow_at
         output_dir idx classifications success_count failed_count w
       = (Ok (success, failed), w') ∧
       success_count ≤ success ∧ failed_count ≤ failed ∧
       success + failed = success_count + failed_count + length classifications).
  { induction classifications as [|c classifications IH];
      intros idx success_count failed_count w.
    - exists success_count, failed_count, w. cbn. split; [reflexivity|]. lia.
    - cbn [export_all_loop]. unfold bind at 1, try_except at 1, bind at 1.
      destruct (details_call get_classification_details (get c (str "id")) w)
        as [[details|e] w1].
      + unfold bind at 1, alloc at 1. unfold bind at 1.
        destruct (save_classification_to_file fs self (utcnow_at idx) _ _ output_dir _)
          as [[[]|e] w2]; unfold ret; cbn [fst snd].
        * destruct (IH (S idx) (S success_count) failed_count w2)
            as (success & failed & w' & -> & Hs & Hf & Hsum).
          exists success, failed, w'. split; [reflexivity|]. cbn [length]. lia.
        * destruct (IH (S idx) success_count (S failed_count) w2)
            as (success & failed & w' & -> & Hs & Hf & Hsum).
          exists success, failed, w'. split; [reflexivity|]. cbn [length]. lia.
      + unfold ret; cbn [fst snd].
        destruct (IH (S idx) success_count (S failed_count) w1)
          as (success & failed & w' & -> & Hs & Hf & Hsum).
        exists success, failed, w'. split; [reflexivity|]. cbn [length]. lia. }
  split; [exact Hloop|].
  intros w. destruct (makedirs fs output_dir) as [[]|e] eqn:Hmk.
  2:{ eexists. unfold export_all_classifications, bind at 1, os_call at 1.
      rewrite Hmk. reflexivity. }
  destruct (get_all_classifications client (remote w)) as [[classifications|e] σ1] eqn:Hget;
    cbn [fst];
    unfold export_all_classifications, bind at 1, os_call at 1; rewrite Hmk;
    unfold bind at 1, remote_call at 1; cbn [heap remote trace]; rewrite Hget.
  - case_bool_decide; [unfold ret; eauto|].
    unfold bind at 1.
    match goal with
    | |- context [export_all_loop _ _ _ _ _ _ _ 1 classifications 0 0 ?w0] =>
        destruct (Hloop classifications 1 0 0 w0) as (success & failed & w' & -> & _)
    end.
    unfold ret. eauto.
  - eauto.
Qed.

End ExporterMethods.

Section Run24.
#[local] Existing Instance Test.python.

(** X20, on a run: the record "PII" is exported by its identifier, without
    a file name. *)
Lemma export_classification_writes_witness :
  ∃ w',
    ExporterMore.export_classification TestMore.memory_details Test.plain_fs
      TestMore.plain_repr Test.exporter (str "20240131_093000")
      (str "Wed, 31 Jan 2024 09:30:00 GMT") (JNum 0) (str "./output") None
      (Test.fresh_world TestMore.store_with_pii)
    = (Ok tt, w') ∧
    remote w' = TestMore.store_with_pii ∧
    trace w' =
      [CallMakedirs (str "./output");
       CallWrite (str "./output/PII_classification_20240131_093000.json")
         (Spec.exported Test.exporter (str "Wed, 31 Jan 2024 09:30:00 GMT")
            (<[str "id" := JNum 0]> Test.pii))].
Proof.
  destruct (proj2 (export_classification_writes TestMore.memory_details Test.plain_fs
                     TestMore.plain_repr Test.exporter (str "20240131_093000")
                     (str "Wed, 31 Jan 2024 09:30:00 GMT") (JNum 0) (str "./output") None
                     (Test.fresh_world TestMore.store_with_pii))
              (<[str "id" := JNum 0]> Test.pii) TestMore.store_with_pii eq_refl eq_refl)
    as (w' & Hrun & Hremote & Htrace).
  exists w'. split; [exact Hrun|]. split; [exact Hremote|].
  rewrite Htrace. vm_compute. reflexivity.
Defined.

End Run24.

Section Run25.
#[local] Existing Instance Test.python.

(** X21, on a run: the export by the name "pii" is the export by the
    identifier 0. *)
Lemma export_classification_by_name_cases_witness :
  ExporterMore.export_classification_by_name Test.memory_client TestMore.memory_details
    Test.plain_fs TestMore.plain_repr Test.exporter (str "20240131_093000")
    (str "Wed, 31 Jan 2024 09:30:00 GMT") (str "pii") (str "./output") None
    (Test.fresh_world TestMore.store_with_pii)
  = ExporterMore.export_classification TestMore.memory_details Test.plain_fs
      TestMore.plain_repr Test.exporter (str "20240131_093000")
      (str "Wed, 31 Jan 2024 09:30:00 GMT") (JNum 0) (str "./output") None
      {| heap := ∅; remote := TestMore.store_with_pii; trace := [CallGetAll] |}.
Proof.
  pose proof (export_classification_by_name_cases Test.memory_client
                TestMore.memory_details Test.plain_fs TestMore.plain_repr Test.exporter
                (str "20240131_093000") (str "Wed, 31 Jan 2024 09:30:00 GMT") (str "pii")
                (str "./output") None (Test.fresh_world TestMore.store_with_pii)
                TestMore.store_with_pii TestMore.store_with_pii eq_refl) as Hcases.
  assert (Hfind : find (Spec.same_name (str "pii")) TestMore.store_with_pii
                  = Some (<[str "id" := JNum 0]> Test.pii)) by (vm_compute; reflexivity).
  assert (Hid : (<[str "id" := JNum 0]> Test.pii : dict) !! str "id" = Some (JNum 0))
    by (vm_compute; reflexivity).
  cbv zeta in Hcases. rewrite Hfind, Hid in Hcases. apply Hcases.
  repeat constructor. eexists. vm_compute. reflexivity.
Defined.

End Run25.

(** ** The export program *)

Section ExporterProgram.
Import Exporter ExporterMore.
Context {py : Runtime} {Σ : Type}.

(** The end of a program: the operation, the usage log, the status. *)
Lemma program_tail (op : M (World Σ) unit) (log : result unit) (w : World Σ) :
  ∃ status w',
    try_except (op ;; lift log ;; ret 0) (fun e => ret 1) w = (Ok status, w') ∧
    (status = 0 ∨ status = 1) ∧
    (status = 0 → log = Ok tt).
Proof.
  unfold try_except, bind, lift, ret.
  destruct (op w) as [[[]|e] w1]; [destruct log as [[]|e]|];
    eexists _, _; (split; [reflexivity|]); (split; [auto|]);
    first [reflexivity | intros; reflexivity | discriminate].
Qed.

(** The program after its arguments are parsed: its status is 0 or 1; the
    modes. *)
Lemma exporter_run_modes (fs : FileSystem) (repr : json -> pystr) (args : Args)
    (env : Env Σ) (w : World Σ) :
  let count :=
    as_number (ImporterMain.given (export_id args))
    + as_number (ImporterMain.given (name args))
    + as_number (all args) + as_number (list_ args) in
  ∃ status w',
    run fs repr args env w = (Ok status, w') ∧
    (status = 0 ∨ status = 1) ∧
    (count ≠ 1 → status = 1 ∧ w' = w) ∧
    (status = 0 → count = 1 ∧ (∃ c, connect env = Ok c) ∧ log_usage env = Ok tt).
Proof.
  intros count. subst count. unfold run.
  assert (Hrun : ∀ op : ClassificationExporter → ClassificationsApi Σ →
                       (json → Σ → result dict * Σ) → M (World Σ) unit,
    ∃ status w',
      try_except
        (let* connected := lift (connect env) in
         let '(exporter, client, details) := connected in
         op exporter client details ;; lift (log_usage env) ;; ret 0)
        (fun e => ret 1) w = (Ok status, w') ∧
      (status = 0 ∨ status = 1) ∧
      (1 ≠ 1 → status = 1 ∧ w' = w) ∧
      (status = 0 → 1 = 1 ∧ (∃ c, connect env = Ok c) ∧ log_usage env = Ok tt)).
  { intros op. destruct (connect env) as [[[exporter client] details]|e] eqn:Hconnect.
    - destruct (program_tail (op exporter client details) (log_usage env) w)
        as (status & w' & Hrun & Hstatus & Hzero).
      exists status, w'. split; [|split; [exact Hstatus|split]].
      + unfold try_except, bind at 1, lift at 1. exact Hrun.
      + intros H. exfalso. apply H. reflexivity.
      + intros H. split; [reflexivity|]. split; [eauto|auto].
    - eexists 1, w. split; [reflexivity|]. split; [auto|].
      split; [intros _; split; reflexivity|discriminate]. }
  destruct (list_ args), (ImporterMain.given (export_id args)),
    (ImporterMain.given (name args)), (all args); cbn [existsb id negb orb as_number Nat.add];
    try (eexists 1, w; split; [reflexivity|]; split; [auto|];
         split; [intros _; split; reflexivity|discriminate]).
  all: cbn [Nat.ltb Nat.leb]; apply Hrun.
Qed.

(** X23.  The modes of the export program.  The program always ends, with
    status 0, 1 or 2.  It ends with 2 exactly when [argparse] rejects the
    command line, and with 0, nothing done, when the help was asked for
    with [-h].  Otherwise, unless exactly one of [--list], [--export-id],
    [--name] and [--all] is given (an empty identifier or name counts as
    not given), it ends with status 1 before logging in: nothing is
    fetched, created or written; and it ends with status 0 only if logging
    in succeeded and the usage could be logged. *)
Theorem exporter_main_modes (fs : FileSystem) (repr : json -> pystr)
    (command_line : parsed Args) (env : Env Σ) (w : World Σ) :
  ∃ status w',
    main fs repr command_line env w = (Ok status, w') ∧
    (status = 0 ∨ status = 1 ∨ status = 2) ∧
    (status = 2 ↔ command_line = UsageError) ∧
    (command_line = Help → status = 0 ∧ w' = w) ∧
    (∀ args, command_line = Parsed args →
       let count :=
         as_number (ImporterMain.given (export_id args))
         + as_number (ImporterMain.given (name args))
         + as_number (all args) + as_number (list_ args) in
       (count ≠ 1 → status = 1 ∧ w' = w) ∧
       (status = 0 → count = 1 ∧ (∃ c, connect env = Ok c) ∧ log_usage env = Ok tt)).
Proof.
  destruct command_line as [| |args]; cbn [main].
  - exists 0, w. split; [reflexivity|]. split; [auto|].
    split; [split; discriminate|]. split; [auto|]. intros args H. discriminate.
  - exists 2, w. split; [reflexivity|]. split; [auto|].
    split; [split; reflexivity|]. split; [discriminate|]. intros args H. discriminate.
  - destruct (exporter_run_modes fs repr args env w)
      as (status & w' & Hrun & Hstatus & Hmodes).
    exists status, w'. split; [exact Hrun|]. split; [tauto|].
    split; [split; [intros ->; destruct Hstatus; discriminate|discriminate]|].
    split; [discriminate|]. intros args0 [= <-]. exact Hmodes.
Qed.

End ExporterProgram.

Section Run26.
#[local] Existing Instance Test.python.

(** X23, on a run: [--list] and [--all] together. *)
Lemma exporter_main_modes_witness :
  ExporterMore.main Test.plain_fs TestMore.plain_repr
    (Parsed
       {| ExporterMore.list_ := true; ExporterMore.export_id := None;
          ExporterMore.name := Some []; ExporterMore.all := true;
          ExporterMore.output := None; ExporterMore.output_dir := str "./output";
          ExporterMore.verbose := false |})
    {| ExporterMore.connect :=
         Ok (Test.exporter, Test.memory_client, TestMore.memory_details);
       ExporterMore.log_usage := Ok tt;
       ExporterMore.timestamp_at := fun _ => str "20240131_093000";
       ExporterMore.utcnow_at := fun _ => str "Wed, 31 Jan 2024 09:30:00 GMT" |}
    (Test.fresh_world TestMore.store_with_pii)
  = (Ok 1, Test.fresh_world TestMore.store_with_pii).
Proof.
  destruct (exporter_main_modes Test.plain_fs TestMore.plain_repr
              (Parsed
                 {| ExporterMore.list_ := true; ExporterMore.export_id := None;
                    ExporterMore.name := Some []; ExporterMore.all := true;
                    ExporterMore.output := None; ExporterMore.output_dir := str "./output";
                    ExporterMore.verbose := false |})
              {| ExporterMore.connect :=
                   Ok (Test.exporter, Test.memory_client, TestMore.memory_details);
                 ExporterMore.log_usage := Ok tt;
                 ExporterMore.timestamp_at := fun _ => str "20240131_093000";
                 ExporterMore.utcnow_at := fun _ => str "Wed, 31 Jan 2024 09:30:00 GMT" |}
              (Test.fresh_world TestMore.store_with_pii))
    as (status & w' & Hrun & _ & _ & _ & Hmodes).
  destruct (Hmodes _ eq_refl) as [Hcount _].
  destruct Hcount as [-> ->]; [vm_compute; discriminate|]. exact Hrun.
Defined.

End Run26.
